(** * spectrum_cs: PCMCIA attachment and firmware-reset control

    A shallow embedding of [drivers/net/wireless/orinoco/spectrum_cs.c]
    and the properties of its reset sequence, its CIS configuration check,
    its configure path and its release path.

    The driver talks to two collaborators whose code is not part of the
    file: PCMCIA Card Services (register access, I/O, IRQ and socket
    configuration requests) and the orinoco core.  Both are kept abstract
    (class [environment]); every call the driver makes to them is recorded
    in a trace, so that statements such as "no register is accessed" are
    statements about that trace. *)

From Stdlib Require Import ZArith List Bool Lia String.
Import ListNotations.
Open Scope Z_scope.

Set Implicit Arguments.

(** ** Constants taken from the kernel headers

    [<pcmcia/cs.h>], [<pcmcia/cisreg.h>], [<pcmcia/cistpl.h>],
    [<linux/errno.h>] and [hermes.h] are not part of the driver file; the
    values of their macros are parameters of the development. *)

Class headers : Type := {
  ENODEV : Z;
  CS_READ : Z;
  CS_WRITE : Z;
  CISREG_COR : Z;
  CISREG_CCSR : Z;
  COR_SOFT_RESET : Z;
  CISTPL_POWER_VNOM : Z;
  CISTPL_IO_8BIT : Z;
  CISTPL_IO_16BIT : Z;
  CISTPL_IO_LINES_MASK : Z;
  IO_DATA_PATH_WIDTH_AUTO : Z;
  IO_DATA_PATH_WIDTH_16 : Z;
  IO_DATA_PATH_WIDTH_8 : Z;
  CONF_ENABLE_IRQ : Z;
  HERMES_16BIT_REGSPACING : Z
}.

(** Constants for the CISREG_CCSR register (defined by the driver). *)
Definition HCR_RUN : Z := 0x07.
Definition HCR_IDLE : Z := 0x0E.
Definition HCR_MEM16 : Z := 0x10.

(** [u_int] arithmetic: results are reduced modulo 2^32. *)
Definition u32 (x : Z) : Z := x mod 2 ^ 32.

(** [int] arithmetic: 32 bits, two's complement; an increment past
    [INT_MAX] wraps to [INT_MIN]. *)
Definition s32 (x : Z) : Z := (x + 2 ^ 31) mod 2 ^ 32 - 2 ^ 31.

(** ** Data structures *)

(** [conf_reg_t], the argument of AccessConfigurationRegister. *)
Record conf_reg_t : Type := {
  reg_Function : Z;
  reg_Action : Z;
  reg_Offset : Z;
  reg_Value : Z
}.

(** [cistpl_power_t]: a bit mask of the parameters that are present and the
    parameter array. *)
Record cistpl_power_t : Type := {
  pw_present : Z;
  pw_param : list Z
}.

Record cistpl_io_win : Type := {
  win_base : Z;
  win_len : Z
}.

(** [cistpl_io_t]: capability flags, number of windows, window array. *)
Record cistpl_io_t : Type := {
  io_flags : Z;
  io_nwin : Z;
  io_win : list cistpl_io_win
}.

(** [cistpl_cftable_entry_t], restricted to the fields the driver reads. *)
Record cistpl_cftable_entry_t : Type := {
  cf_index : Z;
  cf_vcc : cistpl_power_t;
  cf_vpp1 : cistpl_power_t;
  cf_io : cistpl_io_t
}.

(** [io_req_t] *)
Record io_req_t : Type := {
  BasePort1 : Z;
  NumPorts1 : Z;
  Attributes1 : Z;
  BasePort2 : Z;
  NumPorts2 : Z;
  Attributes2 : Z;
  IOAddrLines : Z
}.

(** [config_req_t], restricted to the fields the driver writes. *)
Record config_req_t : Type := {
  conf_Attributes : Z;
  conf_Vpp : Z;
  conf_IntType : Z
}.

(** [irq_req_t], restricted to the fields the driver uses after probe. *)
Record irq_req_t : Type := {
  irq_Attributes : Z;
  irq_IRQInfo1 : Z;
  AssignedIRQ : Z
}.

(** [dev_node_t] of [struct orinoco_pccard]. *)
Record dev_node_t : Type := {
  node_major : Z;
  node_minor : Z;
  node_dev_name : string
}.

(** The driver-visible part of [struct pcmcia_device].  [dev_node] is the
    pointer [link->dev_node]: [true] when it points to [card->node]. *)
Record pcmcia_device : Type := {
  conf : config_req_t;
  io : io_req_t;
  irq : irq_req_t;
  dev_node : bool
}.

(** [hermes_t]: [iobase] is a pointer, 0 is NULL. *)
Record hermes_t : Type := {
  iobase : Z;
  reg_spacing : Z
}.

(** [struct orinoco_private] with its [card] field ([struct
    orinoco_pccard]) inlined, restricted to what the driver touches. *)
Record orinoco_private : Type := {
  hw : hermes_t;
  hw_unavailable : Z;
  card_node : dev_node_t;
  ndev_name : string
}.

(** Card Services function codes passed to [cs_error]. *)
Inductive service : Type :=
| AccessConfigurationRegister
| RequestIO
| RequestIRQ
| RequestConfiguration.

(** Calls that leave the driver, in program order. *)
Inductive event : Type :=
| EvAccessConfigurationRegister (req : conf_reg_t) (ret : Z) (resp : conf_reg_t)
| EvUdelay (usecs : Z)
| EvCsError (fn : service) (ret : Z)
| EvDebugVccMismatch (vcc cis : Z)
| EvPrintk (msg : string)
| EvRequestIO (req : io_req_t) (ret : Z)
| EvDisableDevice
| EvRequestIRQ (req : irq_req_t) (ret : Z)
| EvIoportMap (port nr mem : Z)
| EvIoportUnmap (mem : Z)
| EvRequestConfiguration (req : config_req_t) (ret : Z)
| EvOrinocoInit (ret : Z)
| EvOrinocoIfAdd (base_addr irq_nr ret : Z)
| EvSpinLock
| EvSpinUnlock.

(** ** The collaborators

    [world] is the state of everything outside the driver: the socket, the
    card, Card Services' own bookkeeping and the orinoco core.  A function
    that receives a pointer to a request structure returns the structure as
    it leaves it.  The Card Services functions also receive the device
    itself; they are taken to work on their own bookkeeping and on the
    request structure they are handed, and to leave the other fields the
    driver fills in ([conf], [io], [irq], [dev_node]) alone. *)

Class environment (world : Type) : Type := {
  (** [pcmcia_dev_present] *)
  cs_dev_present : world -> bool;
  (** [pcmcia_access_configuration_register(link, &reg)] *)
  cs_access_configuration_register :
    conf_reg_t -> world -> Z * conf_reg_t * world;
  (** [pcmcia_request_io(p_dev, &p_dev->io)] *)
  cs_request_io : io_req_t -> world -> Z * io_req_t * world;
  (** [pcmcia_disable_device] *)
  cs_disable_device : world -> world;
  (** [pcmcia_request_irq(link, &link->irq)] *)
  cs_request_irq : irq_req_t -> world -> Z * irq_req_t * world;
  (** [pcmcia_request_configuration(link, &link->conf)] *)
  cs_request_configuration : config_req_t -> world -> Z * world;
  (** [ioport_map(port, nr)]; 0 is NULL *)
  cs_ioport_map : Z -> Z -> world -> Z * world;
  (** [ioport_unmap(addr)] *)
  cs_ioport_unmap : Z -> world -> world;
  (** [hermes_struct_init(hw, address, reg_spacing)] *)
  hermes_struct_init : hermes_t -> Z -> Z -> hermes_t;
  (** [orinoco_init(priv)] *)
  core_orinoco_init : orinoco_private -> world -> Z * orinoco_private * world;
  (** [orinoco_if_add(priv, base_addr, irq)] *)
  core_orinoco_if_add :
    orinoco_private -> Z -> Z -> world -> Z * orinoco_private * world;
  (** The configuration table of the card as the bus parses it: the
      candidate entries in CIS order and the default entry. *)
  cis_entries : world -> list cistpl_cftable_entry_t;
  cis_default : world -> cistpl_cftable_entry_t;
  (** The current Vcc setting of the socket. *)
  socket_Vcc : world -> Z;
  (** The indeterminate content of an automatic variable that is handed
      out by pointer before the driver has assigned it. *)
  uninitialised : world -> Z
}.

(** ** Machine state and control flow *)

Section Machine.

Context {world : Type}.

(** The memory the driver works on: the outside world, the two structures
    the driver shares with its callers, and the trace of outgoing calls. *)
Record machine : Type := {
  outside : world;
  link : pcmcia_device;
  priv : orinoco_private;
  trace : list event
}.

(** A C function body: it ends either normally or by a [goto] to one of the
    labels of type [L] at the end of the function. *)
Inductive outcome (L A : Type) : Type :=
| Normal (a : A)
| Goto (label : L).

Definition ST (A : Type) : Type := machine -> A * machine.
Definition body (L A : Type) : Type := machine -> outcome L A * machine.

Definition ret {L A} (a : A) : body L A := fun s => (Normal L a, s).

Definition goto {L A} (l : L) : body L A := fun s => (Goto A l, s).

Definition bind {L A B} (m : body L A) (k : A -> body L B) : body L B :=
  fun s =>
    match m s with
    | (Normal _ a, s') => k a s'
    | (Goto _ l, s') => (Goto B l, s')
    end.

(** A call of a function that always returns. *)
Definition call {L A} (f : ST A) : body L A :=
  fun s => let '(a, s') := f s in (Normal L a, s').

(** The labelled tail of a function. *)
Definition labels {L A} (m : body L A) (h : L -> ST A) : ST A :=
  fun s =>
    match m s with
    | (Normal _ a, s') => (a, s')
    | (Goto _ l, s') => h l s'
    end.

(** Sequencing of calls that always return. *)
Definition seq {A B} (m : ST A) (k : A -> ST B) : ST B :=
  fun s => let '(a, s') := m s in k a s'.

Definition done {A} (a : A) : ST A := fun s => (a, s).

Definition emit (e : event) : ST unit :=
  fun s => (tt, {| outside := outside s; link := link s; priv := priv s;
                   trace := trace s ++ [e] |}).

Definition set_link (l : pcmcia_device) (s : machine) : machine :=
  {| outside := outside s; link := l; priv := priv s; trace := trace s |}.

Definition set_priv (p : orinoco_private) (s : machine) : machine :=
  {| outside := outside s; link := link s; priv := p; trace := trace s |}.

End Machine.

Arguments machine : clear implicits.
Arguments ST : clear implicits.
Arguments body : clear implicits.

Declare Scope body_scope.
Delimit Scope body_scope with body.
Notation "x <- m ;; k" := (bind m (fun x => k))
  (at level 61, m at next level, right associativity) : body_scope.
Notation "' p <- m ;; k" := (bind m (fun p => k))
  (at level 61, p pattern, m at next level, right associativity) : body_scope.
Notation "m ;;; k" := (bind m (fun _ => k))
  (at level 61, right associativity) : body_scope.

Declare Scope st_scope.
Delimit Scope st_scope with st.
Notation "x <- m ;; k" := (seq m (fun x => k))
  (at level 61, m at next level, right associativity) : st_scope.
Notation "m ;;; k" := (seq m (fun _ => k))
  (at level 61, right associativity) : st_scope.

(** The labels of the three functions that use [goto]. *)
Module reset_labels.
Inductive t : Type :=
| cs_failed (last_fn : service) (last_ret : Z).
End reset_labels.

Module check_labels.
Inductive t : Type :=
| next_entry.
End check_labels.

Module config_labels.
Inductive t : Type :=
| cs_failed (last_fn : service) (last_ret : Z)
| failed.
End config_labels.

(** ** The driver *)

Section Driver.

Context {world : Type} {hdr : headers} {env : environment world}.

(** Module parameter [ignore_cis_vcc]. *)
Variable ignore_cis_vcc : Z.

Local Open Scope body_scope.

(** *** Calls to the collaborators, recorded in the trace *)

Definition pcmcia_access_configuration_register (reg : conf_reg_t)
  : ST world (Z * conf_reg_t) :=
  fun s =>
    let '(r, reg', w) := cs_access_configuration_register reg (outside s) in
    ((r, reg'),
     {| outside := w; link := link s; priv := priv s;
        trace := trace s ++ [EvAccessConfigurationRegister reg r reg'] |}).

Definition udelay (usecs : Z) : ST world unit := emit (EvUdelay usecs).

Definition cs_error (fn : service) (r : Z) : ST world unit :=
  emit (EvCsError fn r).

(** [CS_CHECK(fn, ret)]:
    [last_fn = (fn); if ((last_ret = (ret)) != 0) goto cs_failed;]
    The caller gets the two locals and what the call left behind its
    pointer argument. *)
Definition CS_CHECK {L A} (cs_failed : service -> Z -> L) (fn : service)
  (f : ST world (Z * A)) : body world L (service * Z * A) :=
  fun s =>
    let '((last_ret, a), s') := f s in
    if negb (last_ret =? 0) then (Goto _ (cs_failed fn last_ret), s')
    else (Normal _ (fn, last_ret, a), s').

(** *** spectrum_reset (lines 83-139)

    Reset the card using configuration registers COR and CCSR.
    If IDLE is 1, stop the firmware, so that it can be safely rewritten. *)
Definition spectrum_reset (idle : Z) : ST world Z :=
  fun s =>
    (* Doing it if hardware is gone is guaranteed crash *)
    if negb (cs_dev_present (outside s)) then (- ENODEV, s)
    else
      labels
        ((* Save original COR value *)
         let reg := {| reg_Function := 0; reg_Action := CS_READ;
                       reg_Offset := CISREG_COR;
                       reg_Value := uninitialised (outside s) |} in
         '(_, _, reg) <- CS_CHECK reset_labels.cs_failed
                           AccessConfigurationRegister
                           (pcmcia_access_configuration_register reg) ;;
         let save_cor := reg_Value reg in
         (* Soft-Reset card *)
         let reg := {| reg_Function := reg_Function reg;
                       reg_Action := CS_WRITE; reg_Offset := CISREG_COR;
                       reg_Value := u32 (Z.lor save_cor COR_SOFT_RESET) |} in
         '(_, _, reg) <- CS_CHECK reset_labels.cs_failed
                           AccessConfigurationRegister
                           (pcmcia_access_configuration_register reg) ;;
         call (udelay 1000) ;;;
         (* Read CCSR *)
         let reg := {| reg_Function := reg_Function reg;
                       reg_Action := CS_READ; reg_Offset := CISREG_CCSR;
                       reg_Value := reg_Value reg |} in
         '(_, _, reg) <- CS_CHECK reset_labels.cs_failed
                           AccessConfigurationRegister
                           (pcmcia_access_configuration_register reg) ;;
         (* Start or stop the firmware.  Memory width bit should be
            preserved from the value we've just read. *)
         let reg := {| reg_Function := reg_Function reg;
                       reg_Action := CS_WRITE; reg_Offset := CISREG_CCSR;
                       reg_Value :=
                         u32 (Z.lor (if idle =? 0 then HCR_RUN else HCR_IDLE)
                                    (Z.land (reg_Value reg) HCR_MEM16)) |} in
         '(_, _, reg) <- CS_CHECK reset_labels.cs_failed
                           AccessConfigurationRegister
                           (pcmcia_access_configuration_register reg) ;;
         call (udelay 1000) ;;;
         (* Restore original COR configuration index *)
         let reg := {| reg_Function := reg_Function reg;
                       reg_Action := CS_WRITE; reg_Offset := CISREG_COR;
                       reg_Value :=
                         u32 (Z.land save_cor (Z.lnot COR_SOFT_RESET)) |} in
         '(_, _, _) <- CS_CHECK reset_labels.cs_failed
                         AccessConfigurationRegister
                         (pcmcia_access_configuration_register reg) ;;
         call (udelay 1000) ;;;
         ret 0)
        (fun l =>
           match l with
           | reset_labels.cs_failed last_fn last_ret =>
               (cs_error last_fn last_ret ;;;
                done (- ENODEV))%st
           end)
        s.

(** *** Device methods (lines 145-164) *)

Definition spectrum_cs_hard_reset : ST world Z :=
  ((* Soft reset using COR and HCR *)
   spectrum_reset 0 ;;;
   done 0)%st.

Definition spectrum_cs_stop_firmware (idle : Z) : ST world Z :=
  fun s => spectrum_reset idle s.

(** *** spectrum_cs_config_check (lines 236-302) *)

(** Field updates of [p_dev->conf] and [p_dev->io]. *)
Definition modify_link (f : pcmcia_device -> pcmcia_device) : ST world unit :=
  fun s => (tt, set_link (f (link s)) s).

Definition set_conf (c : config_req_t) (l : pcmcia_device) : pcmcia_device :=
  {| conf := c; io := io l; irq := irq l; dev_node := dev_node l |}.

Definition set_io (r : io_req_t) (l : pcmcia_device) : pcmcia_device :=
  {| conf := conf l; io := r; irq := irq l; dev_node := dev_node l |}.

Definition set_irq (r : irq_req_t) (l : pcmcia_device) : pcmcia_device :=
  {| conf := conf l; io := io l; irq := r; dev_node := dev_node l |}.

Definition set_conf_Vpp (v : Z) (l : pcmcia_device) : pcmcia_device :=
  set_conf {| conf_Attributes := conf_Attributes (conf l); conf_Vpp := v;
              conf_IntType := conf_IntType (conf l) |} l.

Definition set_conf_Attributes (v : Z) (l : pcmcia_device) : pcmcia_device :=
  set_conf {| conf_Attributes := v; conf_Vpp := conf_Vpp (conf l);
              conf_IntType := conf_IntType (conf l) |} l.

Definition set_BasePort1 (v : Z) (r : io_req_t) : io_req_t :=
  {| BasePort1 := v; NumPorts1 := NumPorts1 r; Attributes1 := Attributes1 r;
     BasePort2 := BasePort2 r; NumPorts2 := NumPorts2 r;
     Attributes2 := Attributes2 r; IOAddrLines := IOAddrLines r |}.

Definition set_NumPorts1 (v : Z) (r : io_req_t) : io_req_t :=
  {| BasePort1 := BasePort1 r; NumPorts1 := v; Attributes1 := Attributes1 r;
     BasePort2 := BasePort2 r; NumPorts2 := NumPorts2 r;
     Attributes2 := Attributes2 r; IOAddrLines := IOAddrLines r |}.

Definition set_Attributes1 (v : Z) (r : io_req_t) : io_req_t :=
  {| BasePort1 := BasePort1 r; NumPorts1 := NumPorts1 r; Attributes1 := v;
     BasePort2 := BasePort2 r; NumPorts2 := NumPorts2 r;
     Attributes2 := Attributes2 r; IOAddrLines := IOAddrLines r |}.

Definition set_BasePort2 (v : Z) (r : io_req_t) : io_req_t :=
  {| BasePort1 := BasePort1 r; NumPorts1 := NumPorts1 r;
     Attributes1 := Attributes1 r;
     BasePort2 := v; NumPorts2 := NumPorts2 r;
     Attributes2 := Attributes2 r; IOAddrLines := IOAddrLines r |}.

Definition set_NumPorts2 (v : Z) (r : io_req_t) : io_req_t :=
  {| BasePort1 := BasePort1 r; NumPorts1 := NumPorts1 r;
     Attributes1 := Attributes1 r;
     BasePort2 := BasePort2 r; NumPorts2 := v;
     Attributes2 := Attributes2 r; IOAddrLines := IOAddrLines r |}.

Definition set_Attributes2 (v : Z) (r : io_req_t) : io_req_t :=
  {| BasePort1 := BasePort1 r; NumPorts1 := NumPorts1 r;
     Attributes1 := Attributes1 r;
     BasePort2 := BasePort2 r; NumPorts2 := NumPorts2 r;
     Attributes2 := v; IOAddrLines := IOAddrLines r |}.

Definition set_IOAddrLines (v : Z) (r : io_req_t) : io_req_t :=
  {| BasePort1 := BasePort1 r; NumPorts1 := NumPorts1 r;
     Attributes1 := Attributes1 r;
     BasePort2 := BasePort2 r; NumPorts2 := NumPorts2 r;
     Attributes2 := Attributes2 r; IOAddrLines := v |}.

Definition modify_io (f : io_req_t -> io_req_t) : ST world unit :=
  modify_link (fun l => set_io (f (io l)) l).

(** [pw.present & (1 << i)] *)
Definition power_present (pw : cistpl_power_t) (i : Z) : bool :=
  negb (Z.land (pw_present pw) (Z.shiftl 1 i) =? 0).

(** [pw.param[i]]; the array has seven cells, and cells the list does not
    reach read as 0. *)
Definition power_param (pw : cistpl_power_t) (i : Z) : Z :=
  nth (Z.to_nat i) (pw_param pw) 0.

(** [io->win[i]]; cells the list does not reach read as 0. *)
Definition win (c : cistpl_io_t) (i : nat) : cistpl_io_win :=
  nth i (io_win c) {| win_base := 0; win_len := 0 |}.

(** The [DEBUG(2, "%s: Vcc mismatch (vcc = %d, CIS = %d)\n", ...)] line;
    whether the macro prints depends on the debug level of the orinoco
    core. *)
Definition DEBUG_Vcc_mismatch (vcc cis : Z) : ST world unit :=
  emit (EvDebugVccMismatch vcc cis).

Definition pcmcia_request_io : ST world Z :=
  fun s =>
    let '(r, io', w) := cs_request_io (io (link s)) (outside s) in
    (r, {| outside := w; link := set_io io' (link s); priv := priv s;
           trace := trace s ++ [EvRequestIO (io (link s)) r] |}).

Definition pcmcia_disable_device : ST world unit :=
  fun s =>
    (tt, {| outside := cs_disable_device (outside s); link := link s;
            priv := priv s; trace := trace s ++ [EvDisableDevice] |}).

(** Lines 247-263: use power settings for Vcc if present.  Note that the
    CIS values need to be rescaled. *)
Definition check_Vcc (cfg dflt : cistpl_cftable_entry_t) (vcc : Z)
  : body world check_labels.t unit :=
  if power_present (cf_vcc cfg) CISTPL_POWER_VNOM then
    if negb (vcc =? power_param (cf_vcc cfg) CISTPL_POWER_VNOM / 10000) then
      call (DEBUG_Vcc_mismatch vcc
              (power_param (cf_vcc cfg) CISTPL_POWER_VNOM / 10000)) ;;;
      if ignore_cis_vcc =? 0 then goto check_labels.next_entry else ret tt
    else ret tt
  else if power_present (cf_vcc dflt) CISTPL_POWER_VNOM then
    if negb (vcc =? power_param (cf_vcc dflt) CISTPL_POWER_VNOM / 10000) then
      call (DEBUG_Vcc_mismatch vcc
              (power_param (cf_vcc dflt) CISTPL_POWER_VNOM / 10000)) ;;;
      if ignore_cis_vcc =? 0 then goto check_labels.next_entry else ret tt
    else ret tt
  else ret tt.

(** Lines 265-273: Vpp and the interrupt attribute. *)
Definition set_Vpp_and_irq (cfg dflt : cistpl_cftable_entry_t)
  : body world check_labels.t unit :=
  (if power_present (cf_vpp1 cfg) CISTPL_POWER_VNOM then
     call (modify_link
             (set_conf_Vpp
                (u32 (power_param (cf_vpp1 cfg) CISTPL_POWER_VNOM / 10000))))
   else if power_present (cf_vpp1 dflt) CISTPL_POWER_VNOM then
     call (modify_link
             (set_conf_Vpp
                (u32 (power_param (cf_vpp1 dflt) CISTPL_POWER_VNOM / 10000))))
   else ret tt) ;;;
  (* Do we need to allocate an interrupt? *)
  call (modify_link
          (fun l => set_conf_Attributes
                      (u32 (Z.lor (conf_Attributes (conf l)) CONF_ENABLE_IRQ))
                      l)).

(** Lines 276-297: IO window settings. *)
Definition io_window_settings (cfg dflt : cistpl_cftable_entry_t)
  : body world check_labels.t Z :=
  call (modify_io (set_NumPorts2 0)) ;;;
  call (modify_io (set_NumPorts1 0)) ;;;
  if (0 <? io_nwin (cf_io cfg)) || (0 <? io_nwin (cf_io dflt)) then
    let io := if negb (io_nwin (cf_io cfg) =? 0) then cf_io cfg
              else cf_io dflt in
    call (modify_io (set_Attributes1 IO_DATA_PATH_WIDTH_AUTO)) ;;;
    (if Z.land (io_flags io) CISTPL_IO_8BIT =? 0 then
       call (modify_io (set_Attributes1 IO_DATA_PATH_WIDTH_16))
     else ret tt) ;;;
    (if Z.land (io_flags io) CISTPL_IO_16BIT =? 0 then
       call (modify_io (set_Attributes1 IO_DATA_PATH_WIDTH_8))
     else ret tt) ;;;
    call (modify_io
            (set_IOAddrLines (Z.land (io_flags io) CISTPL_IO_LINES_MASK))) ;;;
    call (modify_io (set_BasePort1 (win_base (win io 0)))) ;;;
    call (modify_io (set_NumPorts1 (win_len (win io 0)))) ;;;
    (if 1 <? io_nwin io then
       call (modify_io (fun r => set_Attributes2 (Attributes1 r) r)) ;;;
       call (modify_io (set_BasePort2 (win_base (win io 1)))) ;;;
       call (modify_io (set_NumPorts2 (win_len (win io 1))))
     else ret tt) ;;;
    (* This reserves IO space but doesn't actually enable it *)
    r <- call pcmcia_request_io ;;
    if negb (r =? 0) then goto check_labels.next_entry else ret 0
  else ret 0.

Definition spectrum_cs_config_check (cfg dflt : cistpl_cftable_entry_t)
  (vcc : Z) : ST world Z :=
  labels
    (if cf_index cfg =? 0 then goto check_labels.next_entry
     else
       check_Vcc cfg dflt vcc ;;;
       set_Vpp_and_irq cfg dflt ;;;
       io_window_settings cfg dflt)
    (fun l =>
       match l with
       | check_labels.next_entry =>
           (pcmcia_disable_device ;;;
            done (- ENODEV))%st
       end).

(** *** The scan over the configuration table *)

(** Modelled from the spec: [pcmcia_loop_config] belongs to Card Services
    and is missing from the driver file.  Section 4.2 of the specification:
    the candidate entries are examined in sequence order; a rejected entry
    makes the scan continue, never abort; the first entry that survives all
    checks is returned immediately as the match; the scan fails once the
    sequence is exhausted. *)
Fixpoint cis_scan (conf_check : cistpl_cftable_entry_t ->
                                cistpl_cftable_entry_t -> Z -> ST world Z)
  (entries : list cistpl_cftable_entry_t) (dflt : cistpl_cftable_entry_t)
  (vcc : Z) : ST world (option cistpl_cftable_entry_t) :=
  match entries with
  | [] => done None
  | cfg :: rest =>
      (r <- conf_check cfg dflt vcc ;;
       if r =? 0 then done (Some cfg)
       else cis_scan conf_check rest dflt vcc)%st
  end.

(** Modelled from the spec: the value [pcmcia_loop_config] hands back to
    the driver, 0 for a match and an error code (here [-ENODEV], the code
    of the last rejection) for "no matching configuration"; the scan reads
    the table, the default entry and the requested voltage from the
    socket. *)
Definition pcmcia_loop_config
  (conf_check : cistpl_cftable_entry_t ->
                cistpl_cftable_entry_t -> Z -> ST world Z) : ST world Z :=
  fun s =>
    let '(m, s') :=
      cis_scan conf_check (cis_entries (outside s)) (cis_default (outside s))
        (socket_Vcc (outside s)) s in
    match m with
    | Some _ => (0, s')
    | None => (- ENODEV, s')
    end.

(** *** spectrum_cs_release (lines 402-417) *)

Definition set_hw_unavailable (v : Z) (p : orinoco_private) : orinoco_private :=
  {| hw := hw p; hw_unavailable := v; card_node := card_node p;
     ndev_name := ndev_name p |}.

Definition set_hw (h : hermes_t) (p : orinoco_private) : orinoco_private :=
  {| hw := h; hw_unavailable := hw_unavailable p; card_node := card_node p;
     ndev_name := ndev_name p |}.

Definition set_card_node (n : dev_node_t) (p : orinoco_private)
  : orinoco_private :=
  {| hw := hw p; hw_unavailable := hw_unavailable p; card_node := n;
     ndev_name := ndev_name p |}.

Definition modify_priv (f : orinoco_private -> orinoco_private)
  : ST world unit :=
  fun s => (tt, set_priv (f (priv s)) s).

Definition ioport_unmap (addr : Z) : ST world unit :=
  fun s =>
    (tt, {| outside := cs_ioport_unmap addr (outside s); link := link s;
            priv := priv s; trace := trace s ++ [EvIoportUnmap addr] |}).

Definition spectrum_cs_release : ST world unit :=
  ((* We're committed to taking the device away now, so mark the
      hardware as unavailable *)
   emit EvSpinLock ;;;
   modify_priv
     (fun p => set_hw_unavailable (s32 (hw_unavailable p + 1)) p) ;;;
   emit EvSpinUnlock ;;;
   pcmcia_disable_device ;;;
   fun s =>
     if negb (iobase (hw (priv s)) =? 0)
     then ioport_unmap (iobase (hw (priv s))) s
     else (tt, s))%st.

(** *** spectrum_cs_config (lines 304-395) *)

Definition printk (msg : string) : ST world unit := emit (EvPrintk msg).

Definition pcmcia_request_irq : ST world (Z * unit) :=
  fun s =>
    let '(r, irq', w) := cs_request_irq (irq (link s)) (outside s) in
    ((r, tt),
     {| outside := w; link := set_irq irq' (link s); priv := priv s;
        trace := trace s ++ [EvRequestIRQ (irq (link s)) r] |}).

Definition pcmcia_request_configuration : ST world (Z * unit) :=
  fun s =>
    let '(r, w) := cs_request_configuration (conf (link s)) (outside s) in
    ((r, tt),
     {| outside := w; link := link s; priv := priv s;
        trace := trace s ++ [EvRequestConfiguration (conf (link s)) r] |}).

Definition ioport_map (port nr : Z) : ST world Z :=
  fun s =>
    let '(mem, w) := cs_ioport_map port nr (outside s) in
    (mem, {| outside := w; link := link s; priv := priv s;
             trace := trace s ++ [EvIoportMap port nr mem] |}).

Definition orinoco_init : ST world Z :=
  fun s =>
    let '(r, p, w) := core_orinoco_init (priv s) (outside s) in
    (r, {| outside := w; link := link s; priv := p;
           trace := trace s ++ [EvOrinocoInit r] |}).

Definition orinoco_if_add (base_addr irq_nr : Z) : ST world Z :=
  fun s =>
    let '(r, p, w) :=
      core_orinoco_if_add (priv s) base_addr irq_nr (outside s) in
    (r, {| outside := w; link := link s; priv := p;
           trace := trace s ++ [EvOrinocoIfAdd base_addr irq_nr r] |}).

Definition spectrum_cs_config : ST world Z :=
  labels
    ((* scan the CIS for configuration table entries *)
     last_ret <- call (pcmcia_loop_config spectrum_cs_config_check) ;;
     (if negb (last_ret =? 0) then
        (if ignore_cis_vcc =? 0 then
           call (printk
                   "spectrum_cs: GetNextTuple(): No matching CIS configuration.  Maybe you need the ignore_cis_vcc=1 parameter.")
         else ret tt) ;;;
        call (cs_error RequestIO last_ret) ;;;
        goto config_labels.failed
      else ret tt) ;;;
     (* Allocate an interrupt line. *)
     '(last_fn, last_ret, _) <- CS_CHECK config_labels.cs_failed RequestIRQ
                                  pcmcia_request_irq ;;
     (* We initialize the hermes structure before completing PCMCIA
        configuration just in case the interrupt handler gets called. *)
     mem <- call (fun s => ioport_map (BasePort1 (io (link s)))
                             (NumPorts1 (io (link s))) s) ;;
     (if mem =? 0 then goto (config_labels.cs_failed last_fn last_ret)
      else ret tt) ;;;
     call (modify_priv
             (fun p => set_hw (hermes_struct_init (hw p) mem
                                 HERMES_16BIT_REGSPACING) p)) ;;;
     (* This actually configures the PCMCIA socket *)
     '(last_fn, last_ret, _) <- CS_CHECK config_labels.cs_failed
                                  RequestConfiguration
                                  pcmcia_request_configuration ;;
     (* Ok, we have the configuration, prepare to register the netdev *)
     call (modify_priv
             (fun p => set_card_node
                         {| node_major := 0; node_minor := 0;
                            node_dev_name := node_dev_name (card_node p) |}
                         p)) ;;;
     (* Reset card *)
     r <- call spectrum_cs_hard_reset ;;
     (if negb (r =? 0) then goto config_labels.failed else ret tt) ;;;
     (* Initialise the main driver *)
     r <- call orinoco_init ;;
     (if negb (r =? 0) then
        call (printk "spectrum_cs: orinoco_init() failed") ;;;
        goto config_labels.failed
      else ret tt) ;;;
     (* Register an interface with the stack *)
     r <- call (fun s => orinoco_if_add (BasePort1 (io (link s)))
                           (AssignedIRQ (irq (link s))) s) ;;
     (if negb (r =? 0) then
        call (printk "spectrum_cs: orinoco_if_add() failed") ;;;
        goto config_labels.failed
      else ret tt) ;;;
     (* At this point, the dev_node_t structure(s) needs to be
        initialized and arranged in a linked list at link->dev_node. *)
     call (modify_priv
             (fun p => set_card_node
                         {| node_major := node_major (card_node p);
                            node_minor := node_minor (card_node p);
                            node_dev_name := ndev_name p |}
                         p)) ;;;
     call (modify_link
             (fun l => {| conf := conf l; io := io l; irq := irq l;
                          dev_node := true |})) ;;;
     ret 0)
    (fun l =>
       match l with
       | config_labels.cs_failed last_fn last_ret =>
           (cs_error last_fn last_ret ;;;
            spectrum_cs_release ;;;
            done (- ENODEV))%st
       | config_labels.failed =>
           (spectrum_cs_release ;;;
            done (- ENODEV))%st
       end).

End Driver.

(** ** A concrete socket

    The header values of the Linux tree the driver belongs to, and a small
    simulated socket that answers the driver's calls.  They serve to run
    the driver on concrete inputs. *)

#[local] Instance linux_headers : headers := {|
  ENODEV := 19;
  CS_READ := 1;
  CS_WRITE := 2;
  CISREG_COR := 0x00;
  CISREG_CCSR := 0x02;
  COR_SOFT_RESET := 0x80;
  CISTPL_POWER_VNOM := 0;
  CISTPL_IO_8BIT := 0x20;
  CISTPL_IO_16BIT := 0x40;
  CISTPL_IO_LINES_MASK := 0x1f;
  IO_DATA_PATH_WIDTH_AUTO := 0x10;
  IO_DATA_PATH_WIDTH_16 := 0x08;
  IO_DATA_PATH_WIDTH_8 := 0x00;
  CONF_ENABLE_IRQ := 0x01;
  HERMES_16BIT_REGSPACING := 0
|}.

(** The card: presence, its two configuration registers, what CCSR shows
    once a soft reset has been pulsed, and how many register accesses are
    served before the bus fails ([None] is no limit). *)
Record card : Type := {
  cd_present : bool;
  cd_COR : Z;
  cd_CCSR : Z;
  cd_CCSR_after_reset : Z;
  cd_access_budget : option nat
}.

(** What the socket and the orinoco core will answer. *)
Record answers : Type := {
  an_pulled_after_configuration : bool;
  an_busy_ports : list Z;
  an_irq_free : bool;
  an_map_ok : bool;
  an_configuration_ok : bool;
  an_init_ok : bool;
  an_if_add_ok : bool;
  an_table : list cistpl_cftable_entry_t;
  an_default : cistpl_cftable_entry_t;
  an_Vcc : Z
}.

Record socket : Type := {
  sk_card : card;
  sk_answers : answers;
  (** bookkeeping of what was released *)
  sk_disabled : nat;
  sk_unmapped : list Z
}.

Definition EINVAL : Z := 22.
Definition EBUSY : Z := 16.
Definition EIO : Z := 5.

Definition set_card (c : card) (w : socket) : socket :=
  {| sk_card := c; sk_answers := sk_answers w; sk_disabled := sk_disabled w;
     sk_unmapped := sk_unmapped w |}.

Definition card_access (reg : conf_reg_t) (c : card) : Z * conf_reg_t * card :=
  match cd_access_budget c with
  | Some O => (- EINVAL, reg, c)
  | budget =>
      let budget' := match budget with
                     | Some (S n) => Some n
                     | _ => None
                     end in
      if reg_Action reg =? CS_READ then
        (0,
         {| reg_Function := reg_Function reg; reg_Action := reg_Action reg;
            reg_Offset := reg_Offset reg;
            reg_Value := if reg_Offset reg =? CISREG_COR then cd_COR c
                         else cd_CCSR c |},
         {| cd_present := cd_present c; cd_COR := cd_COR c;
            cd_CCSR := cd_CCSR c;
            cd_CCSR_after_reset := cd_CCSR_after_reset c;
            cd_access_budget := budget' |})
      else if reg_Offset reg =? CISREG_COR then
        (0, reg,
         {| cd_present := cd_present c; cd_COR := reg_Value reg;
            cd_CCSR := if Z.land (reg_Value reg) COR_SOFT_RESET =? 0
                       then cd_CCSR c else cd_CCSR_after_reset c;
            cd_CCSR_after_reset := cd_CCSR_after_reset c;
            cd_access_budget := budget' |})
      else
        (0, reg,
         {| cd_present := cd_present c; cd_COR := cd_COR c;
            cd_CCSR := reg_Value reg;
            cd_CCSR_after_reset := cd_CCSR_after_reset c;
            cd_access_budget := budget' |})
  end.

Definition sk_access (reg : conf_reg_t) (w : socket)
  : Z * conf_reg_t * socket :=
  let '(r, reg', c) := card_access reg (sk_card w) in
  (r, reg', set_card c w).

Definition sk_request_io (r : io_req_t) (w : socket) : Z * io_req_t * socket :=
  if existsb (Z.eqb (BasePort1 r)) (an_busy_ports (sk_answers w))
  then (- EBUSY, r, w)
  else (0, r, w).

Definition sk_disable (w : socket) : socket :=
  {| sk_card := sk_card w; sk_answers := sk_answers w;
     sk_disabled := S (sk_disabled w); sk_unmapped := sk_unmapped w |}.

Definition sk_unmap (addr : Z) (w : socket) : socket :=
  {| sk_card := sk_card w; sk_answers := sk_answers w;
     sk_disabled := sk_disabled w; sk_unmapped := sk_unmapped w ++ [addr] |}.

Definition sk_request_irq (r : irq_req_t) (w : socket)
  : Z * irq_req_t * socket :=
  if an_irq_free (sk_answers w) then
    (0, {| irq_Attributes := irq_Attributes r; irq_IRQInfo1 := irq_IRQInfo1 r;
           AssignedIRQ := 5 |}, w)
  else (- EBUSY, r, w).

Definition sk_request_configuration (c : config_req_t) (w : socket)
  : Z * socket :=
  if an_configuration_ok (sk_answers w) then
    (0,
     set_card
       {| cd_present :=
            cd_present (sk_card w) &&
            negb (an_pulled_after_configuration (sk_answers w));
          cd_COR := cd_COR (sk_card w); cd_CCSR := cd_CCSR (sk_card w);
          cd_CCSR_after_reset := cd_CCSR_after_reset (sk_card w);
          cd_access_budget := cd_access_budget (sk_card w) |} w)
  else (- EINVAL, w).

#[local] Instance socket_environment : environment socket := {|
  cs_dev_present := fun w => cd_present (sk_card w);
  cs_access_configuration_register := sk_access;
  cs_request_io := sk_request_io;
  cs_disable_device := sk_disable;
  cs_request_irq := sk_request_irq;
  cs_request_configuration := sk_request_configuration;
  cs_ioport_map := fun port nr w =>
    (if an_map_ok (sk_answers w) then 0x10000 + port else 0, w);
  cs_ioport_unmap := sk_unmap;
  hermes_struct_init := fun h addr spacing =>
    {| iobase := addr; reg_spacing := spacing |};
  core_orinoco_init := fun p w =>
    (if an_init_ok (sk_answers w) then 0 else - EIO, p, w);
  core_orinoco_if_add := fun p base_addr irq_nr w =>
    (if an_if_add_ok (sk_answers w) then 0 else - EIO, p, w);
  cis_entries := fun w => an_table (sk_answers w);
  cis_default := fun w => an_default (sk_answers w);
  socket_Vcc := fun w => an_Vcc (sk_answers w);
  uninitialised := fun _ => 0
|}.

Definition no_power : cistpl_power_t := {| pw_present := 0; pw_param := [] |}.

(** A power descriptor that declares the nominal voltage [v] (in units of
    10 microvolts, as the CIS parser delivers it). *)
Definition nominal (v : Z) : cistpl_power_t :=
  {| pw_present := 1; pw_param := [v; 0; 0; 0; 0; 0; 0] |}.

Definition no_io : cistpl_io_t :=
  {| io_flags := 0; io_nwin := 0; io_win := [] |}.

Definition blank_entry : cistpl_cftable_entry_t :=
  {| cf_index := 0; cf_vcc := no_power; cf_vpp1 := no_power; cf_io := no_io |}.

(** A card with 16-bit memory before and 8-bit memory after a soft
    reset. *)
Definition quiet_card : card :=
  {| cd_present := true; cd_COR := 0x41; cd_CCSR := 0x17;
     cd_CCSR_after_reset := 0x07; cd_access_budget := None |}.

(** A 5 V socket in which every request succeeds, for a card whose
    configuration table is [table] with default entry [dflt]. *)
Definition willing (table : list cistpl_cftable_entry_t)
  (dflt : cistpl_cftable_entry_t) : answers :=
  {| an_pulled_after_configuration := false; an_busy_ports := [];
     an_irq_free := true; an_map_ok := true; an_configuration_ok := true;
     an_init_ok := true; an_if_add_ok := true;
     an_table := table; an_default := dflt; an_Vcc := 50 |}.

Definition plug (c : card) (a : answers) : socket :=
  {| sk_card := c; sk_answers := a; sk_disabled := O; sk_unmapped := [] |}.

Definition quiet_socket : socket := plug quiet_card (willing [] blank_entry).

Definition blank_link : pcmcia_device :=
  {| conf := {| conf_Attributes := 0; conf_Vpp := 0; conf_IntType := 0 |};
     io := {| BasePort1 := 0; NumPorts1 := 0; Attributes1 := 0;
              BasePort2 := 0; NumPorts2 := 0; Attributes2 := 0;
              IOAddrLines := 0 |};
     irq := {| irq_Attributes := 0; irq_IRQInfo1 := 0; AssignedIRQ := 0 |};
     dev_node := false |}.

Definition blank_priv : orinoco_private :=
  {| hw := {| iobase := 0; reg_spacing := 0 |}; hw_unavailable := 0;
     card_node := {| node_major := 0; node_minor := 0; node_dev_name := "" |};
     ndev_name := "eth1" |}.

Definition boot (w : socket) : machine socket :=
  {| outside := w; link := blank_link; priv := blank_priv; trace := [] |}.

(** ** Vocabulary of the statements *)

(** A register access, and a register access that returned an error. *)
Definition is_access (e : event) : bool :=
  match e with
  | EvAccessConfigurationRegister _ _ _ => true
  | _ => false
  end.

Definition failed_access (e : event) : bool :=
  match e with
  | EvAccessConfigurationRegister _ r _ => negb (r =? 0)
  | _ => false
  end.

Definition is_cs_error (e : event) : bool :=
  match e with
  | EvCsError _ _ => true
  | _ => false
  end.

(** The trace of a complete reset sequence: the five requests with their
    answers and the three settling delays. *)
Definition reset_sequence (q1 r1 q2 r2 q3 r3 q4 r4 q5 r5 : conf_reg_t)
  : list event :=
  [EvAccessConfigurationRegister q1 0 r1;
   EvAccessConfigurationRegister q2 0 r2;
   EvUdelay 1000;
   EvAccessConfigurationRegister q3 0 r3;
   EvAccessConfigurationRegister q4 0 r4;
   EvUdelay 1000;
   EvAccessConfigurationRegister q5 0 r5;
   EvUdelay 1000].

(** What a caller of [spectrum_reset] gets to see of a failure on the
    simulated socket: the return value and the [cs_error] reports. *)
Definition surfaced (idle : Z) (s : machine socket) : Z * list event :=
  let '(r, s') := spectrum_reset idle s in
  (r, filter is_cs_error (trace s')).

(** Sockets for the reset sequence: no card, and a bus that fails at the
    [n]-th register access (counting from 0). *)
Definition empty_socket : socket :=
  plug {| cd_present := false; cd_COR := 0x41; cd_CCSR := 0x17;
          cd_CCSR_after_reset := 0x07; cd_access_budget := None |}
       (willing [] blank_entry).

Definition failing_bus (n : nat) : socket :=
  plug {| cd_present := true; cd_COR := 0x41; cd_CCSR := 0x17;
          cd_CCSR_after_reset := 0x07; cd_access_budget := Some n |}
       (willing [] blank_entry).

(** *** The per-entry decision policy in the words of the specification *)

Section Policy.

Context {world : Type} {hdr : headers} {env : environment world}.

(** The nominal voltage an entry declares, rescaled: the entry's own
    descriptor if it declares one, else the default entry's, else none. *)
Definition declared_nominal (own dflt : cistpl_power_t) : option Z :=
  if power_present own CISTPL_POWER_VNOM
  then Some (power_param own CISTPL_POWER_VNOM / 10000)
  else if power_present dflt CISTPL_POWER_VNOM
       then Some (power_param dflt CISTPL_POWER_VNOM / 10000)
       else None.

(** The I/O descriptor that is used: the entry's if it declares a window,
    else the default entry's. *)
Definition chosen_io (cfg dflt : cistpl_cftable_entry_t) : cistpl_io_t :=
  if io_nwin (cf_io cfg) =? 0 then cf_io dflt else cf_io cfg.

Definition declares_window (cfg dflt : cistpl_cftable_entry_t) : bool :=
  (0 <? io_nwin (cf_io cfg)) || (0 <? io_nwin (cf_io dflt)).

(** The bit-width attribute as the driver derives it: 8-bit whenever the
    16-bit flag is absent, else 16-bit when the 8-bit flag is absent, else
    automatic. *)
Definition width_attribute (flags : Z) : Z :=
  if Z.land flags CISTPL_IO_16BIT =? 0 then IO_DATA_PATH_WIDTH_8
  else if Z.land flags CISTPL_IO_8BIT =? 0 then IO_DATA_PATH_WIDTH_16
  else IO_DATA_PATH_WIDTH_AUTO.

(** The bit-width attribute as the specification words it: automatic when
    both flags are absent, else 16-bit when the 8-bit flag is absent, else
    8-bit when the 16-bit flag is absent. *)
Definition spec_width_attribute (flags : Z) : option Z :=
  if (Z.land flags CISTPL_IO_8BIT =? 0) && (Z.land flags CISTPL_IO_16BIT =? 0)
  then Some IO_DATA_PATH_WIDTH_AUTO
  else if Z.land flags CISTPL_IO_8BIT =? 0 then Some IO_DATA_PATH_WIDTH_16
  else if Z.land flags CISTPL_IO_16BIT =? 0 then Some IO_DATA_PATH_WIDTH_8
  else None.

(** The I/O request derived from descriptor [d] over the previous content
    [old] of [p_dev->io]. *)
Definition resolved_io (old : io_req_t) (d : cistpl_io_t) : io_req_t :=
  {| BasePort1 := win_base (win d 0);
     NumPorts1 := win_len (win d 0);
     Attributes1 := width_attribute (io_flags d);
     BasePort2 := if 1 <? io_nwin d then win_base (win d 1)
                  else BasePort2 old;
     NumPorts2 := if 1 <? io_nwin d then win_len (win d 1) else 0;
     Attributes2 := if 1 <? io_nwin d then width_attribute (io_flags d)
                    else Attributes2 old;
     IOAddrLines := Z.land (io_flags d) CISTPL_IO_LINES_MASK |}.

(** The machine after the Vcc mismatch has been logged. *)
Definition logged (vcc cis : Z) (s : machine world) : machine world :=
  {| outside := outside s; link := link s; priv := priv s;
     trace := trace s ++ [EvDebugVccMismatch vcc cis] |}.

(** The machine after the device has been disabled. *)
Definition disabled (s : machine world) : machine world :=
  {| outside := cs_disable_device (outside s); link := link s;
     priv := priv s; trace := trace s ++ [EvDisableDevice] |}.

(** Does the entry get past the voltage check? *)
Definition voltage_passes (ignore_cis_vcc : Z)
  (cfg dflt : cistpl_cftable_entry_t) (vcc : Z) : bool :=
  match declared_nominal (cf_vcc cfg) (cf_vcc dflt) with
  | Some v => (vcc =? v) || negb (ignore_cis_vcc =? 0)
  | None => true
  end.

(** The checks that follow the voltage check (lines 265-301). *)
Definition remaining_checks (cfg dflt : cistpl_cftable_entry_t)
  : ST world Z :=
  labels
    (set_Vpp_and_irq cfg dflt ;;; io_window_settings cfg dflt)%body
    (fun l =>
       match l with
       | check_labels.next_entry =>
           (pcmcia_disable_device ;;; done (- ENODEV))%st
       end).

End Policy.

(** *** Entries and sockets for the configuration check *)

(** One window of 16 ports at [base], with the given capability flags. *)
Definition one_window (flags base : Z) : cistpl_io_t :=
  {| io_flags := flags; io_nwin := 1;
     io_win := [{| win_base := base; win_len := 16 |}] |}.

Definition entry (index : Z) (vcc vpp1 : cistpl_power_t) (d : cistpl_io_t)
  : cistpl_cftable_entry_t :=
  {| cf_index := index; cf_vcc := vcc; cf_vpp1 := vpp1; cf_io := d |}.

(** The same answers, with some I/O bases already taken. *)
Definition crowded (busy : list Z) (a : answers) : answers :=
  {| an_pulled_after_configuration := an_pulled_after_configuration a;
     an_busy_ports := busy;
     an_irq_free := an_irq_free a; an_map_ok := an_map_ok a;
     an_configuration_ok := an_configuration_ok a;
     an_init_ok := an_init_ok a; an_if_add_ok := an_if_add_ok a;
     an_table := an_table a; an_default := an_default a;
     an_Vcc := an_Vcc a |}.

(** The same answers, but the card is pulled out of the socket right after
    the socket configuration has been committed. *)
Definition pulled_after_configuration (a : answers) : answers :=
  {| an_pulled_after_configuration := true;
     an_busy_ports := an_busy_ports a;
     an_irq_free := an_irq_free a; an_map_ok := an_map_ok a;
     an_configuration_ok := an_configuration_ok a;
     an_init_ok := an_init_ok a; an_if_add_ok := an_if_add_ok a;
     an_table := an_table a; an_default := an_default a;
     an_Vcc := an_Vcc a |}.

(** A 3.3 V entry (checked in a 5 V socket), 8- and 16-bit capable. *)
Definition entry_3v3 : cistpl_cftable_entry_t :=
  entry 1 (nominal 330000) no_power (one_window 0x60 0x300).

(** The scenario of the specification: an entry without voltage of its own
    and one 16-bit-only window at 0x300, and a default entry at 5.0 V. *)
Definition scenario_entry : cistpl_cftable_entry_t :=
  entry 1 no_power no_power (one_window 0x40 0x300).

Definition scenario_default : cistpl_cftable_entry_t :=
  entry 0 (nominal 500000) no_power no_io.

(** A 5 V entry whose window declares neither the 8-bit nor the 16-bit
    capability. *)
Definition flagless_entry : cistpl_cftable_entry_t :=
  entry 1 (nominal 500000) no_power (one_window 0 0x300).

(** An entry that is fine in every respect but carries index 0. *)
Definition zero_entry : cistpl_cftable_entry_t :=
  entry 0 (nominal 500000) no_power (one_window 0x60 0x300).

(** Two 5 V entries: the first wants Vpp 12 V and the window at 0x300, the
    second declares no Vpp and wants the window at 0x340. *)
Definition entry_with_Vpp : cistpl_cftable_entry_t :=
  entry 1 (nominal 500000) (nominal 1200000) (one_window 0x60 0x300).

Definition entry_without_Vpp : cistpl_cftable_entry_t :=
  entry 2 (nominal 500000) no_power (one_window 0x60 0x340).

(** A machine whose device still carries the automatic width attribute
    from an earlier use. *)
Definition boot_with_auto_width (w : socket) : machine socket :=
  set_link (set_io (set_Attributes1 IO_DATA_PATH_WIDTH_AUTO (io blank_link))
              blank_link)
    (boot w).

(** A socket in which the I/O range at 0x300 is taken. *)
Definition crowded_socket : socket :=
  plug quiet_card (crowded [0x300] (willing [] blank_entry)).

(** *** Vocabulary and sockets for release and configure *)

(** The calls one run of [spectrum_cs_release] makes when the register
    window pointer is [addr]. *)
Definition release_calls (addr : Z) : list event :=
  [EvSpinLock; EvSpinUnlock; EvDisableDevice] ++
  (if addr =? 0 then [] else [EvIoportUnmap addr]).

Definition is_release_call (e : event) : bool :=
  match e with
  | EvDisableDevice | EvIoportUnmap _ => true
  | _ => false
  end.

(** A function body that, when it ends normally, returns 0. *)
Definition ends_with_zero {world L : Type} (m : body world L Z) : Prop :=
  forall s a s', m s = (Normal L a, s') -> a = 0.

(** An attachment whose register window is mapped at 0x10300. *)
Definition mapped_attachment : machine socket :=
  {| outside := quiet_socket; link := blank_link;
     priv := set_hw {| iobase := 0x10300; reg_spacing := 0 |} blank_priv;
     trace := [] |}.

(** The card of the specification's scenario, pulled out of the socket
    right after the socket configuration has been committed. *)
Definition pulled_socket : socket :=
  plug quiet_card
    (pulled_after_configuration (willing [scenario_entry] scenario_default)).

(** The same card on a bus that fails the first register access. *)
Definition deaf_socket : socket :=
  plug {| cd_present := true; cd_COR := 0x41; cd_CCSR := 0x17;
          cd_CCSR_after_reset := 0x07; cd_access_budget := Some O |}
       (willing [scenario_entry] scenario_default).

(** *** Vocabulary of the further properties *)

(** The calls [spectrum_reset] makes: register accesses, delays of one
    millisecond, and the error report for a register access. *)
Definition reset_call (e : event) : bool :=
  match e with
  | EvAccessConfigurationRegister _ _ _ => true
  | EvUdelay d => d =? 1000
  | EvCsError AccessConfigurationRegister _ => true
  | _ => false
  end.

Definition is_disable (e : event) : bool :=
  match e with
  | EvDisableDevice => true
  | _ => false
  end.

Definition is_request_io (e : event) : bool :=
  match e with
  | EvRequestIO _ _ => true
  | _ => false
  end.

(** An entry without voltage descriptors and without I/O windows, as a
    memory-only card declares it, and a default entry that adds nothing. *)
Definition memory_only_entry : cistpl_cftable_entry_t :=
  entry 1 no_power no_power no_io.

(** Ways of saying what a function body does to a property [P] of the
    machine: a call keeps it, a body keeps it however it ends, a body keeps
    it when it ends by a [goto], a body never ends by a [goto], a body that
    ends normally establishes it. *)
Definition keepsST {world A : Type} (P : machine world -> Prop)
  (f : ST world A) : Prop :=
  forall s a s', f s = (a, s') -> P s -> P s'.

Definition keeps {world L A : Type} (P : machine world -> Prop)
  (m : body world L A) : Prop :=
  forall s o s', m s = (o, s') -> P s -> P s'.

Definition goto_keeps {world L A : Type} (P : machine world -> Prop)
  (m : body world L A) : Prop :=
  forall s l s', m s = (Goto A l, s') -> P s -> P s'.

Definition never_goto {world L A : Type} (m : body world L A) : Prop :=
  forall s l s', m s <> (Goto A l, s').

Definition normal_gives {world L A : Type} (Q : machine world -> Prop)
  (m : body world L A) : Prop :=
  forall s a s', m s = (Normal L a, s') -> Q s'.

(** A 5 V socket for the card of the specification's scenario, in which
    the steps of configure answer as told. *)
Definition answering (irq_free map_ok configuration_ok init_ok if_add_ok : bool)
  : socket :=
  plug quiet_card
    {| an_pulled_after_configuration := false; an_busy_ports := [];
       an_irq_free := irq_free; an_map_ok := map_ok;
       an_configuration_ok := configuration_ok;
       an_init_ok := init_ok; an_if_add_ok := if_add_ok;
       an_table := [scenario_entry]; an_default := scenario_default;
       an_Vcc := 50 |}.



(** ** The lifecycle entry points (lines 178-228 and 420-439)

    Probe, detach, suspend and resume call the orinoco core for the
    driver's context ([alloc_orinocodev], [free_orinocodev]) and for the
    network interface ([orinoco_if_del], [orinoco_down], [orinoco_up]).
    These calls, the header constants probe needs and the parts of the
    device structure only probe writes are added here, around the machine
    of the functions above. *)

Class probe_headers : Type := {
  ENOMEM : Z;
  IRQ_TYPE_DYNAMIC_SHARING : Z;
  IRQ_HANDLE_PRESENT : Z;
  IRQ_LEVEL_ID : Z;
  INT_MEMORY_AND_IO : Z
}.

Class orinoco_core (world : Type) : Type := {
  (** [alloc_orinocodev] with the size of the card data, the device and
      the two device methods; [None] is NULL *)
  core_alloc_orinocodev : world -> option orinoco_private * world;
  (** [free_orinocodev(priv)] *)
  core_free_orinocodev : orinoco_private -> world -> world;
  (** [orinoco_if_del(priv)] *)
  core_orinoco_if_del : orinoco_private -> world -> orinoco_private * world;
  (** [orinoco_down(priv)] *)
  core_orinoco_down : orinoco_private -> world -> orinoco_private * world;
  (** [orinoco_up(priv)] *)
  core_orinoco_up : orinoco_private -> world -> Z * orinoco_private * world
}.

(** The calls of a lifecycle entry point, in program order: those the
    functions above record, and the calls to the orinoco core. *)
Inductive lifecycle_event : Type :=
| EvDriver (e : event)
| EvAllocOrinocodev (ok : bool)
| EvFreeOrinocodev
| EvOrinocoIfDel
| EvOrinocoDown
| EvOrinocoUp (ret : Z).

Section Lifecycle.

Context {world : Type} {hdr : headers} {env : environment world}
        {phdr : probe_headers} {core : orinoco_core world}.

Variable ignore_cis_vcc : Z.

(** The memory of an attachment: what the machine above holds, the
    pointers only probe sets ([link->priv] with [card->p_dev],
    [link->irq.Handler], [link->irq.Instance]) and the history of calls. *)
Record attachment : Type := {
  at_outside : world;
  at_link : pcmcia_device;
  at_priv : orinoco_private;
  (** [link->priv] is [priv] and [card->p_dev] is [link] *)
  at_linked : bool;
  (** [link->irq.Handler] is [orinoco_interrupt] *)
  at_irq_Handler : bool;
  (** [link->irq.Instance] is [priv] *)
  at_irq_Instance : bool;
  history : list lifecycle_event
}.

Definition LC (A : Type) : Type := attachment -> A * attachment.

(** A call of one of the functions above: it works on the attachment's
    memory, and the calls it records are added to the history. *)
Definition driver {A} (f : ST world A) : LC A :=
  fun a =>
    let '(x, m) := f {| outside := at_outside a; link := at_link a;
                        priv := at_priv a; trace := [] |} in
    (x, {| at_outside := outside m; at_link := link m; at_priv := priv m;
           at_linked := at_linked a; at_irq_Handler := at_irq_Handler a;
           at_irq_Instance := at_irq_Instance a;
           history := history a ++ map EvDriver (trace m) |}).

(** *** spectrum_cs_probe (lines 178-210) *)
Definition spectrum_cs_probe : LC Z :=
  fun a =>
    let '(p, w) := core_alloc_orinocodev (at_outside a) in
    match p with
    | None =>
        (- ENOMEM,
         {| at_outside := w; at_link := at_link a; at_priv := at_priv a;
            at_linked := at_linked a; at_irq_Handler := at_irq_Handler a;
            at_irq_Instance := at_irq_Instance a;
            history := history a ++ [EvAllocOrinocodev false] |})
    | Some priv =>
        driver (spectrum_cs_config ignore_cis_vcc)
          {| at_outside := w;
             at_link :=
               (* Interrupt setup *)
               let l := set_irq
                          {| irq_Attributes :=
                               u32 (Z.lor IRQ_TYPE_DYNAMIC_SHARING
                                          IRQ_HANDLE_PRESENT);
                             irq_IRQInfo1 := IRQ_LEVEL_ID;
                             AssignedIRQ := AssignedIRQ (irq (at_link a)) |}
                          (at_link a) in
               (* General socket configuration defaults *)
               set_conf
                 {| conf_Attributes := 0;
                    conf_Vpp := conf_Vpp (conf l);
                    conf_IntType := INT_MEMORY_AND_IO |}
                 l;
             at_priv := priv;
             (* Link both structures together *)
             at_linked := true;
             at_irq_Handler := true;
             at_irq_Instance := true;
             history := history a ++ [EvAllocOrinocodev true] |}
    end.

(** *** spectrum_cs_detach (lines 218-228) *)
Definition spectrum_cs_detach : LC unit :=
  fun a =>
    let a1 :=
      if dev_node (at_link a) then
        let '(p, w) := core_orinoco_if_del (at_priv a) (at_outside a) in
        {| at_outside := w; at_link := at_link a; at_priv := p;
           at_linked := at_linked a; at_irq_Handler := at_irq_Handler a;
           at_irq_Instance := at_irq_Instance a;
           history := history a ++ [EvOrinocoIfDel] |}
      else a in
    let '(_, a2) := driver spectrum_cs_release a1 in
    (tt,
     {| at_outside := core_free_orinocodev (at_priv a2) (at_outside a2);
        at_link := at_link a2; at_priv := at_priv a2;
        at_linked := at_linked a2; at_irq_Handler := at_irq_Handler a2;
        at_irq_Instance := at_irq_Instance a2;
        history := history a2 ++ [EvFreeOrinocodev] |}).

(** *** spectrum_cs_suspend and spectrum_cs_resume (lines 420-439) *)
Definition spectrum_cs_suspend : LC Z :=
  fun a =>
    let err := 0 in
    (* Mark the device as stopped, to block IO until later *)
    let '(p, w) := core_orinoco_down (at_priv a) (at_outside a) in
    (err,
     {| at_outside := w; at_link := at_link a; at_priv := p;
        at_linked := at_linked a; at_irq_Handler := at_irq_Handler a;
        at_irq_Instance := at_irq_Instance a;
        history := history a ++ [EvOrinocoDown] |}).

Definition spectrum_cs_resume : LC Z :=
  fun a =>
    let '(err, p, w) := core_orinoco_up (at_priv a) (at_outside a) in
    (err,
     {| at_outside := w; at_link := at_link a; at_priv := p;
        at_linked := at_linked a; at_irq_Handler := at_irq_Handler a;
        at_irq_Instance := at_irq_Instance a;
        history := history a ++ [EvOrinocoUp err] |}).

End Lifecycle.

Arguments attachment : clear implicits.
Arguments LC : clear implicits.

(** *** A concrete orinoco core *)

#[local] Instance linux_probe_headers : probe_headers := {|
  ENOMEM := 12;
  IRQ_TYPE_DYNAMIC_SHARING := 0x02;
  IRQ_HANDLE_PRESENT := 0x10;
  IRQ_LEVEL_ID := 0x20;
  INT_MEMORY_AND_IO := 0x02
|}.

(** A core with memory for one context, and a core without. *)
Definition roomy_core : orinoco_core socket := {|
  core_alloc_orinocodev := fun w => (Some blank_priv, w);
  core_free_orinocodev := fun p w => w;
  core_orinoco_if_del := fun p w => (p, w);
  core_orinoco_down :=
    fun p w => (set_hw_unavailable (s32 (hw_unavailable p + 1)) p, w);
  core_orinoco_up :=
    fun p w => (0, set_hw_unavailable (s32 (hw_unavailable p - 1)) p, w)
|}.

Definition exhausted_core : orinoco_core socket := {|
  core_alloc_orinocodev := fun w => (None, w);
  core_free_orinocodev := fun p w => w;
  core_orinoco_if_del := fun p w => (p, w);
  core_orinoco_down := fun p w => (p, w);
  core_orinoco_up := fun p w => (0, p, w)
|}.

(** An attachment before probe. *)
Definition unbound (w : socket) : attachment socket :=
  {| at_outside := w; at_link := blank_link; at_priv := blank_priv;
     at_linked := false; at_irq_Handler := false; at_irq_Instance := false;
     history := [] |}.

Definition is_free (e : lifecycle_event) : bool :=
  match e with
  | EvFreeOrinocodev => true
  | _ => false
  end.

Definition is_driver_call (e : lifecycle_event) : bool :=
  match e with
  | EvDriver _ => true
  | _ => false
  end.

(** *** The states on the success path of configure *)

Section ConfigureStates.

Context {world : Type} {hdr : headers} {env : environment world}.

(** The machine right before the card is reset in [spectrum_cs_config]:
    [s1] is the machine the scan left, [irq'] the interrupt request as
    [pcmcia_request_irq] left it, [mem] the mapped window and [w4] the
    outside world after [pcmcia_request_configuration]. *)
Definition socket_configured (s1 : machine world) (irq' : irq_req_t)
  (mem : Z) (w4 : world) : machine world :=
  {| outside := w4;
     link := set_irq irq' (link s1);
     priv :=
       set_card_node
         {| node_major := 0; node_minor := 0;
            node_dev_name := node_dev_name (card_node (priv s1)) |}
         (set_hw (hermes_struct_init (hw (priv s1)) mem
                    HERMES_16BIT_REGSPACING)
                 (priv s1));
     trace :=
       trace s1 ++
       [EvRequestIRQ (irq (link s1)) 0;
        EvIoportMap (BasePort1 (io (link s1))) (NumPorts1 (io (link s1)))
          mem;
        EvRequestConfiguration (conf (link s1)) 0] |}.

(** The machine a successful configure ends in: [s5] is the machine the
    reset left, [p7] and [w7] the private data and the outside world after
    [orinoco_if_add]. *)
Definition interface_registered (s5 : machine world) (p7 : orinoco_private)
  (w7 : world) : machine world :=
  {| outside := w7;
     link := {| conf := conf (link s5); io := io (link s5);
                irq := irq (link s5); dev_node := true |};
     priv :=
       set_card_node
         {| node_major := node_major (card_node p7);
            node_minor := node_minor (card_node p7);
            node_dev_name := ndev_name p7 |}
         p7;
     trace :=
       trace s5 ++
       [EvOrinocoInit 0;
        EvOrinocoIfAdd (BasePort1 (io (link s5)))
          (AssignedIRQ (irq (link s5))) 0] |}.

End ConfigureStates.

(** * Properties *)

Unset Implicit Arguments.

(** ** Bit-level facts about the CCSR and COR values *)

Lemma land_bit4_cases (v : Z) : Z.land v HCR_MEM16 = 0 \/ Z.land v HCR_MEM16 = 16.
Proof.
  change HCR_MEM16 with (2 ^ 4).
  destruct (Z.testbit v 4) eqn:B.
  - right. apply Z.bits_inj'. intros n Hn.
    rewrite Z.land_spec. change 16 with (2 ^ 4).
    rewrite Z.pow2_bits_eqb by lia.
    destruct (Z.eqb_spec 4 n) as [<- | Hne].
    + now rewrite B.
    + now rewrite andb_false_r.
  - left. apply Z.bits_inj'. intros n Hn.
    rewrite Z.land_spec, Z.bits_0, Z.pow2_bits_eqb by lia.
    destruct (Z.eqb_spec 4 n) as [<- | Hne].
    + now rewrite B.
    + now rewrite andb_false_r.
Qed.

Section ResetProperties.

Context {world : Type} {hdr : headers} {env : environment world}.

Ltac step_access H :=
  match type of H with
  | context [cs_access_configuration_register ?r ?w] =>
      let rc := fresh "rc" in
      let resp := fresh "resp" in
      let w' := fresh "w" in
      let E := fresh "Ecall" in
      let Z0 := fresh "Erc" in
      destruct (cs_access_configuration_register r w) as [[rc resp] w'] eqn:E;
      cbn [fst snd negb outside link priv trace] in H;
      destruct (Z.eqb_spec rc 0) as [Z0 | Z0];
      cbn [fst snd negb outside link priv trace] in H;
      [subst rc | ]
  end.

Lemma reset_success_inv (idle : Z) (s s' : machine world) :
  ENODEV <> 0 ->
  spectrum_reset idle s = (0, s') ->
  cs_dev_present (outside s) = true /\
  exists r1 w1 r2 w2 r3 w3 r4 w4 r5 w5,
    let q1 := {| reg_Function := 0; reg_Action := CS_READ;
                 reg_Offset := CISREG_COR;
                 reg_Value := uninitialised (outside s) |} in
    let q2 := {| reg_Function := reg_Function r1; reg_Action := CS_WRITE;
                 reg_Offset := CISREG_COR;
                 reg_Value := u32 (Z.lor (reg_Value r1) COR_SOFT_RESET) |} in
    let q3 := {| reg_Function := reg_Function r2; reg_Action := CS_READ;
                 reg_Offset := CISREG_CCSR; reg_Value := reg_Value r2 |} in
    let q4 := {| reg_Function := reg_Function r3; reg_Action := CS_WRITE;
                 reg_Offset := CISREG_CCSR;
                 reg_Value :=
                   u32 (Z.lor (if idle =? 0 then HCR_RUN else HCR_IDLE)
                              (Z.land (reg_Value r3) HCR_MEM16)) |} in
    let q5 := {| reg_Function := reg_Function r4; reg_Action := CS_WRITE;
                 reg_Offset := CISREG_COR;
                 reg_Value :=
                   u32 (Z.land (reg_Value r1) (Z.lnot COR_SOFT_RESET)) |} in
    cs_access_configuration_register q1 (outside s) = (0, r1, w1) /\
    cs_access_configuration_register q2 w1 = (0, r2, w2) /\
    cs_access_configuration_register q3 w2 = (0, r3, w3) /\
    cs_access_configuration_register q4 w3 = (0, r4, w4) /\
    cs_access_configuration_register q5 w4 = (0, r5, w5) /\
    s' = {| outside := w5; link := link s; priv := priv s;
            trace := trace s ++
                       reset_sequence q1 r1 q2 r2 q3 r3 q4 r4 q5 r5 |}.
Proof.
  intros HE H.
  unfold spectrum_reset in H.
  destruct (cs_dev_present (outside s)) eqn:P; cbn [negb] in H.
  2:{ inversion H. lia. }
  split; [reflexivity|].
  unfold labels, bind, CS_CHECK, pcmcia_access_configuration_register,
    call, udelay, cs_error, emit, ret, seq, done in H.
  cbn [outside link priv trace] in H.
  step_access H; [| inversion H; lia].
  step_access H; [| inversion H; lia].
  step_access H; [| inversion H; lia].
  step_access H; [| inversion H; lia].
  step_access H; [| inversion H; lia].
  inversion H; subst s'; clear H.
  exists resp, w, resp0, w0, resp1, w1, resp2, w2, resp3, w3.
  cbv zeta. repeat split; try assumption.
  repeat rewrite <- app_assoc. reflexivity.
Qed.


Lemma u32_testbit (x i : Z) :
  0 <= i < 32 -> Z.testbit (u32 x) i = Z.testbit x i.
Proof.
  intros Hi. unfold u32. apply Z.mod_pow2_bits_low. lia.
Qed.

Lemma u32_land_small (a b : Z) :
  0 <= a < 2 ^ 32 -> u32 (Z.land a b) = Z.land a b.
Proof.
  intros Ha. apply Z.bits_inj'. intros n Hn. unfold u32.
  destruct (Z.ltb_spec n 32) as [Hlt | Hge].
  - apply Z.mod_pow2_bits_low. lia.
  - rewrite Z.mod_pow2_bits_high by lia.
    rewrite Z.land_spec.
    rewrite <- (Z.mod_small a (2 ^ 32)) by lia.
    rewrite Z.mod_pow2_bits_high by lia. reflexivity.
Qed.

Lemma ccsr_value_bits (idle v : Z) :
  idle <> 0 ->
  let w := u32 (Z.lor (if idle =? 0 then HCR_RUN else HCR_IDLE)
                      (Z.land v HCR_MEM16)) in
  w = Z.lor HCR_IDLE (Z.land v HCR_MEM16) /\
  Z.land w (Z.lor HCR_RUN HCR_IDLE) = HCR_IDLE /\
  Z.land w HCR_MEM16 = Z.land v HCR_MEM16.
Proof.
  intros Hidle. cbv zeta.
  destruct (Z.eqb_spec idle 0) as [E | _]; [contradiction|].
  destruct (land_bit4_cases v) as [-> | ->]; repeat split; reflexivity.
Qed.

(** C1. A successful reset with [idle] set writes to CCSR the idle encoding
    OR'd with the memory-width bit of the CCSR value read at step 3, that
    is, after the soft-reset write to COR and its delay: the firmware-run
    bits of the written value are the idle encoding and its memory-width
    bit is the one of the value read at step 3. *)
Theorem reset_idle_ccsr_value (idle : Z) (s s' : machine world) :
  ENODEV <> 0 ->
  idle <> 0 ->
  spectrum_reset idle s = (0, s') ->
  exists q1 r1 q2 r2 q3 r3 q4 r4 q5 r5,
    trace s' = trace s ++ reset_sequence q1 r1 q2 r2 q3 r3 q4 r4 q5 r5 /\
    (reg_Action q2 = CS_WRITE /\ reg_Offset q2 = CISREG_COR /\
     reg_Value q2 = u32 (Z.lor (reg_Value r1) COR_SOFT_RESET)) /\
    (reg_Action q3 = CS_READ /\ reg_Offset q3 = CISREG_CCSR) /\
    (reg_Action q4 = CS_WRITE /\ reg_Offset q4 = CISREG_CCSR) /\
    reg_Value q4 = Z.lor HCR_IDLE (Z.land (reg_Value r3) HCR_MEM16) /\
    Z.land (reg_Value q4) (Z.lor HCR_RUN HCR_IDLE) = HCR_IDLE /\
    Z.land (reg_Value q4) HCR_MEM16 = Z.land (reg_Value r3) HCR_MEM16.
Proof.
  intros HE Hidle Hrun.
  destruct (reset_success_inv _ _ _ HE Hrun) as
    (_ & r1 & w1 & r2 & w2 & r3 & w3 & r4 & w4 & r5 & w5 & H).
  cbv zeta in H. destruct H as (_ & _ & _ & _ & _ & ->).
  destruct (ccsr_value_bits idle (reg_Value r3) Hidle) as (V1 & V2 & V3).
  do 10 eexists. cbn [trace].
  split; [reflexivity|].
  cbn [reg_Action reg_Offset reg_Value].
  repeat split; assumption.
Qed.

(** C2. A successful reset ends by writing to COR the value read from COR
    at step 1 with the soft-reset bit cleared: each of the 32 bits of the
    written value is the bit of the saved value, except those of
    [COR_SOFT_RESET], which are clear. *)
Theorem reset_restores_cor (idle : Z) (s s' : machine world) :
  ENODEV <> 0 ->
  spectrum_reset idle s = (0, s') ->
  exists q1 r1 q2 r2 q3 r3 q4 r4 q5 r5,
    trace s' = trace s ++ reset_sequence q1 r1 q2 r2 q3 r3 q4 r4 q5 r5 /\
    (reg_Action q1 = CS_READ /\ reg_Offset q1 = CISREG_COR) /\
    (reg_Action q5 = CS_WRITE /\ reg_Offset q5 = CISREG_COR) /\
    reg_Value q5 = u32 (Z.land (reg_Value r1) (Z.lnot COR_SOFT_RESET)) /\
    (forall i, 0 <= i < 32 ->
       Z.testbit (reg_Value q5) i =
       Z.testbit (reg_Value r1) i && negb (Z.testbit COR_SOFT_RESET i)) /\
    (0 <= reg_Value r1 < 2 ^ 32 ->
     reg_Value q5 = Z.land (reg_Value r1) (Z.lnot COR_SOFT_RESET)).
Proof.
  intros HE Hrun.
  destruct (reset_success_inv _ _ _ HE Hrun) as
    (_ & r1 & w1 & r2 & w2 & r3 & w3 & r4 & w4 & r5 & w5 & H).
  cbv zeta in H. destruct H as (_ & _ & _ & _ & _ & ->).
  do 10 eexists. cbn [trace].
  split; [reflexivity|].
  cbn [reg_Action reg_Offset reg_Value].
  repeat split.
  - intros i Hi. rewrite u32_testbit by assumption.
    rewrite Z.land_spec, Z.lnot_spec by lia. reflexivity.
  - intros Hr. now apply u32_land_small.
Qed.

(** C3. On a device that is not present, the reset fails at once with
    [-ENODEV]: the machine is left as it was, so the trace gains no event,
    in particular no register read or write. *)
Theorem reset_absent_device (idle : Z) (s : machine world) :
  cs_dev_present (outside s) = false ->
  spectrum_reset idle s = (- ENODEV, s).
Proof.
  intros Habsent. unfold spectrum_reset. rewrite Habsent. reflexivity.
Qed.


Lemma split_last_two_here {A} (x y : A) : [x; y] = [] ++ [x; y].
Proof. reflexivity. Qed.

Lemma split_last_two_later {A} (a : A) (l pre : list A) (x y : A) :
  l = pre ++ [x; y] -> a :: l = (a :: pre) ++ [x; y].
Proof. intros ->. reflexivity. Qed.

Ltac split_last_two :=
  repeat first [ apply split_last_two_here | apply split_last_two_later ].

Ltac failure_case H Erc :=
  inversion H; subst; clear H; cbn [trace];
  repeat rewrite <- app_assoc; cbn [app];
  eexists; split; [reflexivity|];
  right; split; [reflexivity|];
  do 4 eexists; split; [split_last_two|];
  split; [exact Erc|];
  split; [reflexivity | cbn; lia].

(** C9, amended. On a present device the reset sequence stops at the first
    register access that returns an error: that access is the last one in
    the trace, every access before it succeeded, nothing is written back,
    the only call after it is [cs_error] with the function code
    [AccessConfigurationRegister] and the error returned, and the result
    is [-ENODEV].  Otherwise all five accesses succeed and the result
    is 0. *)
Theorem reset_aborts_at_first_failure (idle r : Z) (s s' : machine world) :
  cs_dev_present (outside s) = true ->
  spectrum_reset idle s = (r, s') ->
  exists new,
    trace s' = trace s ++ new /\
    ((r = 0 /\ existsb failed_access new = false /\
      List.length (filter is_access new) = 5%nat)
     \/
     (r = - ENODEV /\
      exists pre q rc q',
        new = pre ++ [EvAccessConfigurationRegister q rc q';
                      EvCsError AccessConfigurationRegister rc] /\
        rc <> 0 /\
        existsb failed_access pre = false /\
        (List.length (filter is_access pre) < 5)%nat)).
Proof.
  intros P H.
  unfold spectrum_reset in H. rewrite P in H. cbn [negb] in H.
  unfold labels, bind, CS_CHECK, pcmcia_access_configuration_register,
    call, udelay, cs_error, emit, ret, seq, done in H.
  cbn [outside link priv trace] in H.
  step_access H; [| failure_case H Erc].
  step_access H; [| failure_case H Erc].
  step_access H; [| failure_case H Erc].
  step_access H; [| failure_case H Erc].
  step_access H; [| failure_case H Erc].
  inversion H; subst; clear H; cbn [trace].
  repeat rewrite <- app_assoc; cbn [app].
  eexists; split; [reflexivity|].
  left. repeat split.
Qed.

End ResetProperties.

(** *** The reset sequence on the simulated socket *)

(** C1 on the quiet socket, whose card shows the memory-width bit before
    the soft reset and not after it. *)
Lemma reset_idle_ccsr_value_witness :
  exists q1 r1 q2 r2 q3 r3 q4 r4 q5 r5,
    trace (snd (spectrum_reset 1 (boot quiet_socket))) =
    trace (boot quiet_socket) ++
    reset_sequence q1 r1 q2 r2 q3 r3 q4 r4 q5 r5 /\
    (reg_Action q2 = CS_WRITE /\ reg_Offset q2 = CISREG_COR /\
     reg_Value q2 = u32 (Z.lor (reg_Value r1) COR_SOFT_RESET)) /\
    (reg_Action q3 = CS_READ /\ reg_Offset q3 = CISREG_CCSR) /\
    (reg_Action q4 = CS_WRITE /\ reg_Offset q4 = CISREG_CCSR) /\
    reg_Value q4 = Z.lor HCR_IDLE (Z.land (reg_Value r3) HCR_MEM16) /\
    Z.land (reg_Value q4) (Z.lor HCR_RUN HCR_IDLE) = HCR_IDLE /\
    Z.land (reg_Value q4) HCR_MEM16 = Z.land (reg_Value r3) HCR_MEM16.
Proof.
  apply (reset_idle_ccsr_value 1 (boot quiet_socket) _).
  - discriminate.
  - discriminate.
  - reflexivity.
Defined.

(** C2 on the quiet socket. *)
Lemma reset_restores_cor_witness :
  exists q1 r1 q2 r2 q3 r3 q4 r4 q5 r5,
    trace (snd (spectrum_reset 0 (boot quiet_socket))) =
    trace (boot quiet_socket) ++
    reset_sequence q1 r1 q2 r2 q3 r3 q4 r4 q5 r5 /\
    (reg_Action q1 = CS_READ /\ reg_Offset q1 = CISREG_COR) /\
    (reg_Action q5 = CS_WRITE /\ reg_Offset q5 = CISREG_COR) /\
    reg_Value q5 = u32 (Z.land (reg_Value r1) (Z.lnot COR_SOFT_RESET)) /\
    (forall i, 0 <= i < 32 ->
       Z.testbit (reg_Value q5) i =
       Z.testbit (reg_Value r1) i && negb (Z.testbit COR_SOFT_RESET i)) /\
    (0 <= reg_Value r1 < 2 ^ 32 ->
     reg_Value q5 = Z.land (reg_Value r1) (Z.lnot COR_SOFT_RESET)).
Proof.
  apply (reset_restores_cor 0 (boot quiet_socket) _).
  - discriminate.
  - reflexivity.
Defined.

(** C3 on the socket without a card. *)
Lemma reset_absent_device_witness :
  cs_dev_present (outside (boot empty_socket)) = false /\
  spectrum_reset 1 (boot empty_socket) = (- ENODEV, boot empty_socket).
Proof.
  split.
  - reflexivity.
  - apply reset_absent_device. reflexivity.
Defined.

(** C9 on a bus that fails the third register access. *)
Lemma reset_aborts_at_first_failure_witness :
  exists new,
    trace (snd (spectrum_reset 0 (boot (failing_bus 2)))) =
    trace (boot (failing_bus 2)) ++ new /\
    ((fst (spectrum_reset 0 (boot (failing_bus 2))) = 0 /\
      existsb failed_access new = false /\
      List.length (filter is_access new) = 5%nat)
     \/
     (fst (spectrum_reset 0 (boot (failing_bus 2))) = - ENODEV /\
      exists pre q rc q',
        new = pre ++ [EvAccessConfigurationRegister q rc q';
                      EvCsError AccessConfigurationRegister rc] /\
        rc <> 0 /\
        existsb failed_access pre = false /\
        (List.length (filter is_access pre) < 5)%nat)).
Proof.
  apply (reset_aborts_at_first_failure 0 _ (boot (failing_bus 2)) _).
  - reflexivity.
  - reflexivity.
Defined.

(** C9 as stated fails: the value returned after a failed register access
    is the value returned for an absent device, and two failures at
    different steps (the soft-reset write, step 2, and the restoring write,
    step 5) surface the same return value and the same [cs_error] report. *)
Lemma reset_failure_does_not_name_the_step :
  fst (surfaced 0 (boot (failing_bus 0))) = fst (surfaced 0 (boot empty_socket))
  /\ surfaced 0 (boot (failing_bus 1)) = surfaced 0 (boot (failing_bus 4))
  /\ surfaced 0 (boot (failing_bus 1)) =
     (- ENODEV, [EvCsError AccessConfigurationRegister (- EINVAL)]).
Proof. repeat split. Qed.

(** ** The configuration check *)

Section CheckProperties.

Context {world : Type} {hdr : headers} {env : environment world}.

Variable ignore_cis_vcc : Z.

Lemma check_Vcc_eq (cfg dflt : cistpl_cftable_entry_t) (vcc : Z)
  (s : machine world) :
  check_Vcc ignore_cis_vcc cfg dflt vcc s =
  match declared_nominal (cf_vcc cfg) (cf_vcc dflt) with
  | Some v =>
      if vcc =? v then (Normal _ tt, s)
      else if ignore_cis_vcc =? 0
           then (Goto _ check_labels.next_entry, logged vcc v s)
           else (Normal _ tt, logged vcc v s)
  | None => (Normal _ tt, s)
  end.
Proof.
  unfold check_Vcc, declared_nominal.
  destruct (power_present (cf_vcc cfg) CISTPL_POWER_VNOM).
  - destruct (vcc =? _); cbn [negb]; [reflexivity|].
    unfold bind, call, DEBUG_Vcc_mismatch, emit, logged.
    destruct (ignore_cis_vcc =? 0); reflexivity.
  - destruct (power_present (cf_vcc dflt) CISTPL_POWER_VNOM);
      [|reflexivity].
    destruct (vcc =? _); cbn [negb]; [reflexivity|].
    unfold bind, call, DEBUG_Vcc_mismatch, emit, logged.
    destruct (ignore_cis_vcc =? 0); reflexivity.
Qed.

Lemma set_Vpp_and_irq_eq (cfg dflt : cistpl_cftable_entry_t)
  (s : machine world) :
  set_Vpp_and_irq (world := world) cfg dflt s =
  (Normal _ tt,
   set_link
     (set_conf
        {| conf_Attributes :=
             u32 (Z.lor (conf_Attributes (conf (link s))) CONF_ENABLE_IRQ);
           conf_Vpp :=
             match declared_nominal (cf_vpp1 cfg) (cf_vpp1 dflt) with
             | Some v => u32 v
             | None => conf_Vpp (conf (link s))
             end;
           conf_IntType := conf_IntType (conf (link s)) |}
        (link s))
     s).
Proof.
  unfold set_Vpp_and_irq, declared_nominal.
  destruct (power_present (cf_vpp1 cfg) CISTPL_POWER_VNOM);
    [| destruct (power_present (cf_vpp1 dflt) CISTPL_POWER_VNOM)];
    reflexivity.
Qed.

Ltac run_settings :=
  cbv beta iota zeta delta
    [bind call seq done modify_io modify_link ret goto pcmcia_request_io
     set_link set_io set_conf set_Attributes1 set_Attributes2 set_BasePort1
     set_BasePort2 set_NumPorts1 set_NumPorts2 set_IOAddrLines
     resolved_io width_attribute
     outside link priv trace io conf irq dev_node BasePort1 NumPorts1
     Attributes1 BasePort2 NumPorts2 Attributes2 IOAddrLines].

Lemma io_window_settings_eq (cfg dflt : cistpl_cftable_entry_t)
  (s : machine world) :
  io_window_settings (world := world) cfg dflt s =
  if declares_window cfg dflt then
    let req := resolved_io (io (link s)) (chosen_io cfg dflt) in
    let '(r, io', w) := cs_request_io req (outside s) in
    (if r =? 0 then Normal _ 0 else Goto _ check_labels.next_entry,
     {| outside := w; link := set_io io' (link s); priv := priv s;
        trace := trace s ++ [EvRequestIO req r] |})
  else
    (Normal _ 0,
     set_link (set_io (set_NumPorts1 0 (set_NumPorts2 0 (io (link s))))
                 (link s)) s).
Proof.
  unfold io_window_settings, declares_window, chosen_io.
  destruct ((0 <? io_nwin (cf_io cfg)) || (0 <? io_nwin (cf_io dflt)));
    [|reflexivity].
  destruct (io_nwin (cf_io cfg) =? 0); cbn [negb];
    match goal with
    | |- context [io_flags ?d] =>
        generalize d; intros d'; destruct s as [w0 [c0 i0 q0 n0] p0 t0];
        destruct (Z.land (io_flags d') CISTPL_IO_8BIT =? 0) eqn:E8;
        destruct (Z.land (io_flags d') CISTPL_IO_16BIT =? 0) eqn:E16;
        destruct (1 <? io_nwin d') eqn:En
    end;
    run_settings; rewrite ?E8, ?E16, ?En;
    match goal with
    | |- context [cs_request_io ?q ?w] =>
        destruct (cs_request_io q w) as [[r io'] w']
    end;
    destruct (r =? 0); reflexivity.
Qed.

Lemma remaining_checks_eq (cfg dflt : cistpl_cftable_entry_t)
  (s : machine world) :
  remaining_checks cfg dflt s =
  let l1 :=
    set_conf
      {| conf_Attributes :=
           u32 (Z.lor (conf_Attributes (conf (link s))) CONF_ENABLE_IRQ);
         conf_Vpp :=
           match declared_nominal (cf_vpp1 cfg) (cf_vpp1 dflt) with
           | Some v => u32 v
           | None => conf_Vpp (conf (link s))
           end;
         conf_IntType := conf_IntType (conf (link s)) |}
      (link s) in
  if declares_window cfg dflt then
    let req := resolved_io (io (link s)) (chosen_io cfg dflt) in
    let '(r, io', w) := cs_request_io req (outside s) in
    if r =? 0 then
      (0, {| outside := w; link := set_io io' l1; priv := priv s;
             trace := trace s ++ [EvRequestIO req r] |})
    else
      (- ENODEV,
       {| outside := cs_disable_device w; link := set_io io' l1;
          priv := priv s;
          trace := trace s ++ [EvRequestIO req r; EvDisableDevice] |})
  else
    (0, set_link (set_io (set_NumPorts1 0 (set_NumPorts2 0 (io (link s))))
                    l1) s).
Proof.
  unfold remaining_checks, labels, bind.
  rewrite set_Vpp_and_irq_eq, io_window_settings_eq.
  cbv zeta. cbn [set_link link outside priv trace set_conf io].
  destruct (declares_window cfg dflt); [|reflexivity].
  destruct (cs_request_io _ _) as [[r io'] w].
  destruct (r =? 0); [reflexivity|].
  unfold seq, pcmcia_disable_device, done.
  cbn [outside link priv trace]. rewrite <- app_assoc. reflexivity.
Qed.

Lemma config_check_index_zero (cfg dflt : cistpl_cftable_entry_t) (vcc : Z)
  (s : machine world) :
  cf_index cfg = 0 ->
  spectrum_cs_config_check ignore_cis_vcc cfg dflt vcc s =
  (- ENODEV, disabled s).
Proof.
  intros H0. unfold spectrum_cs_config_check. rewrite H0. reflexivity.
Qed.

Lemma config_check_eq (cfg dflt : cistpl_cftable_entry_t) (vcc : Z)
  (s : machine world) :
  cf_index cfg <> 0 ->
  spectrum_cs_config_check ignore_cis_vcc cfg dflt vcc s =
  match declared_nominal (cf_vcc cfg) (cf_vcc dflt) with
  | Some v =>
      if vcc =? v then remaining_checks cfg dflt s
      else if ignore_cis_vcc =? 0 then (- ENODEV, disabled (logged vcc v s))
           else remaining_checks cfg dflt (logged vcc v s)
  | None => remaining_checks cfg dflt s
  end.
Proof.
  intros Hidx. unfold spectrum_cs_config_check, remaining_checks.
  destruct (Z.eqb_spec (cf_index cfg) 0) as [E | _]; [contradiction|].
  unfold labels. unfold bind at 1. rewrite check_Vcc_eq.
  destruct (declared_nominal (cf_vcc cfg) (cf_vcc dflt)) as [v|];
    [|reflexivity].
  destruct (vcc =? v); [reflexivity|].
  destruct (ignore_cis_vcc =? 0); reflexivity.
Qed.

(** C4, amended. An entry with index 0 is rejected before any voltage is
    looked at: nothing is compared and nothing is logged, whatever
    [ignore_cis_vcc] says.  For every other entry the voltage compared with
    the requested one is the entry's nominal Vcc divided by 10000 if the
    entry declares one, else the default entry's if that declares one; if
    neither declares one, or the voltages are equal, the entry goes on to
    the remaining checks; on a mismatch it is rejected when
    [ignore_cis_vcc] is 0, and when the flag is set the mismatch is logged
    and the entry goes on to the remaining checks, whose verdict is then
    the verdict on the entry. *)
Theorem voltage_check_policy (cfg dflt : cistpl_cftable_entry_t) (vcc : Z)
  (s : machine world) :
  let own := power_present (cf_vcc cfg) CISTPL_POWER_VNOM in
  let fallback := power_present (cf_vcc dflt) CISTPL_POWER_VNOM in
  let v := if own then power_param (cf_vcc cfg) CISTPL_POWER_VNOM / 10000
           else power_param (cf_vcc dflt) CISTPL_POWER_VNOM / 10000 in
  spectrum_cs_config_check ignore_cis_vcc cfg dflt vcc s =
  if cf_index cfg =? 0 then (- ENODEV, disabled s)
  else if negb (own || fallback) || (vcc =? v)
       then remaining_checks cfg dflt s
       else if ignore_cis_vcc =? 0
            then (- ENODEV, disabled (logged vcc v s))
            else remaining_checks cfg dflt (logged vcc v s).
Proof.
  intros own fallback v. subst own fallback v.
  destruct (Z.eqb_spec (cf_index cfg) 0) as [H0 | Hidx].
  { exact (config_check_index_zero _ _ _ _ H0). }
  rewrite (config_check_eq _ _ _ _ Hidx). unfold declared_nominal.
  destruct (power_present (cf_vcc cfg) CISTPL_POWER_VNOM); cbn [orb negb].
  - destruct (vcc =? _); reflexivity.
  - destruct (power_present (cf_vcc dflt) CISTPL_POWER_VNOM); cbn [orb negb];
      [|reflexivity].
    destruct (vcc =? _); reflexivity.
Qed.

(** C5, amended. For an entry that gets to the I/O window settings and has
    at least one window (its own or, when it declares none, the default
    entry's), the request handed to [pcmcia_request_io] is derived from the
    chosen descriptor: the bit-width attribute is forced 8-bit when the
    16-bit flag is absent (also when both flags are absent), forced 16-bit
    when only the 8-bit flag is absent, and automatic when both flags are
    present; base and length of window 1 are copied, and those of window 2
    (with the same attribute) only when a second window is declared. *)
Theorem io_window_resolution (cfg dflt : cistpl_cftable_entry_t) (vcc r : Z)
  (s s' : machine world) :
  cf_index cfg <> 0 ->
  voltage_passes ignore_cis_vcc cfg dflt vcc = true ->
  declares_window cfg dflt = true ->
  spectrum_cs_config_check ignore_cis_vcc cfg dflt vcc s = (r, s') ->
  let d := chosen_io cfg dflt in
  (d = if io_nwin (cf_io cfg) =? 0 then cf_io dflt else cf_io cfg) /\
  exists req rc io' w,
    cs_request_io req (outside s) = (rc, io', w) /\
    In (EvRequestIO req rc) (trace s') /\
    io (link s') = io' /\
    (Z.land (io_flags d) CISTPL_IO_16BIT = 0 ->
     Attributes1 req = IO_DATA_PATH_WIDTH_8) /\
    (Z.land (io_flags d) CISTPL_IO_16BIT <> 0 ->
     Z.land (io_flags d) CISTPL_IO_8BIT = 0 ->
     Attributes1 req = IO_DATA_PATH_WIDTH_16) /\
    (Z.land (io_flags d) CISTPL_IO_16BIT <> 0 ->
     Z.land (io_flags d) CISTPL_IO_8BIT <> 0 ->
     Attributes1 req = IO_DATA_PATH_WIDTH_AUTO) /\
    BasePort1 req = win_base (win d 0) /\
    NumPorts1 req = win_len (win d 0) /\
    (1 < io_nwin d ->
     BasePort2 req = win_base (win d 1) /\
     NumPorts2 req = win_len (win d 1) /\
     Attributes2 req = Attributes1 req) /\
    (io_nwin d <= 1 ->
     BasePort2 req = BasePort2 (io (link s)) /\
     NumPorts2 req = 0 /\
     Attributes2 req = Attributes2 (io (link s))).
Proof.
  intros Hidx Hv Hw Hrun d. split; [reflexivity|].
  rewrite (config_check_eq _ _ _ _ Hidx) in Hrun.
  assert (Hrest : exists s1, remaining_checks cfg dflt s1 = (r, s') /\
                             outside s1 = outside s /\
                             io (link s1) = io (link s)).
  { unfold voltage_passes in Hv.
    destruct (declared_nominal (cf_vcc cfg) (cf_vcc dflt)) as [v|].
    - destruct (vcc =? v); [now exists s|].
      destruct (ignore_cis_vcc =? 0); [discriminate|].
      now exists (logged vcc v s).
    - now exists s. }
  destruct Hrest as (s1 & Hrest & Ho & Hio).
  rewrite remaining_checks_eq in Hrest. cbv zeta in Hrest.
  rewrite Hw, Ho, Hio in Hrest.
  fold d in Hrest.
  destruct (cs_request_io (resolved_io (io (link s)) d) (outside s))
    as [[rc io'] w] eqn:Ereq.
  exists (resolved_io (io (link s)) d), rc, io', w.
  split; [exact Ereq|].
  split.
  { destruct (rc =? 0); inversion Hrest; subst; cbn [trace];
      apply in_or_app; right; cbn; auto. }
  split.
  { destruct (rc =? 0); inversion Hrest; subst; reflexivity. }
  cbn [resolved_io BasePort1 NumPorts1 Attributes1 BasePort2 NumPorts2
       Attributes2]. unfold width_attribute.
  repeat split.
  - intros ->. reflexivity.
  - intros H16 ->.
    destruct (Z.eqb_spec (Z.land (io_flags d) CISTPL_IO_16BIT) 0);
      [contradiction|reflexivity].
  - intros H16 H8.
    destruct (Z.eqb_spec (Z.land (io_flags d) CISTPL_IO_16BIT) 0);
      [contradiction|].
    destruct (Z.eqb_spec (Z.land (io_flags d) CISTPL_IO_8BIT) 0);
      [contradiction|reflexivity].
  - destruct (Z.ltb_spec 1 (io_nwin d)); [reflexivity|lia].
  - destruct (Z.ltb_spec 1 (io_nwin d)); [reflexivity|lia].
  - destruct (Z.ltb_spec 1 (io_nwin d)); [reflexivity|lia].
  - destruct (Z.ltb_spec 1 (io_nwin d)); [lia|reflexivity].
  - destruct (Z.ltb_spec 1 (io_nwin d)); [lia|reflexivity].
  - destruct (Z.ltb_spec 1 (io_nwin d)); [lia|reflexivity].
Qed.


Lemma cis_scan_selected (entries : list cistpl_cftable_entry_t)
  (dflt : cistpl_cftable_entry_t) (vcc : Z) (s s' : machine world)
  (e : cistpl_cftable_entry_t) :
  cis_scan (spectrum_cs_config_check ignore_cis_vcc) entries dflt vcc s
  = (Some e, s') ->
  In e entries /\
  exists s0, spectrum_cs_config_check ignore_cis_vcc e dflt vcc s0 = (0, s').
Proof.
  revert s. induction entries as [|cfg rest IH]; intros s H.
  - discriminate.
  - cbn [cis_scan] in H. unfold seq in H.
    destruct (spectrum_cs_config_check ignore_cis_vcc cfg dflt vcc s)
      as [r s1] eqn:E.
    destruct (Z.eqb_spec r 0) as [-> | Hr].
    + unfold done in H. inversion H; subst.
      split; [now left|]. now exists s.
    + destruct (IH _ H) as [Hin Hs0]. split; [now right | exact Hs0].
Qed.

(** C6. An entry whose index is 0 is rejected whatever its other fields,
    the default entry, the requested voltage and the state of the socket
    are: the check returns [-ENODEV], never the 0 that selects an entry,
    and all it does is disable the device; the device configuration is not
    touched. *)
Theorem index_zero_never_selected (cfg dflt : cistpl_cftable_entry_t)
  (vcc : Z) (s : machine world) :
  ENODEV <> 0 ->
  cf_index cfg = 0 ->
  spectrum_cs_config_check ignore_cis_vcc cfg dflt vcc s
  = (- ENODEV, disabled s) /\
  fst (spectrum_cs_config_check ignore_cis_vcc cfg dflt vcc s) <> 0 /\
  link (snd (spectrum_cs_config_check ignore_cis_vcc cfg dflt vcc s))
  = link s.
Proof.
  intros HE H0. rewrite (config_check_index_zero _ _ _ _ H0).
  cbn [fst snd disabled link]. repeat split. lia.
Qed.

(** In the scan as the specification describes it, an entry with index 0 is
    therefore never the match. *)
Lemma cis_scan_skips_index_zero (entries : list cistpl_cftable_entry_t)
  (dflt cfg : cistpl_cftable_entry_t) (vcc : Z) (s s' : machine world) :
  ENODEV <> 0 ->
  cf_index cfg = 0 ->
  cis_scan (spectrum_cs_config_check ignore_cis_vcc) entries dflt vcc s
  <> (Some cfg, s').
Proof.
  intros HE H0 Hscan.
  destruct (cis_scan_selected _ _ _ _ _ _ Hscan) as (_ & s0 & Hsel).
  rewrite (config_check_index_zero _ _ _ _ H0) in Hsel.
  inversion Hsel. lia.
Qed.

Lemma config_check_keeps_Vpp (cfg dflt : cistpl_cftable_entry_t) (vcc r : Z)
  (s s' : machine world) :
  declared_nominal (cf_vpp1 cfg) (cf_vpp1 dflt) = None ->
  spectrum_cs_config_check ignore_cis_vcc cfg dflt vcc s = (r, s') ->
  conf_Vpp (conf (link s')) = conf_Vpp (conf (link s)).
Proof.
  intros Hnone Hrun.
  assert (Hrest : forall s1, link s1 = link s ->
            remaining_checks cfg dflt s1 = (r, s') ->
            conf_Vpp (conf (link s')) = conf_Vpp (conf (link s))).
  { intros s1 Hl H. rewrite remaining_checks_eq in H. cbv zeta in H.
    rewrite Hnone, Hl in H.
    destruct (declares_window cfg dflt).
    - destruct (cs_request_io _ _) as [[rc io'] w].
      destruct (rc =? 0); inversion H; subst; reflexivity.
    - inversion H; subst; reflexivity. }
  destruct (Z.eq_dec (cf_index cfg) 0) as [H0 | Hidx].
  - rewrite (config_check_index_zero _ _ _ _ H0) in Hrun.
    inversion Hrun; subst; reflexivity.
  - rewrite (config_check_eq _ _ _ _ Hidx) in Hrun.
    destruct (declared_nominal (cf_vcc cfg) (cf_vcc dflt)) as [v|].
    + destruct (vcc =? v); [now apply (Hrest s)|].
      destruct (ignore_cis_vcc =? 0).
      * inversion Hrun; subst; reflexivity.
      * now apply (Hrest (logged vcc v s)).
    + now apply (Hrest s).
Qed.

(** C10. The settings the check writes into the device configuration
    before its last test survive a rejection: when an entry that got past
    the voltage check is rejected (which only the failed I/O reservation
    can cause), the device keeps the Vpp resolved for that entry, the
    interrupt-enable attribute and the I/O window fields as
    [pcmcia_request_io] left them; and an entry checked next that declares
    no Vpp, with a default entry that declares none either, leaves the
    check with the Vpp of the rejected entry. *)
Theorem rejected_entry_settings_persist
  (cfg1 cfg2 dflt : cistpl_cftable_entry_t) (vcc r1 r2 : Z)
  (s s1 s2 : machine world) :
  cf_index cfg1 <> 0 ->
  voltage_passes ignore_cis_vcc cfg1 dflt vcc = true ->
  spectrum_cs_config_check ignore_cis_vcc cfg1 dflt vcc s = (r1, s1) ->
  r1 <> 0 ->
  declared_nominal (cf_vpp1 cfg2) (cf_vpp1 dflt) = None ->
  spectrum_cs_config_check ignore_cis_vcc cfg2 dflt vcc s1 = (r2, s2) ->
  (exists rc io' w,
     cs_request_io (resolved_io (io (link s)) (chosen_io cfg1 dflt))
       (outside s) = (rc, io', w) /\
     rc <> 0 /\ io (link s1) = io') /\
  conf_Vpp (conf (link s1)) =
    match declared_nominal (cf_vpp1 cfg1) (cf_vpp1 dflt) with
    | Some v => u32 v
    | None => conf_Vpp (conf (link s))
    end /\
  conf_Attributes (conf (link s1)) =
    u32 (Z.lor (conf_Attributes (conf (link s))) CONF_ENABLE_IRQ) /\
  conf_Vpp (conf (link s2)) = conf_Vpp (conf (link s1)).
Proof.
  intros Hidx Hv Hrun1 Hr1 Hnone Hrun2.
  rewrite (config_check_eq _ _ _ _ Hidx) in Hrun1.
  assert (Hrest : exists s0, remaining_checks cfg1 dflt s0 = (r1, s1) /\
                             outside s0 = outside s /\ link s0 = link s).
  { unfold voltage_passes in Hv.
    destruct (declared_nominal (cf_vcc cfg1) (cf_vcc dflt)) as [v|].
    - destruct (vcc =? v); [now exists s|].
      destruct (ignore_cis_vcc =? 0); [discriminate|].
      now exists (logged vcc v s).
    - now exists s. }
  destruct Hrest as (s0 & Hrest & Ho & Hl).
  rewrite remaining_checks_eq in Hrest. cbv zeta in Hrest.
  rewrite Ho, Hl in Hrest.
  destruct (declares_window cfg1 dflt).
  - destruct (cs_request_io _ _) as [[rc io'] w] eqn:Ereq.
    destruct (Z.eqb_spec rc 0) as [-> | Hrc].
    + inversion Hrest; subst. contradiction.
    + inversion Hrest; subst. cbn [link set_io conf io].
      split; [exists rc, io', w; repeat split; assumption|].
      split; [reflexivity|]. split; [reflexivity|].
      now apply (config_check_keeps_Vpp _ _ _ _ _ _ Hnone Hrun2).
  - inversion Hrest; subst. contradiction.
Qed.

End CheckProperties.

(** *** The configuration check on the simulated socket *)

(** C4 on a 3.3 V entry in the 5 V socket with [ignore_cis_vcc] set: the
    mismatch is logged and the entry is accepted. *)
Lemma voltage_check_policy_witness :
  cf_index entry_3v3 <> 0 /\
  spectrum_cs_config_check 1 entry_3v3 blank_entry 50 (boot quiet_socket)
  = remaining_checks entry_3v3 blank_entry (logged 50 33 (boot quiet_socket))
  /\ fst (remaining_checks entry_3v3 blank_entry
            (logged 50 33 (boot quiet_socket))) = 0.
Proof.
  split; [discriminate|]. split.
  - exact (voltage_check_policy 1 entry_3v3 blank_entry 50
             (boot quiet_socket)).
  - vm_compute; reflexivity.
Defined.

(** C4 as stated fails for an entry with index 0: the entry declares 5.0 V,
    3.3 V is requested and [ignore_cis_vcc] is set, yet the entry is
    rejected, and no mismatch is logged since no voltage was compared.  The
    same entry under index 1 is logged and accepted. *)
Lemma index_zero_rejected_despite_flag :
  cf_index zero_entry = 0 /\
  declared_nominal (cf_vcc zero_entry) (cf_vcc blank_entry) = Some 50 /\
  (let '(r, s') := spectrum_cs_config_check 1 zero_entry blank_entry 33
                     (boot quiet_socket) in
   r = - ENODEV /\ trace s' = [EvDisableDevice]) /\
  (let '(r, s') := spectrum_cs_config_check 1
                     (entry 1 (cf_vcc zero_entry) (cf_vpp1 zero_entry)
                        (cf_io zero_entry))
                     blank_entry 33 (boot quiet_socket) in
   r = 0 /\ hd_error (trace s') = Some (EvDebugVccMismatch 33 50)).
Proof. vm_compute. repeat split. Qed.

(** C5 on the scenario of the specification: one 16-bit-only window of 16
    ports at 0x300. *)
Lemma io_window_resolution_witness :
  exists req rc io' w,
    cs_request_io req (outside (boot quiet_socket)) = (rc, io', w) /\
    Attributes1 req = IO_DATA_PATH_WIDTH_16 /\
    BasePort1 req = 0x300 /\ NumPorts1 req = 16 /\ NumPorts2 req = 0.
Proof.
  destruct (io_window_resolution 0 scenario_entry scenario_default 50
              (fst (spectrum_cs_config_check 0 scenario_entry
                      scenario_default 50 (boot quiet_socket)))
              (boot quiet_socket)
              (snd (spectrum_cs_config_check 0 scenario_entry
                      scenario_default 50 (boot quiet_socket))))
    as (_ & req & rc & io' & w & Hreq & _ & _ & _ & H16 & _ & Hb & Hn & _ & H1).
  - discriminate.
  - vm_compute; reflexivity.
  - vm_compute; reflexivity.
  - vm_compute; reflexivity.
  - exists req, rc, io', w.
    split; [exact Hreq|].
    split; [apply H16; [discriminate | reflexivity]|].
    split; [exact Hb|]. split; [exact Hn|].
    apply H1. cbn. lia.
Defined.

(** C5 as stated fails: for a window that declares neither capability flag
    the specification's wording gives automatic width, whereas the driver
    requests (and keeps) the forced 8-bit attribute. *)
Lemma both_flags_absent_gives_8bit :
  spec_width_attribute (io_flags (cf_io flagless_entry))
  = Some IO_DATA_PATH_WIDTH_AUTO /\
  Attributes1 (io (link (boot_with_auto_width quiet_socket)))
  = IO_DATA_PATH_WIDTH_AUTO /\
  (let '(r, s') := spectrum_cs_config_check 0 flagless_entry blank_entry 50
                     (boot_with_auto_width quiet_socket) in
   r = 0 /\
   Attributes1 (io (link s')) = IO_DATA_PATH_WIDTH_8 /\
   Attributes1 (io (link s')) <> IO_DATA_PATH_WIDTH_AUTO /\
   exists req, trace s' = [EvRequestIO req 0] /\
               Attributes1 req = IO_DATA_PATH_WIDTH_8).
Proof.
  split; [reflexivity|]. split; [reflexivity|]. vm_compute.
  split; [reflexivity|]. split; [reflexivity|]. split; [discriminate|].
  eexists. split; reflexivity.
Qed.

(** C6 on an entry that is fine but for its index. *)
Lemma index_zero_never_selected_witness :
  ENODEV <> 0 /\ cf_index zero_entry = 0 /\
  spectrum_cs_config_check 0 zero_entry blank_entry 50 (boot quiet_socket)
  = (- ENODEV, disabled (boot quiet_socket)) /\
  fst (spectrum_cs_config_check 0 zero_entry blank_entry 50
         (boot quiet_socket)) <> 0 /\
  link (snd (spectrum_cs_config_check 0 zero_entry blank_entry 50
               (boot quiet_socket)))
  = link (boot quiet_socket).
Proof.
  assert (HE : ENODEV <> 0) by discriminate.
  assert (H0 : cf_index zero_entry = 0) by reflexivity.
  split; [exact HE|]. split; [exact H0|].
  exact (index_zero_never_selected 0 zero_entry blank_entry 50
           (boot quiet_socket) HE H0).
Defined.

(** C10 on the crowded socket: the first entry loses its window to the
    busy range, the second is accepted and ends with the Vpp of the
    first. *)
Lemma rejected_entry_settings_persist_witness :
  let s1 := snd (spectrum_cs_config_check 0 entry_with_Vpp blank_entry 50
                   (boot crowded_socket)) in
  let s2 := snd (spectrum_cs_config_check 0 entry_without_Vpp blank_entry 50
                   s1) in
  fst (spectrum_cs_config_check 0 entry_with_Vpp blank_entry 50
         (boot crowded_socket)) = - ENODEV /\
  fst (spectrum_cs_config_check 0 entry_without_Vpp blank_entry 50 s1) = 0 /\
  conf_Vpp (conf (link s1)) = 120 /\
  conf_Vpp (conf (link s2)) = conf_Vpp (conf (link s1)).
Proof.
  intros s1 s2.
  split; [vm_compute; reflexivity|]. split; [vm_compute; reflexivity|].
  split; [vm_compute; reflexivity|].
  apply (rejected_entry_settings_persist 0 entry_with_Vpp entry_without_Vpp
           blank_entry 50 (- ENODEV) 0 (boot crowded_socket) s1 s2).
  - discriminate.
  - vm_compute; reflexivity.
  - vm_compute; reflexivity.
  - discriminate.
  - vm_compute; reflexivity.
  - vm_compute; reflexivity.
Defined.

(** ** Release and configure *)

Lemma s32_small (x : Z) : - 2 ^ 31 <= x < 2 ^ 31 -> s32 x = x.
Proof.
  intros H. unfold s32. rewrite Z.mod_small by lia. lia.
Qed.

Lemma s32_range (x : Z) : - 2 ^ 31 <= s32 x < 2 ^ 31.
Proof.
  unfold s32.
  pose proof (Z.mod_pos_bound (x + 2 ^ 31) (2 ^ 32) ltac:(lia)). lia.
Qed.

(** An [int] never equals its successor, also across the wrap. *)
Lemma s32_succ_neq (x : Z) : s32 (s32 x + 1) <> s32 x.
Proof.
  pose proof (s32_range x) as Hr.
  destruct (Z.eq_dec (s32 x) (2 ^ 31 - 1)) as [E | NE].
  - rewrite E. vm_compute. discriminate.
  - rewrite s32_small by lia. lia.
Qed.

Section LifecycleProperties.

Context {world : Type} {hdr : headers} {env : environment world}.

Variable ignore_cis_vcc : Z.

Lemma release_eq (s : machine world) :
  spectrum_cs_release s =
  (tt,
   {| outside :=
        (if iobase (hw (priv s)) =? 0 then fun w => w
         else cs_ioport_unmap (iobase (hw (priv s))))
          (cs_disable_device (outside s));
      link := link s;
      priv := set_hw_unavailable (s32 (hw_unavailable (priv s) + 1)) (priv s);
      trace := trace s ++ release_calls (iobase (hw (priv s))) |}).
Proof.
  unfold spectrum_cs_release, seq, emit, modify_priv, pcmcia_disable_device,
    set_priv, release_calls.
  cbn [outside link priv trace set_hw_unavailable hw iobase].
  destruct (iobase (hw (priv s)) =? 0); cbn [negb].
  - repeat rewrite <- app_assoc. reflexivity.
  - unfold ioport_unmap. cbn [outside link priv trace].
    repeat rewrite <- app_assoc. reflexivity.
Qed.

(** C8, amended. Release is not idempotent: every invocation increments
    the [int] counter [hw_unavailable] (wrapping at [INT_MAX]), disables
    the device and, when the register window pointer [hw.iobase] is not
    NULL, unmaps the window; it never resets the pointer.  Two invocations
    in succession therefore make all these calls twice, the second
    unmapping the same window again, and leave a counter, and so a state,
    that differs from the one after a single invocation; short of the
    [int] boundary the counter ends two higher than it started. *)
Theorem release_twice (s : machine world) :
  let s1 := snd (spectrum_cs_release s) in
  let s2 := snd (spectrum_cs_release s1) in
  let calls := release_calls (iobase (hw (priv s))) in
  hw_unavailable (priv s1) = s32 (hw_unavailable (priv s) + 1) /\
  hw_unavailable (priv s2) = s32 (hw_unavailable (priv s1) + 1) /\
  hw_unavailable (priv s2) <> hw_unavailable (priv s1) /\
  (- 2 ^ 31 <= hw_unavailable (priv s) < 2 ^ 31 - 2 ->
   hw_unavailable (priv s1) = hw_unavailable (priv s) + 1 /\
   hw_unavailable (priv s2) = hw_unavailable (priv s) + 2) /\
  iobase (hw (priv s1)) = iobase (hw (priv s)) /\
  iobase (hw (priv s2)) = iobase (hw (priv s)) /\
  trace s1 = trace s ++ calls /\
  trace s2 = trace s ++ calls ++ calls /\
  s2 <> s1.
Proof.
  cbv zeta. rewrite !release_eq.
  cbn [snd priv trace set_hw_unavailable hw hw_unavailable iobase].
  pose proof (s32_succ_neq (hw_unavailable (priv s) + 1)) as Hneq.
  repeat split; try reflexivity.
  - exact Hneq.
  - rewrite s32_small by lia. reflexivity.
  - rewrite (s32_small (hw_unavailable (priv s) + 1)) by lia.
    rewrite s32_small by lia. lia.
  - now rewrite app_assoc.
  - intros E.
    apply (f_equal (fun m => hw_unavailable (priv m))) in E.
    cbn [priv hw_unavailable] in E. exact (Hneq E).
Qed.

Lemma hard_reset_returns_zero (s : machine world) :
  fst (spectrum_cs_hard_reset s) = 0.
Proof.
  unfold spectrum_cs_hard_reset, seq, done.
  destruct (spectrum_reset 0 s) as [r s']. reflexivity.
Qed.

Lemma ends_with_zero_ret {L} : ends_with_zero (ret (world := world) (L := L) 0).
Proof. intros s a s' H. inversion H. reflexivity. Qed.

Lemma ends_with_zero_bind {L A} (m : body world L A) (k : A -> body world L Z) :
  (forall x, ends_with_zero (k x)) -> ends_with_zero (bind m k).
Proof.
  intros Hk s a s' H. unfold bind in H.
  destruct (m s) as [[x | l] s1]; [|inversion H].
  exact (Hk x _ _ _ H).
Qed.

(** X10. Every failure of configure is [-ENODEV], handed back right
    after [spectrum_cs_release] has run: the end state of a failed
    configure is the end state of a release. *)
Lemma config_failure_runs_release (s s' : machine world) (r : Z) :
  spectrum_cs_config ignore_cis_vcc s = (r, s') ->
  r <> 0 ->
  r = - ENODEV /\ exists s0, spectrum_cs_release s0 = (tt, s').
Proof.
  unfold spectrum_cs_config, labels.
  match goal with
  | |- (match ?b s with _ => _ end) = _ -> _ =>
      assert (Hz : ends_with_zero b)
        by (repeat first [ apply ends_with_zero_ret
                         | apply ends_with_zero_bind; intros
                         | match goal with
                           | |- ends_with_zero (let '(_, _) := ?x in _) =>
                               destruct x
                           end ]);
      destruct (b s) as [[a | l] s1] eqn:Eb
  end.
  - intros H Hr. inversion H; subst. now rewrite (Hz _ _ _ Eb) in Hr.
  - intros H _. destruct l as [fn rc |]; unfold seq, done in H.
    + destruct (cs_error fn rc s1) as [[] s2].
      destruct (spectrum_cs_release s2) as [[] s3] eqn:Erel.
      inversion H; subst. split; [reflexivity|]. now exists s2.
    + destruct (spectrum_cs_release s1) as [[] s3] eqn:Erel.
      inversion H; subst. split; [reflexivity|]. now exists s1.
Qed.

Lemma bind_normal {L A B} (m : body world L A) (k : A -> body world L B)
  (s s' : machine world) (b : B) :
  bind m k s = (Normal L b, s') ->
  exists a s1, m s = (Normal L a, s1) /\ k a s1 = (Normal L b, s').
Proof.
  unfold bind. destruct (m s) as [[a | l] s1]; intros H.
  - now exists a, s1.
  - discriminate.
Qed.

Lemma call_normal {L A} (f : ST world A) (s s' : machine world) (a : A) :
  call (L := L) f s = (Normal L a, s') -> f s = (a, s').
Proof.
  unfold call. destruct (f s) as [a0 s0]. intros H. now inversion H.
Qed.

Lemma ret_normal {L A} (a b : A) (s s' : machine world) :
  ret (L := L) a s = (Normal L b, s') -> a = b /\ s = s'.
Proof. unfold ret. intros H. now inversion H. Qed.

Lemma goto_normal {L A} (l : L) (a : A) (s s' : machine world) :
  goto l s = (Normal L a, s') -> False.
Proof. unfold goto. discriminate. Qed.

Lemma CS_CHECK_normal {L A} (cs_failed : service -> Z -> L)
  (fn fn' : service) (f : ST world (Z * A)) (s s' : machine world)
  (r : Z) (a : A) :
  CS_CHECK cs_failed fn f s = (Normal L (fn', r, a), s') ->
  fn' = fn /\ r = 0 /\ f s = (0, a, s').
Proof.
  unfold CS_CHECK. destruct (f s) as [[r0 a0] s0].
  destruct (Z.eqb_spec r0 0) as [-> | Hr]; cbn [negb]; intros H.
  - now inversion H.
  - discriminate.
Qed.

(** A run of configure that returns 0 went through the calls of the
    success path, each with a zero result (a non-NULL window for
    [ioport_map]), and ends with [dev_node] set. *)
Lemma config_success_inv (s s' : machine world) :
  ENODEV <> 0 ->
  spectrum_cs_config ignore_cis_vcc s = (0, s') ->
  exists s1 irq' w2 mem w3 w4 s4 s5 p6 w6 p7 w7,
    pcmcia_loop_config (spectrum_cs_config_check ignore_cis_vcc) s = (0, s1) /\
    cs_request_irq (irq (link s1)) (outside s1) = (0, irq', w2) /\
    cs_ioport_map (BasePort1 (io (link s1))) (NumPorts1 (io (link s1))) w2
    = (mem, w3) /\
    mem <> 0 /\
    cs_request_configuration (conf (link s1)) w3 = (0, w4) /\
    outside s4 = w4 /\
    trace s4 = trace s1 ++
               [EvRequestIRQ (irq (link s1)) 0;
                EvIoportMap (BasePort1 (io (link s1)))
                  (NumPorts1 (io (link s1))) mem;
                EvRequestConfiguration (conf (link s1)) 0] /\
    spectrum_cs_hard_reset s4 = (0, s5) /\
    core_orinoco_init (priv s5) (outside s5) = (0, p6, w6) /\
    core_orinoco_if_add p6 (BasePort1 (io (link s5)))
      (AssignedIRQ (irq (link s5))) w6 = (0, p7, w7) /\
    dev_node (link s') = true.
Proof.
  intros HE H.
  unfold spectrum_cs_config, labels in H.
  match type of H with
  | (let (_, _) := ?b s in _) = _ =>
      destruct (b s) as [[a | l] s2] eqn:Eb
  end.
  2:{ destruct l as [fn rc |]; unfold seq, done in H.
      - destruct (cs_error fn rc s2) as [[] s3].
        destruct (spectrum_cs_release s3) as [[] s4].
        inversion H. lia.
      - destruct (spectrum_cs_release s2) as [[] s3].
        inversion H. lia. }
  inversion H; subst a s2; clear H.
  apply bind_normal in Eb. destruct Eb as (r0 & s1 & Escan & Eb).
  apply call_normal in Escan.
  apply bind_normal in Eb. destruct Eb as ([] & s1' & Ecase & Eb).
  destruct (Z.eqb_spec r0 0) as [-> | Hr0]; cbn [negb] in Ecase.
  2:{ apply bind_normal in Ecase. destruct Ecase as (? & ? & _ & Ecase).
      apply bind_normal in Ecase. destruct Ecase as (? & ? & _ & Ecase).
      now apply goto_normal in Ecase. }
  apply ret_normal in Ecase. destruct Ecase as [_ <-].
  apply bind_normal in Eb. destruct Eb as ([[fn1 rc1] []] & s2 & Eirq & Eb).
  apply CS_CHECK_normal in Eirq. destruct Eirq as (-> & -> & Eirq).
  unfold pcmcia_request_irq in Eirq.
  destruct (cs_request_irq (irq (link s1)) (outside s1)) as [[rq irq'] w2]
    eqn:Ecall_irq.
  inversion Eirq; subst rq s2; clear Eirq.
  apply bind_normal in Eb. destruct Eb as (mem & s3 & Emap & Eb).
  apply call_normal in Emap. unfold ioport_map in Emap.
  cbn [outside link priv trace set_irq io] in Emap.
  destruct (cs_ioport_map _ _ w2) as [mem' w3] eqn:Ecall_map.
  inversion Emap; subst mem' s3; clear Emap.
  apply bind_normal in Eb. destruct Eb as ([] & s3 & Ecase & Eb).
  destruct (Z.eqb_spec mem 0) as [-> | Hmem].
  { now apply goto_normal in Ecase. }
  apply ret_normal in Ecase. destruct Ecase as [_ <-].
  apply bind_normal in Eb. destruct Eb as ([] & s3 & Ehw & Eb).
  apply call_normal in Ehw. unfold modify_priv in Ehw.
  inversion Ehw; subst s3; clear Ehw.
  apply bind_normal in Eb. destruct Eb as ([[fn2 rc2] []] & s3 & Econf & Eb).
  apply CS_CHECK_normal in Econf. destruct Econf as (-> & -> & Econf).
  unfold pcmcia_request_configuration in Econf.
  cbn [outside link priv trace set_priv set_irq conf] in Econf.
  destruct (cs_request_configuration (conf (link s1)) w3) as [rq w4]
    eqn:Ecall_conf.
  inversion Econf; subst rq s3; clear Econf.
  apply bind_normal in Eb. destruct Eb as ([] & s4 & Enode & Eb).
  apply call_normal in Enode. unfold modify_priv in Enode.
  inversion Enode; clear Enode.
  apply bind_normal in Eb. destruct Eb as (r & s5 & Ereset & Eb).
  apply call_normal in Ereset.
  apply bind_normal in Eb. destruct Eb as ([] & s5' & Ecase & Eb).
  destruct (Z.eqb_spec r 0) as [-> | Hr]; cbn [negb] in Ecase.
  2:{ now apply goto_normal in Ecase. }
  apply ret_normal in Ecase. destruct Ecase as [_ <-].
  apply bind_normal in Eb. destruct Eb as (r6 & s6 & Einit & Eb).
  apply call_normal in Einit. unfold orinoco_init in Einit.
  destruct (core_orinoco_init (priv s5) (outside s5)) as [[r6' p6] w6]
    eqn:Ecall_init.
  inversion Einit; subst r6' s6; clear Einit.
  apply bind_normal in Eb. destruct Eb as ([] & s6 & Ecase & Eb).
  destruct (Z.eqb_spec r6 0) as [-> | Hr6]; cbn [negb] in Ecase.
  2:{ apply bind_normal in Ecase. destruct Ecase as (? & ? & _ & Ecase).
      now apply goto_normal in Ecase. }
  apply ret_normal in Ecase. destruct Ecase as [_ <-].
  apply bind_normal in Eb. destruct Eb as (r7 & s7 & Eadd & Eb).
  apply call_normal in Eadd. unfold orinoco_if_add in Eadd.
  cbn [outside link priv trace] in Eadd.
  destruct (core_orinoco_if_add p6 _ _ w6) as [[r7' p7] w7] eqn:Ecall_add.
  inversion Eadd; subst r7' s7; clear Eadd.
  apply bind_normal in Eb. destruct Eb as ([] & s7 & Ecase & Eb).
  destruct (Z.eqb_spec r7 0) as [-> | Hr7]; cbn [negb] in Ecase.
  2:{ apply bind_normal in Ecase. destruct Ecase as (? & ? & _ & Ecase).
      now apply goto_normal in Ecase. }
  apply ret_normal in Ecase. destruct Ecase as [_ <-].
  apply bind_normal in Eb. destruct Eb as ([] & s7 & Ename & Eb).
  apply call_normal in Ename. unfold modify_priv in Ename.
  inversion Ename; subst s7; clear Ename.
  apply bind_normal in Eb. destruct Eb as ([] & s8 & Enode & Eb).
  apply call_normal in Enode. unfold modify_link in Enode.
  inversion Enode; subst s8; clear Enode.
  apply ret_normal in Eb. destruct Eb as [_ <-].
  exists s1, irq', w2, mem, w3, w4, s4, s5, p6, w6, p7, w7.
  subst s4. cbn [outside trace set_priv set_link link dev_node].
  repeat rewrite <- app_assoc in Ereset. cbn [app] in Ereset.
  repeat rewrite <- app_assoc. cbn [app].
  repeat split; assumption.
Qed.


End LifecycleProperties.

(** *** Release and configure on the simulated socket *)

(** C8 as stated fails: on an attachment with a mapped register window the
    second release increments the unavailable count again and unmaps the
    same window a second time. *)
Lemma release_is_not_idempotent :
  let once := snd (spectrum_cs_release mapped_attachment) in
  let twice := snd (spectrum_cs_release once) in
  twice <> once /\
  hw_unavailable (priv once) = 1 /\ hw_unavailable (priv twice) = 2 /\
  sk_unmapped (outside once) = [0x10300] /\
  sk_unmapped (outside twice) = [0x10300; 0x10300] /\
  sk_disabled (outside once) = 1%nat /\
  sk_disabled (outside twice) = 2%nat.
Proof.
  cbv zeta. split; [|repeat split].
  intros E. apply (f_equal (fun m => hw_unavailable (priv m))) in E.
  discriminate E.
Qed.

(** C7 fails on the code for the hardware reset: [spectrum_cs_hard_reset]
    returns 0 whatever [spectrum_reset] returned.  When the card is pulled
    right after the socket has been configured, or when the bus fails the
    first register access, the reset sequence fails with [-ENODEV], yet
    configure goes on, registers the interface and returns 0 without
    running the release path. *)
Theorem hard_reset_failure_goes_unnoticed :
  (let '(r, s') := spectrum_cs_config 0 (boot pulled_socket) in
   r = 0 /\ dev_node (link s') = true /\
   hw_unavailable (priv s') = 0 /\
   existsb is_release_call (trace s') = false /\
   existsb is_access (trace s') = false /\
   cs_dev_present (outside s') = false /\
   fst (spectrum_reset 0 s') = - ENODEV /\
   fst (spectrum_cs_hard_reset s') = 0) /\
  (let '(r, s') := spectrum_cs_config 0 (boot deaf_socket) in
   r = 0 /\ dev_node (link s') = true /\
   hw_unavailable (priv s') = 0 /\
   existsb is_release_call (trace s') = false /\
   filter (fun e => failed_access e || is_cs_error e) (trace s') =
   [EvAccessConfigurationRegister
      {| reg_Function := 0; reg_Action := CS_READ; reg_Offset := CISREG_COR;
         reg_Value := 0 |}
      (- EINVAL)
      {| reg_Function := 0; reg_Action := CS_READ; reg_Offset := CISREG_COR;
         reg_Value := 0 |};
    EvCsError AccessConfigurationRegister (- EINVAL)]).
Proof. vm_compute. repeat split. Qed.

(** * Further properties of the driver *)

(** ** The reset sequence *)

Section FurtherResetProperties.

Context {world : Type} {hdr : headers} {env : environment world}.

Lemma ccsr_run_value_bits (v : Z) :
  let w := u32 (Z.lor (if 0 =? 0 then HCR_RUN else HCR_IDLE)
                      (Z.land v HCR_MEM16)) in
  w = Z.lor HCR_RUN (Z.land v HCR_MEM16) /\
  Z.land w (Z.lor HCR_RUN HCR_IDLE) = HCR_RUN /\
  Z.land w HCR_MEM16 = Z.land v HCR_MEM16.
Proof.
  cbv zeta. cbn [Z.eqb].
  destruct (land_bit4_cases v) as [-> | ->]; repeat split; reflexivity.
Qed.

(** X1. A successful reset with [idle] clear, the reset
    [spectrum_cs_hard_reset] asks for, writes to CCSR the run encoding
    OR'd with the memory-width bit of the CCSR value just read: the
    firmware is started and the memory width is kept. *)
Theorem reset_run_ccsr_value (s s' : machine world) :
  ENODEV <> 0 ->
  spectrum_reset 0 s = (0, s') ->
  exists q1 r1 q2 r2 q3 r3 q4 r4 q5 r5,
    trace s' = trace s ++ reset_sequence q1 r1 q2 r2 q3 r3 q4 r4 q5 r5 /\
    (reg_Action q3 = CS_READ /\ reg_Offset q3 = CISREG_CCSR) /\
    (reg_Action q4 = CS_WRITE /\ reg_Offset q4 = CISREG_CCSR) /\
    reg_Value q4 = Z.lor HCR_RUN (Z.land (reg_Value r3) HCR_MEM16) /\
    Z.land (reg_Value q4) (Z.lor HCR_RUN HCR_IDLE) = HCR_RUN /\
    Z.land (reg_Value q4) HCR_MEM16 = Z.land (reg_Value r3) HCR_MEM16.
Proof.
  intros HE Hrun.
  destruct (reset_success_inv _ _ _ HE Hrun) as
    (_ & r1 & w1 & r2 & w2 & r3 & w3 & r4 & w4 & r5 & w5 & H).
  cbv zeta in H. destruct H as (_ & _ & _ & _ & _ & ->).
  destruct (ccsr_run_value_bits (reg_Value r3)) as (V1 & V2 & V3).
  do 10 eexists. cbn [trace].
  split; [reflexivity|].
  cbn [reg_Action reg_Offset reg_Value].
  repeat split; assumption.
Qed.

Ltac reset_step H :=
  match type of H with
  | context [cs_access_configuration_register ?r ?w] =>
      let rc := fresh "rc" in
      let resp := fresh "resp" in
      let w' := fresh "w" in
      let Z0 := fresh "Erc" in
      destruct (cs_access_configuration_register r w) as [[rc resp] w'];
      cbn [fst snd negb outside link priv trace] in H;
      destruct (Z.eqb_spec rc 0) as [Z0 | Z0];
      cbn [fst snd negb outside link priv trace] in H;
      [subst rc | ]
  end.

Ltac reset_done H :=
  inversion H; subst; clear H; cbn [trace link priv];
  repeat rewrite <- app_assoc; cbn [app];
  split; [reflexivity|]; split; [reflexivity|];
  eexists; split; [reflexivity|];
  cbn [forallb filter is_access is_cs_error reset_call andb List.length];
  rewrite ?Z.eqb_refl;
  repeat split; try reflexivity; try lia; auto.

(** X2. Whatever the card and the bus do, [spectrum_reset] leaves the
    device structure and the driver's private data alone and returns 0 or
    [-ENODEV].  After the presence test it starts with
    ([pcmcia_dev_present], a query of the socket that the call trace does
    not record), the calls it makes are register accesses, at most five,
    one-millisecond delays and at most one error report. *)
Theorem reset_only_touches_registers (idle r : Z) (s s' : machine world) :
  spectrum_reset idle s = (r, s') ->
  link s' = link s /\
  priv s' = priv s /\
  exists new,
    trace s' = trace s ++ new /\
    forallb reset_call new = true /\
    (List.length (filter is_access new) <= 5)%nat /\
    (List.length (filter is_cs_error new) <= 1)%nat /\
    (r = 0 \/ r = - ENODEV).
Proof.
  intros H. unfold spectrum_reset in H.
  destruct (cs_dev_present (outside s)); cbn [negb] in H.
  2:{ inversion H; subst. split; [reflexivity|]. split; [reflexivity|].
      exists []. rewrite app_nil_r. cbn. repeat split; auto; lia. }
  unfold labels, bind, CS_CHECK, pcmcia_access_configuration_register,
    call, udelay, cs_error, emit, ret, seq, done in H.
  cbn [outside link priv trace] in H.
  reset_step H; [| reset_done H].
  reset_step H; [| reset_done H].
  reset_step H; [| reset_done H].
  reset_step H; [| reset_done H].
  reset_step H; [| reset_done H].
  reset_done H.
Qed.

End FurtherResetProperties.

(** X1 on the quiet socket. *)
Lemma reset_run_ccsr_value_witness :
  exists q1 r1 q2 r2 q3 r3 q4 r4 q5 r5,
    trace (snd (spectrum_reset 0 (boot quiet_socket))) =
    trace (boot quiet_socket) ++
    reset_sequence q1 r1 q2 r2 q3 r3 q4 r4 q5 r5 /\
    (reg_Action q3 = CS_READ /\ reg_Offset q3 = CISREG_CCSR) /\
    (reg_Action q4 = CS_WRITE /\ reg_Offset q4 = CISREG_CCSR) /\
    reg_Value q4 = Z.lor HCR_RUN (Z.land (reg_Value r3) HCR_MEM16) /\
    Z.land (reg_Value q4) (Z.lor HCR_RUN HCR_IDLE) = HCR_RUN /\
    Z.land (reg_Value q4) HCR_MEM16 = Z.land (reg_Value r3) HCR_MEM16.
Proof.
  apply (reset_run_ccsr_value (boot quiet_socket) _).
  - discriminate.
  - vm_compute; reflexivity.
Defined.

(** X2 on a bus that fails the fourth register access. *)
Lemma reset_only_touches_registers_witness :
  link (snd (spectrum_reset 1 (boot (failing_bus 3)))) = blank_link /\
  priv (snd (spectrum_reset 1 (boot (failing_bus 3)))) = blank_priv /\
  exists new,
    trace (snd (spectrum_reset 1 (boot (failing_bus 3)))) = [] ++ new /\
    forallb reset_call new = true /\
    (List.length (filter is_access new) <= 5)%nat /\
    (List.length (filter is_cs_error new) <= 1)%nat /\
    (fst (spectrum_reset 1 (boot (failing_bus 3))) = 0 \/
     fst (spectrum_reset 1 (boot (failing_bus 3))) = - ENODEV).
Proof.
  apply (reset_only_touches_registers 1 _ (boot (failing_bus 3)) _).
  vm_compute; reflexivity.
Defined.

(** ** The configuration check *)

Section FurtherCheckProperties.

Context {world : Type} {hdr : headers} {env : environment world}.

Variable ignore_cis_vcc : Z.

Lemma config_check_past_voltage (cfg dflt : cistpl_cftable_entry_t)
  (vcc : Z) (s : machine world) :
  cf_index cfg <> 0 ->
  voltage_passes ignore_cis_vcc cfg dflt vcc = true ->
  spectrum_cs_config_check ignore_cis_vcc cfg dflt vcc s
  = remaining_checks cfg dflt s
  \/ exists v,
       spectrum_cs_config_check ignore_cis_vcc cfg dflt vcc s
       = remaining_checks cfg dflt (logged vcc v s).
Proof.
  intros Hidx Hv. rewrite (config_check_eq _ _ _ _ _ Hidx).
  unfold voltage_passes in Hv.
  destruct (declared_nominal (cf_vcc cfg) (cf_vcc dflt)) as [v|];
    [|now left].
  destruct (vcc =? v); [now left|].
  destruct (ignore_cis_vcc =? 0); [discriminate|].
  right. now exists v.
Qed.

Lemma config_check_voltage_reject (cfg dflt : cistpl_cftable_entry_t)
  (vcc : Z) (s : machine world) :
  cf_index cfg <> 0 ->
  voltage_passes ignore_cis_vcc cfg dflt vcc = false ->
  exists v,
    spectrum_cs_config_check ignore_cis_vcc cfg dflt vcc s
    = (- ENODEV, disabled (logged vcc v s)).
Proof.
  intros Hidx Hv. rewrite (config_check_eq _ _ _ _ _ Hidx).
  unfold voltage_passes in Hv.
  destruct (declared_nominal (cf_vcc cfg) (cf_vcc dflt)) as [v|];
    [|discriminate].
  destruct (vcc =? v); [discriminate|].
  destruct (ignore_cis_vcc =? 0); [|discriminate].
  now exists v.
Qed.

(** What a run of the check leaves alone and what it calls, for the checks
    that follow the voltage check. *)
Lemma remaining_checks_effects (cfg dflt : cistpl_cftable_entry_t) (r : Z)
  (s s' : machine world) :
  remaining_checks cfg dflt s = (r, s') ->
  priv s' = priv s /\
  irq (link s') = irq (link s) /\
  dev_node (link s') = dev_node (link s) /\
  conf_IntType (conf (link s')) = conf_IntType (conf (link s)) /\
  exists new,
    trace s' = trace s ++ new /\
    (List.length (filter is_request_io new) <= 1)%nat /\
    ((r = 0 /\ existsb is_disable new = false)
     \/
     (r = - ENODEV /\
      exists pre, new = pre ++ [EvDisableDevice] /\
                  existsb is_disable pre = false)).
Proof.
  intros H. rewrite remaining_checks_eq in H. cbv zeta in H.
  destruct (declares_window cfg dflt).
  - destruct (cs_request_io _ _) as [[rc io'] w].
    destruct (rc =? 0); inversion H; subst; clear H;
      cbn [priv link set_io set_conf irq dev_node conf conf_IntType trace];
      (do 4 (split; [reflexivity|])); eexists; (split; [reflexivity|]);
      (split; [cbn; lia|]).
    + left. split; reflexivity.
    + right. split; [reflexivity|].
      eexists [_]. split; reflexivity.
  - inversion H; subst; clear H.
    cbn [priv link set_link set_io set_conf irq dev_node conf conf_IntType
         trace].
    do 4 (split; [reflexivity|]). exists []. rewrite app_nil_r.
    split; [reflexivity|]. split; [cbn; lia|]. left. split; reflexivity.
Qed.

Lemma config_check_frame (cfg dflt : cistpl_cftable_entry_t) (vcc r : Z)
  (s s' : machine world) :
  spectrum_cs_config_check ignore_cis_vcc cfg dflt vcc s = (r, s') ->
  priv s' = priv s /\
  irq (link s') = irq (link s) /\
  dev_node (link s') = dev_node (link s) /\
  conf_IntType (conf (link s')) = conf_IntType (conf (link s)).
Proof.
  intros H.
  destruct (Z.eq_dec (cf_index cfg) 0) as [H0 | Hidx].
  { rewrite (config_check_index_zero _ _ _ _ _ H0) in H.
    inversion H; subst. repeat split. }
  destruct (voltage_passes ignore_cis_vcc cfg dflt vcc) eqn:Hv.
  - destruct (config_check_past_voltage _ _ _ s Hidx Hv) as [E | [v E]];
      rewrite E in H;
      destruct (remaining_checks_effects _ _ _ _ _ H)
        as (Hp & Hi & Hd & Ht & _);
      repeat split; assumption.
  - destruct (config_check_voltage_reject _ _ _ s Hidx Hv) as [v E].
    rewrite E in H. inversion H; subst. repeat split.
Qed.

(** X3. Every run of the configuration check ends in one of two ways: it
    returns 0 without having disabled the device, or it returns [-ENODEV]
    and its last call, and only that one, is [pcmcia_disable_device].  It
    asks for an I/O range at most once, and it never touches the driver's
    private data, the interrupt request, [dev_node] or the interface type
    of the configuration. *)
Theorem config_check_rejects_by_disabling
  (cfg dflt : cistpl_cftable_entry_t) (vcc r : Z) (s s' : machine world) :
  spectrum_cs_config_check ignore_cis_vcc cfg dflt vcc s = (r, s') ->
  priv s' = priv s /\
  irq (link s') = irq (link s) /\
  dev_node (link s') = dev_node (link s) /\
  conf_IntType (conf (link s')) = conf_IntType (conf (link s)) /\
  exists new,
    trace s' = trace s ++ new /\
    (List.length (filter is_request_io new) <= 1)%nat /\
    ((r = 0 /\ existsb is_disable new = false)
     \/
     (r = - ENODEV /\
      exists pre, new = pre ++ [EvDisableDevice] /\
                  existsb is_disable pre = false)).
Proof.
  intros H.
  destruct (Z.eq_dec (cf_index cfg) 0) as [H0 | Hidx].
  { rewrite (config_check_index_zero _ _ _ _ _ H0) in H.
    inversion H; subst; clear H. cbn [disabled priv link trace].
    do 4 (split; [reflexivity|]). eexists. split; [reflexivity|].
    split; [cbn; lia|]. right. split; [reflexivity|].
    exists []. split; reflexivity. }
  destruct (voltage_passes ignore_cis_vcc cfg dflt vcc) eqn:Hv.
  - destruct (config_check_past_voltage _ _ _ s Hidx Hv) as [E | [v E]];
      rewrite E in H.
    + exact (remaining_checks_effects _ _ _ _ _ H).
    + destruct (remaining_checks_effects _ _ _ _ _ H)
        as (Hp & Hi & Hd & Ht & new & Htr & Hn & Hcase).
      cbn [logged priv link trace] in *.
      do 4 (split; [assumption|]).
      exists (EvDebugVccMismatch vcc v :: new).
      split; [rewrite Htr, <- app_assoc; reflexivity|].
      split; [cbn [filter is_request_io]; exact Hn|].
      destruct Hcase as [[-> Hnd] | [-> (pre & -> & Hnd)]].
      * left. split; [reflexivity | exact Hnd].
      * right. split; [reflexivity|].
        exists (EvDebugVccMismatch vcc v :: pre). split; [reflexivity|].
        exact Hnd.
  - destruct (config_check_voltage_reject _ _ _ s Hidx Hv) as [v E].
    rewrite E in H. inversion H; subst; clear H.
    cbn [disabled logged priv link trace].
    do 4 (split; [reflexivity|]). eexists.
    split; [rewrite <- app_assoc; reflexivity|].
    split; [cbn; lia|]. right. split; [reflexivity|].
    eexists [_]. split; reflexivity.
Qed.

(** X4. An entry is accepted only after it has passed every check: if the
    check returns 0, the index is not 0, the voltage check passed, the
    device carries the Vpp resolved for the entry and the interrupt-enable
    attribute, and either no window is declared and both port counts are 0,
    or [pcmcia_request_io] granted the range derived from the chosen
    descriptor and the device holds the request as that call left it. *)
Theorem accepted_entry_passed_all_checks
  (cfg dflt : cistpl_cftable_entry_t) (vcc : Z) (s s' : machine world) :
  ENODEV <> 0 ->
  spectrum_cs_config_check ignore_cis_vcc cfg dflt vcc s = (0, s') ->
  cf_index cfg <> 0 /\
  voltage_passes ignore_cis_vcc cfg dflt vcc = true /\
  conf_Vpp (conf (link s')) =
    match declared_nominal (cf_vpp1 cfg) (cf_vpp1 dflt) with
    | Some v => u32 v
    | None => conf_Vpp (conf (link s))
    end /\
  conf_Attributes (conf (link s')) =
    u32 (Z.lor (conf_Attributes (conf (link s))) CONF_ENABLE_IRQ) /\
  (if declares_window cfg dflt then
     exists io' w,
       cs_request_io (resolved_io (io (link s)) (chosen_io cfg dflt))
         (outside s) = (0, io', w) /\
       io (link s') = io' /\ outside s' = w
   else
     outside s' = outside s /\
     io (link s') = set_NumPorts1 0 (set_NumPorts2 0 (io (link s)))).
Proof.
  intros HE H.
  destruct (Z.eq_dec (cf_index cfg) 0) as [H0 | Hidx].
  { rewrite (config_check_index_zero _ _ _ _ _ H0) in H. inversion H. lia. }
  split; [exact Hidx|].
  destruct (voltage_passes ignore_cis_vcc cfg dflt vcc) eqn:Hv.
  2:{ destruct (config_check_voltage_reject _ _ _ s Hidx Hv) as [v E].
      rewrite E in H. inversion H. lia. }
  split; [reflexivity|].
  assert (Hrest : exists s1, remaining_checks cfg dflt s1 = (0, s') /\
                             outside s1 = outside s /\ link s1 = link s).
  { destruct (config_check_past_voltage _ _ _ s Hidx Hv) as [E | [v E]];
      rewrite E in H.
    - now exists s.
    - now exists (logged vcc v s). }
  destruct Hrest as (s1 & Hrest & Ho & Hl).
  rewrite remaining_checks_eq in Hrest. cbv zeta in Hrest.
  rewrite Ho, Hl in Hrest.
  destruct (declares_window cfg dflt).
  - destruct (cs_request_io _ _) as [[rc io'] w] eqn:Ereq.
    destruct (Z.eqb_spec rc 0) as [-> | Hrc].
    + inversion Hrest; subst; clear Hrest.
      cbn [link set_io set_conf conf io outside conf_Vpp conf_Attributes].
      split; [reflexivity|]. split; [reflexivity|].
      exists io', w. repeat split.
    + inversion Hrest. lia.
  - inversion Hrest; subst; clear Hrest.
    cbn [link set_link set_io set_conf conf io outside conf_Vpp
         conf_Attributes].
    rewrite Ho. repeat split.
Qed.

(** X5. An entry that declares no I/O window, with a default entry that
    declares none either, is accepted once it is past the index and voltage
    checks: the check returns 0 with both port counts 0, asks Card Services
    for nothing and does not disable the device. *)
Theorem windowless_entry_accepted
  (cfg dflt : cistpl_cftable_entry_t) (vcc : Z) (s : machine world) :
  cf_index cfg <> 0 ->
  voltage_passes ignore_cis_vcc cfg dflt vcc = true ->
  declares_window cfg dflt = false ->
  let '(r, s') := spectrum_cs_config_check ignore_cis_vcc cfg dflt vcc s in
  r = 0 /\
  NumPorts1 (io (link s')) = 0 /\ NumPorts2 (io (link s')) = 0 /\
  BasePort1 (io (link s')) = BasePort1 (io (link s)) /\
  Attributes1 (io (link s')) = Attributes1 (io (link s)) /\
  outside s' = outside s /\
  exists new,
    trace s' = trace s ++ new /\
    existsb is_request_io new = false /\
    existsb is_disable new = false.
Proof.
  intros Hidx Hv Hw.
  destruct (config_check_past_voltage _ _ _ s Hidx Hv) as [E | [v E]];
    rewrite E, remaining_checks_eq; cbv zeta; rewrite Hw;
    cbn [logged link set_link set_io set_conf io outside trace
         set_NumPorts1 set_NumPorts2 NumPorts1 NumPorts2 BasePort1
         Attributes1];
    do 6 (split; [reflexivity|]).
  - exists []. rewrite app_nil_r. repeat split.
  - eexists. split; [reflexivity|]. split; reflexivity.
Qed.

End FurtherCheckProperties.

(** X3 on the crowded socket, where the entry is rejected by the I/O
    reservation. *)
Lemma config_check_rejects_by_disabling_witness :
  let run := spectrum_cs_config_check 0 entry_with_Vpp blank_entry 50
               (boot crowded_socket) in
  fst run = - ENODEV /\
  exists new,
    trace (snd run) = [] ++ new /\
    (List.length (filter is_request_io new) <= 1)%nat /\
    ((fst run = 0 /\ existsb is_disable new = false)
     \/
     (fst run = - ENODEV /\
      exists pre, new = pre ++ [EvDisableDevice] /\
                  existsb is_disable pre = false)).
Proof.
  intros run. split; [vm_compute; reflexivity|].
  apply (config_check_rejects_by_disabling 0 entry_with_Vpp blank_entry 50
           (fst run) (boot crowded_socket) (snd run)).
  vm_compute; reflexivity.
Defined.

(** X4 on the scenario of the specification. *)
Lemma accepted_entry_passed_all_checks_witness :
  cf_index scenario_entry <> 0 /\
  voltage_passes 0 scenario_entry scenario_default 50 = true /\
  exists io' w,
    cs_request_io
      (resolved_io (io blank_link) (chosen_io scenario_entry scenario_default))
      quiet_socket = (0, io', w) /\
    io (link (snd (spectrum_cs_config_check 0 scenario_entry
                     scenario_default 50 (boot quiet_socket)))) = io'.
Proof.
  destruct (accepted_entry_passed_all_checks 0 scenario_entry
              scenario_default 50 (boot quiet_socket)
              (snd (spectrum_cs_config_check 0 scenario_entry
                      scenario_default 50 (boot quiet_socket))))
    as (Hidx & Hv & _ & _ & Hio).
  - discriminate.
  - vm_compute; reflexivity.
  - split; [exact Hidx|]. split; [exact Hv|].
    change (declares_window scenario_entry scenario_default) with true in Hio.
    destruct Hio as (io' & w & Hreq & Hio & _).
    exists io', w. split; [exact Hreq | exact Hio].
Defined.

(** X5 on a memory-only entry. *)
Lemma windowless_entry_accepted_witness :
  let '(r, s') := spectrum_cs_config_check 0 memory_only_entry blank_entry 50
                    (boot quiet_socket) in
  r = 0 /\
  NumPorts1 (io (link s')) = 0 /\ NumPorts2 (io (link s')) = 0 /\
  BasePort1 (io (link s')) = BasePort1 (io (link (boot quiet_socket))) /\
  Attributes1 (io (link s')) = Attributes1 (io (link (boot quiet_socket))) /\
  outside s' = outside (boot quiet_socket) /\
  exists new,
    trace s' = trace (boot quiet_socket) ++ new /\
    existsb is_request_io new = false /\
    existsb is_disable new = false.
Proof.
  apply (windowless_entry_accepted 0 memory_only_entry blank_entry 50
           (boot quiet_socket)).
  - discriminate.
  - reflexivity.
  - reflexivity.
Defined.

(** ** Configure *)

Section FurtherConfigProperties.

Context {world : Type} {hdr : headers} {env : environment world}.

Variable ignore_cis_vcc : Z.

(** *** Reasoning along a function body *)

Lemma keeps_ret {L A} (P : machine world -> Prop) (a : A) :
  keeps P (ret (L := L) a).
Proof. intros s o s' H. inversion H; subst. auto. Qed.

Lemma keeps_goto {L A} (P : machine world -> Prop) (l : L) :
  keeps P (goto (A := A) l).
Proof. intros s o s' H. inversion H; subst. auto. Qed.

Lemma keeps_call {L A} (P : machine world -> Prop) (f : ST world A) :
  keepsST P f -> keeps P (call (L := L) f).
Proof.
  intros Hf s o s' H. unfold call in H.
  destruct (f s) as [a s1] eqn:E. inversion H; subst. exact (Hf _ _ _ E).
Qed.

Lemma keeps_bind {L A B} (P : machine world -> Prop) (m : body world L A)
  (k : A -> body world L B) :
  keeps P m -> (forall a, keeps P (k a)) -> keeps P (bind m k).
Proof.
  intros Hm Hk s o s' H HP. unfold bind in H.
  destruct (m s) as [[a | l] s1] eqn:E.
  - exact (Hk a _ _ _ H (Hm _ _ _ E HP)).
  - inversion H; subst. exact (Hm _ _ _ E HP).
Qed.

Lemma keeps_CS_CHECK {L A} (P : machine world -> Prop)
  (cs_failed : service -> Z -> L) (fn : service) (f : ST world (Z * A)) :
  keepsST P f -> keeps P (CS_CHECK cs_failed fn f).
Proof.
  intros Hf s o s' H. unfold CS_CHECK in H.
  destruct (f s) as [[r a] s1] eqn:E.
  destruct (negb (r =? 0)); inversion H; subst; exact (Hf _ _ _ E).
Qed.

Lemma goto_keeps_bind {L A B} (P : machine world -> Prop)
  (m : body world L A) (k : A -> body world L B) :
  keeps P m -> (forall a, goto_keeps P (k a)) -> goto_keeps P (bind m k).
Proof.
  intros Hm Hk s l s' H HP. unfold bind in H.
  destruct (m s) as [[a | l0] s1] eqn:E.
  - exact (Hk a _ _ _ H (Hm _ _ _ E HP)).
  - inversion H; subst. exact (Hm _ _ _ E HP).
Qed.

Lemma never_goto_ret {L A} (a : A) : never_goto (ret (world := world) (L := L) a).
Proof. intros s l s' H. discriminate. Qed.

Lemma never_goto_call {L A} (f : ST world A) : never_goto (call (L := L) f).
Proof.
  intros s l s' H. unfold call in H. destruct (f s). discriminate.
Qed.

Lemma never_goto_bind {L A B} (m : body world L A) (k : A -> body world L B) :
  never_goto m -> (forall a, never_goto (k a)) -> never_goto (bind m k).
Proof.
  intros Hm Hk s l s' H. unfold bind in H.
  destruct (m s) as [[a | l0] s1] eqn:E.
  - exact (Hk a _ _ _ H).
  - exact (Hm _ _ _ E).
Qed.

Lemma never_goto_keeps {L A} (P : machine world -> Prop)
  (m : body world L A) :
  never_goto m -> goto_keeps P m.
Proof. intros Hm s l s' H. destruct (Hm _ _ _ H). Qed.

Lemma normal_gives_bind {L A B} (Q : machine world -> Prop)
  (m : body world L A) (k : A -> body world L B) :
  (forall a, normal_gives Q (k a)) -> normal_gives Q (bind m k).
Proof.
  intros Hk s b s' H. unfold bind in H.
  destruct (m s) as [[a | l] s1]; [|discriminate].
  exact (Hk a _ _ _ H).
Qed.

(** *** What the parts of configure do to [dev_node] *)

Lemma cis_scan_keeps (P : machine world -> Prop)
  (entries : list cistpl_cftable_entry_t) (dflt : cistpl_cftable_entry_t)
  (vcc : Z) :
  (forall cfg,
     keepsST P (spectrum_cs_config_check ignore_cis_vcc cfg dflt vcc)) ->
  keepsST P
    (cis_scan (spectrum_cs_config_check ignore_cis_vcc) entries dflt vcc).
Proof.
  intros Hc. induction entries as [|cfg rest IH]; intros s m s' H HP.
  - inversion H; subst. exact HP.
  - cbn [cis_scan] in H. unfold seq in H.
    destruct (spectrum_cs_config_check ignore_cis_vcc cfg dflt vcc s)
      as [r s1] eqn:E.
    pose proof (Hc cfg _ _ _ E HP) as HP1.
    destruct (r =? 0).
    + inversion H; subst. exact HP1.
    + exact (IH _ _ _ H HP1).
Qed.

Lemma loop_config_keeps (P : machine world -> Prop) :
  (forall cfg dflt vcc,
     keepsST P (spectrum_cs_config_check ignore_cis_vcc cfg dflt vcc)) ->
  keepsST P (pcmcia_loop_config (spectrum_cs_config_check ignore_cis_vcc)).
Proof.
  intros Hc s r s' H HP. unfold pcmcia_loop_config in H.
  destruct (cis_scan _ _ _ _ s) as [m s1] eqn:E.
  pose proof (cis_scan_keeps P _ _ _ (fun cfg => Hc cfg _ _) _ _ _ E HP).
  destruct m; inversion H; subst; assumption.
Qed.

Ltac frame_step H :=
  match type of H with
  | context [cs_access_configuration_register ?q ?w] =>
      let rc := fresh "rc" in
      let resp := fresh "resp" in
      let w' := fresh "w" in
      destruct (cs_access_configuration_register q w) as [[rc resp] w'];
      cbn [fst snd negb outside link priv trace] in H;
      destruct (rc =? 0); cbn [fst snd negb outside link priv trace] in H;
      [| inversion H; subst; split; reflexivity]
  end.

Lemma spectrum_reset_frame (idle r : Z) (s s' : machine world) :
  spectrum_reset idle s = (r, s') -> link s' = link s /\ priv s' = priv s.
Proof.
  intros H. unfold spectrum_reset in H.
  destruct (cs_dev_present (outside s)); cbn [negb] in H.
  2:{ inversion H; subst. split; reflexivity. }
  unfold labels, bind, CS_CHECK, pcmcia_access_configuration_register,
    call, udelay, cs_error, emit, ret, seq, done in H.
  cbn [outside link priv trace] in H.
  do 5 frame_step H.
  inversion H; subst; split; reflexivity.
Qed.

Lemma hard_reset_frame (r : Z) (s s' : machine world) :
  spectrum_cs_hard_reset s = (r, s') -> link s' = link s /\ priv s' = priv s.
Proof.
  unfold spectrum_cs_hard_reset, seq, done.
  destruct (spectrum_reset 0 s) as [r0 s1] eqn:E. intros H.
  inversion H; subst. exact (spectrum_reset_frame _ _ _ _ E).
Qed.


(** A wrapper of a collaborator's call keeps [dev_node]. *)
Ltac dev_node_kept :=
  let s := fresh "s" in
  let a := fresh "a" in
  let s' := fresh "s'" in
  let H := fresh "H" in
  let HP := fresh "HP" in
  intros s a s' H HP;
  unfold emit, printk, cs_error, pcmcia_request_irq,
    pcmcia_request_configuration, ioport_map, orinoco_init, orinoco_if_add,
    modify_priv, set_priv in H;
  repeat match type of H with
         | context [let '(_, _) := ?x in _] => destruct x
         end;
  inversion H; subst; solve [assumption | reflexivity].

Lemma dev_node_emit (d : bool) (e : event) :
  keepsST (fun s : machine world => dev_node (link s) = d) (emit e).
Proof. dev_node_kept. Qed.

Lemma dev_node_printk (d : bool) (msg : string) :
  keepsST (fun s : machine world => dev_node (link s) = d) (printk msg).
Proof. dev_node_kept. Qed.

Lemma dev_node_cs_error (d : bool) (fn : service) (r : Z) :
  keepsST (fun s : machine world => dev_node (link s) = d) (cs_error fn r).
Proof. dev_node_kept. Qed.

Lemma dev_node_request_irq (d : bool) :
  keepsST (fun s : machine world => dev_node (link s) = d) pcmcia_request_irq.
Proof. dev_node_kept. Qed.

Lemma dev_node_request_configuration (d : bool) :
  keepsST (fun s : machine world => dev_node (link s) = d)
    pcmcia_request_configuration.
Proof. dev_node_kept. Qed.

Lemma dev_node_ioport_map (d : bool) :
  keepsST (fun s : machine world => dev_node (link s) = d)
    (fun s => ioport_map (BasePort1 (io (link s))) (NumPorts1 (io (link s))) s).
Proof. dev_node_kept. Qed.

Lemma dev_node_modify_priv (d : bool)
  (f : orinoco_private -> orinoco_private) :
  keepsST (fun s : machine world => dev_node (link s) = d) (modify_priv f).
Proof. dev_node_kept. Qed.

Lemma dev_node_orinoco_init (d : bool) :
  keepsST (fun s : machine world => dev_node (link s) = d) orinoco_init.
Proof. dev_node_kept. Qed.

Lemma dev_node_orinoco_if_add (d : bool) :
  keepsST (fun s : machine world => dev_node (link s) = d)
    (fun s => orinoco_if_add (BasePort1 (io (link s)))
                (AssignedIRQ (irq (link s))) s).
Proof. dev_node_kept. Qed.

Lemma dev_node_hard_reset (d : bool) :
  keepsST (fun s : machine world => dev_node (link s) = d)
    spectrum_cs_hard_reset.
Proof.
  intros s a s' H HP. destruct (hard_reset_frame _ _ _ H) as [Hl _].
  now rewrite Hl.
Qed.

Lemma dev_node_loop_config (d : bool) :
  keepsST (fun s : machine world => dev_node (link s) = d)
    (pcmcia_loop_config (spectrum_cs_config_check ignore_cis_vcc)).
Proof.
  apply loop_config_keeps. intros cfg dflt vcc s r s' H HP.
  destruct (config_check_frame _ _ _ _ _ _ _ H) as (_ & _ & Hd & _).
  now rewrite Hd.
Qed.

Lemma dev_node_release (d : bool) :
  keepsST (fun s : machine world => dev_node (link s) = d)
    spectrum_cs_release.
Proof.
  intros s a s' H HP. rewrite release_eq in H. inversion H.
  cbn [link]. exact HP.
Qed.

Create HintDb dev_node_db.

#[local] Hint Resolve dev_node_emit dev_node_printk dev_node_cs_error
  dev_node_request_irq dev_node_request_configuration dev_node_ioport_map
  dev_node_modify_priv dev_node_orinoco_init dev_node_orinoco_if_add
  dev_node_hard_reset dev_node_loop_config dev_node_release : dev_node_db.

Ltac solve_keeps :=
  solve [ repeat first
            [ apply keeps_ret
            | apply keeps_goto
            | apply keeps_call; auto with dev_node_db
            | apply keeps_CS_CHECK; auto with dev_node_db
            | apply keeps_bind; [|intros]
            | match goal with
              | |- keeps _ (if ?c then _ else _) => destruct c
              end ] ].

Ltac solve_never :=
  solve [ repeat first
            [ apply never_goto_ret
            | apply never_goto_call
            | apply never_goto_bind; [|intros] ] ].

Ltac enter_continuation :=
  let a := fresh "a" in
  intros a;
  match type of a with
  | (_ * _ * _)%type => destruct a as [[? ?] ?]
  | _ => idtac
  end;
  cbv beta iota.

Ltac run_tail :=
  let s := fresh "s" in
  let a := fresh "a" in
  let s' := fresh "s'" in
  let H := fresh "H" in
  intros s a s' H;
  unfold bind, call, modify_priv, modify_link, ret in H;
  inversion H; subst; split; reflexivity.

(** X6. Configure sets [link->dev_node] exactly when it succeeds: a run
    that returns 0 leaves [dev_node] set and the device node named after
    the network device, and a run that fails returns [-ENODEV] and leaves
    [dev_node] as it found it, so that detach unregisters the interface
    only after a successful configure. *)
Theorem config_sets_dev_node_on_success_only (r : Z) (s s' : machine world) :
  spectrum_cs_config ignore_cis_vcc s = (r, s') ->
  (r = 0 /\ dev_node (link s') = true /\
   node_dev_name (card_node (priv s')) = ndev_name (priv s'))
  \/
  (r = - ENODEV /\ dev_node (link s') = dev_node (link s)).
Proof.
  unfold spectrum_cs_config, labels.
  match goal with
  | |- (match ?b s with _ => _ end) = _ -> _ =>
      assert (Hz : ends_with_zero b)
        by (repeat first [ apply ends_with_zero_ret
                         | apply ends_with_zero_bind; intros
                         | match goal with
                           | |- ends_with_zero (let '(_, _) := ?x in _) =>
                               destruct x
                           end ]);
      assert (Hg : goto_keeps
                     (fun m : machine world =>
                        dev_node (link m) = dev_node (link s)) b)
        by (repeat first
              [ apply goto_keeps_bind; [solve_keeps | enter_continuation]
              | apply never_goto_keeps; solve_never ]);
      assert (Hn : normal_gives
                     (fun m : machine world =>
                        dev_node (link m) = true /\
                        node_dev_name (card_node (priv m))
                        = ndev_name (priv m)) b)
        by (do 14 (apply normal_gives_bind; enter_continuation); run_tail);
      destruct (b s) as [[a | l] s1] eqn:Eb
  end.
  - intros H. inversion H; subst. left.
    split; [exact (Hz _ _ _ Eb) | exact (Hn _ _ _ Eb)].
  - intros H. right.
    pose proof (Hg _ _ _ Eb eq_refl) as Hd.
    destruct l as [fn rc |]; unfold seq, done in H.
    + destruct (cs_error fn rc s1) as [[] s2] eqn:Eerr.
      destruct (spectrum_cs_release s2) as [[] s3] eqn:Erel.
      inversion H; subst. split; [reflexivity|].
      apply (dev_node_release _ _ _ _ Erel).
      exact (dev_node_cs_error _ _ _ _ _ _ Eerr Hd).
    + destruct (spectrum_cs_release s1) as [[] s3] eqn:Erel.
      inversion H; subst. split; [reflexivity|].
      exact (dev_node_release _ _ _ _ Erel Hd).
Qed.


(** *** Following a run of configure that fails *)

Lemma bind_goto {L A B} (m : body world L A) (k : A -> body world L B)
  (s s' : machine world) (l : L) :
  bind m k s = (Goto B l, s') ->
  m s = (Goto A l, s') \/
  exists a s1, m s = (Normal L a, s1) /\ k a s1 = (Goto B l, s').
Proof.
  unfold bind. destruct (m s) as [[a | l0] s1]; intros H.
  - right. now exists a, s1.
  - left. now inversion H.
Qed.

Lemma call_goto {L A} (f : ST world A) (s s' : machine world) (l : L) :
  call f s = (Goto A l, s') -> False.
Proof. unfold call. destruct (f s). discriminate. Qed.

Lemma ret_goto {L A} (a : A) (s s' : machine world) (l : L) :
  ret a s = (Goto A l, s') -> False.
Proof. unfold ret. discriminate. Qed.

Lemma CS_CHECK_goto {L A} (cs_failed : service -> Z -> L) (fn : service)
  (f : ST world (Z * A)) (s s' : machine world) (l : L) :
  CS_CHECK cs_failed fn f s = (Goto _ l, s') ->
  exists r a, f s = (r, a, s') /\ r <> 0 /\ l = cs_failed fn r.
Proof.
  unfold CS_CHECK. destruct (f s) as [[r0 a0] s0].
  destruct (Z.eqb_spec r0 0) as [-> | Hr]; cbn [negb]; intros H.
  - discriminate.
  - inversion H; subst. now exists r0, a0.
Qed.

(** Enter a run of configure: it ended normally with 0, or by a [goto]. *)
Ltac enter_config Hrun Hz Eb :=
  unfold spectrum_cs_config, labels in Hrun;
  match type of Hrun with
  | (let (_, _) := ?b ?s in _) = _ =>
      assert (Hz : ends_with_zero b)
        by (repeat first [ apply ends_with_zero_ret
                         | apply ends_with_zero_bind; intros
                         | match goal with
                           | |- ends_with_zero (let '(_, _) := ?x in _) =>
                               destruct x
                           end ]);
      let a := fresh "a" in
      let l := fresh "l" in
      let s2 := fresh "s" in
      destruct (b s) as [[a | l] s2] eqn:Eb
  end.


(** X8. When the interrupt has been granted and [ioport_map] then returns
    NULL, configure jumps to the error report with the locals the interrupt
    request left: the failure is reported as a RequestIRQ error with code
    0.  The hermes structure is not initialised, configure releases and
    returns [-ENODEV]. *)
Theorem config_map_failure_report (r : Z) (s s1 s' : machine world)
  (irq' : irq_req_t) (w2 w3 : world) :
  pcmcia_loop_config (spectrum_cs_config_check ignore_cis_vcc) s = (0, s1) ->
  cs_request_irq (irq (link s1)) (outside s1) = (0, irq', w2) ->
  cs_ioport_map (BasePort1 (io (link s1))) (NumPorts1 (io (link s1))) w2
  = (0, w3) ->
  spectrum_cs_config ignore_cis_vcc s = (r, s') ->
  r = - ENODEV /\
  trace s' =
    trace s1 ++
    [EvRequestIRQ (irq (link s1)) 0;
     EvIoportMap (BasePort1 (io (link s1))) (NumPorts1 (io (link s1))) 0;
     EvCsError RequestIRQ 0] ++
    release_calls (iobase (hw (priv s1))) /\
  hw (priv s') = hw (priv s1).
Proof.
  intros Hloop Hirq Hmap Hrun.
  enter_config Hrun Hz Eb.
  { exfalso.
    apply bind_normal in Eb. destruct Eb as (x & sx & Em & Eb).
    apply call_normal in Em. rewrite Hloop in Em.
    inversion Em; subst x sx; clear Em.
    apply bind_normal in Eb. destruct Eb as ([] & sx & Em & Eb).
    cbn [Z.eqb negb] in Em. apply ret_normal in Em. destruct Em as [_ <-].
    apply bind_normal in Eb. destruct Eb as ([[fn1 rc1] []] & sx & Em & Eb).
    apply CS_CHECK_normal in Em. destruct Em as (-> & -> & Em).
    unfold pcmcia_request_irq in Em. rewrite Hirq in Em.
    inversion Em; subst sx; clear Em.
    apply bind_normal in Eb. destruct Eb as (mem & sx & Em & Eb).
    apply call_normal in Em. unfold ioport_map in Em.
    cbn [outside link priv trace set_irq io] in Em. rewrite Hmap in Em.
    inversion Em; subst mem sx; clear Em.
    apply bind_normal in Eb. destruct Eb as ([] & sx & Em & _).
    cbn [Z.eqb] in Em. now apply goto_normal in Em. }
  apply bind_goto in Eb.
  destruct Eb as [Eb | (x & sx & Em & Eb)]; [now apply call_goto in Eb|].
  apply call_normal in Em. rewrite Hloop in Em.
  inversion Em; subst x sx; clear Em.
  apply bind_goto in Eb. destruct Eb as [Eb | ([] & sx & Em & Eb)].
  { cbn [Z.eqb negb] in Eb. now apply ret_goto in Eb. }
  cbn [Z.eqb negb] in Em. apply ret_normal in Em. destruct Em as [_ <-].
  apply bind_goto in Eb.
  destruct Eb as [Eb | ([[fn1 rc1] []] & sx & Em & Eb)].
  { apply CS_CHECK_goto in Eb. destruct Eb as (rq & a' & Ef & Hrq & _).
    unfold pcmcia_request_irq in Ef. rewrite Hirq in Ef.
    inversion Ef. congruence. }
  apply CS_CHECK_normal in Em. destruct Em as (-> & -> & Em).
  unfold pcmcia_request_irq in Em. rewrite Hirq in Em.
  inversion Em; subst sx; clear Em.
  apply bind_goto in Eb.
  destruct Eb as [Eb | (mem & sx & Em & Eb)]; [now apply call_goto in Eb|].
  apply call_normal in Em. unfold ioport_map in Em.
  cbn [outside link priv trace set_irq io] in Em. rewrite Hmap in Em.
  inversion Em; subst mem sx; clear Em.
  apply bind_goto in Eb. destruct Eb as [Eb | ([] & sx & Em & _)].
  2:{ cbn [Z.eqb] in Em. now apply goto_normal in Em. }
  cbn [Z.eqb] in Eb. unfold goto in Eb. inversion Eb; subst; clear Eb.
  unfold seq, done, cs_error, emit in Hrun. rewrite release_eq in Hrun.
  inversion Hrun; subst; clear Hrun.
  cbn [trace link priv hw set_hw_unavailable].
  repeat rewrite <- app_assoc. repeat split.
Qed.


(** X9. No failure of configure leaves the register window mapped.  With a
    [hermes_struct_init] that stores the address it is given in
    [hw.iobase], and an orinoco core whose [orinoco_init] and
    [orinoco_if_add] leave that field alone: when configure fails after
    [ioport_map] returned the window [mem], the last call it makes is
    [ioport_unmap(mem)], after the device has been disabled. *)
Theorem config_failure_unmaps_window (r mem : Z) (s s1 s' : machine world)
  (irq' : irq_req_t) (w2 w3 : world) :
  (forall h addr spacing, iobase (hermes_struct_init h addr spacing) = addr) ->
  (forall p w r0 p' w',
     core_orinoco_init p w = (r0, p', w') -> iobase (hw p') = iobase (hw p)) ->
  (forall p b i w r0 p' w',
     core_orinoco_if_add p b i w = (r0, p', w') ->
     iobase (hw p') = iobase (hw p)) ->
  pcmcia_loop_config (spectrum_cs_config_check ignore_cis_vcc) s = (0, s1) ->
  cs_request_irq (irq (link s1)) (outside s1) = (0, irq', w2) ->
  cs_ioport_map (BasePort1 (io (link s1))) (NumPorts1 (io (link s1))) w2
  = (mem, w3) ->
  mem <> 0 ->
  spectrum_cs_config ignore_cis_vcc s = (r, s') ->
  r <> 0 ->
  r = - ENODEV /\
  exists pre,
    trace s' = pre ++ [EvSpinLock; EvSpinUnlock; EvDisableDevice;
                       EvIoportUnmap mem].
Proof.
  intros Hhw Hinit Hadd Hloop Hirq Hmap Hmem Hrun Hr.
  assert (Hcalls : release_calls mem =
                   [EvSpinLock; EvSpinUnlock; EvDisableDevice;
                    EvIoportUnmap mem]).
  { unfold release_calls. now rewrite (proj2 (Z.eqb_neq _ _) Hmem). }
  enter_config Hrun Hz Eb.
  { inversion Hrun; subst. exfalso. apply Hr. exact (Hz _ _ _ Eb). }
  apply bind_goto in Eb.
  destruct Eb as [Eb | (x & sx & Em & Eb)]; [now apply call_goto in Eb|].
  apply call_normal in Em. rewrite Hloop in Em.
  inversion Em; subst x sx; clear Em.
  apply bind_goto in Eb. destruct Eb as [Eb | ([] & sx & Em & Eb)].
  { cbn [Z.eqb negb] in Eb. now apply ret_goto in Eb. }
  cbn [Z.eqb negb] in Em. apply ret_normal in Em. destruct Em as [_ <-].
  apply bind_goto in Eb.
  destruct Eb as [Eb | ([[fn1 rc1] []] & sx & Em & Eb)].
  { apply CS_CHECK_goto in Eb. destruct Eb as (rq & a' & Ef & Hrq & _).
    unfold pcmcia_request_irq in Ef. rewrite Hirq in Ef.
    inversion Ef. congruence. }
  apply CS_CHECK_normal in Em. destruct Em as (-> & -> & Em).
  unfold pcmcia_request_irq in Em. rewrite Hirq in Em.
  inversion Em; subst sx; clear Em.
  apply bind_goto in Eb.
  destruct Eb as [Eb | (mem' & sx & Em & Eb)]; [now apply call_goto in Eb|].
  apply call_normal in Em. unfold ioport_map in Em.
  cbn [outside link priv trace set_irq io] in Em. rewrite Hmap in Em.
  inversion Em; subst mem' sx; clear Em.
  apply bind_goto in Eb. destruct Eb as [Eb | ([] & sx & Em & Eb)].
  { rewrite (proj2 (Z.eqb_neq _ _) Hmem) in Eb. now apply ret_goto in Eb. }
  rewrite (proj2 (Z.eqb_neq _ _) Hmem) in Em.
  apply ret_normal in Em. destruct Em as [_ <-].
  apply bind_goto in Eb.
  destruct Eb as [Eb | ([] & sx & Em & Eb)]; [now apply call_goto in Eb|].
  apply call_normal in Em. unfold modify_priv in Em.
  inversion Em; subst sx; clear Em.
  (* the socket configuration request *)
  apply bind_goto in Eb.
  destruct Eb as [Eb | ([[fn2 rc2] []] & sx & Em & Eb)].
  { apply CS_CHECK_goto in Eb. destruct Eb as (rq & a' & Ef & Hrq & ->).
    unfold pcmcia_request_configuration in Ef.
    cbn [outside link priv trace set_priv set_irq conf] in Ef.
    destruct (cs_request_configuration (conf (link s1)) w3) as [rq' w4].
    inversion Ef; subst; clear Ef.
    unfold seq, done, cs_error, emit in Hrun. rewrite release_eq in Hrun.
    inversion Hrun; subst; clear Hrun.
    cbn [trace priv hw set_hw]. rewrite Hhw, Hcalls.
    split; [reflexivity|]. eexists. reflexivity. }
  apply CS_CHECK_normal in Em. destruct Em as (-> & -> & Em).
  unfold pcmcia_request_configuration in Em.
  cbn [outside link priv trace set_priv set_irq conf] in Em.
  destruct (cs_request_configuration (conf (link s1)) w3) as [rq' w4].
  inversion Em; subst rq' sx; clear Em.
  apply bind_goto in Eb.
  destruct Eb as [Eb | ([] & sx & Em & Eb)]; [now apply call_goto in Eb|].
  apply call_normal in Em. unfold modify_priv in Em.
  inversion Em; subst sx; clear Em.
  (* the hard reset, which cannot make configure fail *)
  apply bind_goto in Eb.
  destruct Eb as [Eb | (r9 & s5 & Em & Eb)]; [now apply call_goto in Eb|].
  apply call_normal in Em.
  pose proof (f_equal fst Em) as Hr9. cbn [fst] in Hr9.
  rewrite hard_reset_returns_zero in Hr9. subst r9.
  destruct (hard_reset_frame _ _ _ Em) as [Hl5 Hp5].
  cbn [link priv set_priv] in Hl5, Hp5.
  apply bind_goto in Eb. destruct Eb as [Eb | ([] & sx & Em' & Eb)].
  { cbn [Z.eqb negb] in Eb. now apply ret_goto in Eb. }
  cbn [Z.eqb negb] in Em'. apply ret_normal in Em'. destruct Em' as [_ <-].
  assert (Hio5 : iobase (hw (priv s5)) = mem).
  { rewrite Hp5. cbn [set_card_node hw set_hw]. apply Hhw. }
  (* orinoco_init *)
  apply bind_goto in Eb.
  destruct Eb as [Eb | (r6 & s6 & Em' & Eb)]; [now apply call_goto in Eb|].
  apply call_normal in Em'. unfold orinoco_init in Em'.
  destruct (core_orinoco_init (priv s5) (outside s5)) as [[r6' p6] w6]
    eqn:Ecall_init.
  inversion Em'; subst r6' s6; clear Em'.
  pose proof (Hinit _ _ _ _ _ Ecall_init) as Hio6. rewrite Hio5 in Hio6.
  apply bind_goto in Eb. destruct Eb as [Eb | ([] & sx & Em' & Eb)].
  { destruct (Z.eqb_spec r6 0) as [-> | Hr6]; cbn [negb] in Eb.
    - now apply ret_goto in Eb.
    - unfold bind, call, printk, emit, goto in Eb.
      inversion Eb; subst; clear Eb.
      unfold seq, done in Hrun. rewrite release_eq in Hrun.
      inversion Hrun; subst; clear Hrun.
      cbn [trace priv]. rewrite Hio6, Hcalls.
      split; [reflexivity|]. eexists. reflexivity. }
  destruct (Z.eqb_spec r6 0) as [-> | Hr6]; cbn [negb] in Em'.
  2:{ unfold bind, call, goto in Em'. discriminate. }
  apply ret_normal in Em'. destruct Em' as [_ <-].
  (* orinoco_if_add *)
  apply bind_goto in Eb.
  destruct Eb as [Eb | (r7 & s7 & Em' & Eb)]; [now apply call_goto in Eb|].
  apply call_normal in Em'. unfold orinoco_if_add in Em'.
  cbn [outside link priv trace] in Em'.
  destruct (core_orinoco_if_add p6 _ _ w6) as [[r7' p7] w7] eqn:Ecall_add.
  inversion Em'; subst r7' s7; clear Em'.
  pose proof (Hadd _ _ _ _ _ _ _ Ecall_add) as Hio7. rewrite Hio6 in Hio7.
  apply bind_goto in Eb. destruct Eb as [Eb | ([] & sx & Em' & Eb)].
  { destruct (Z.eqb_spec r7 0) as [-> | Hr7]; cbn [negb] in Eb.
    - now apply ret_goto in Eb.
    - unfold bind, call, printk, emit, goto in Eb.
      inversion Eb; subst; clear Eb.
      unfold seq, done in Hrun. rewrite release_eq in Hrun.
      inversion Hrun; subst; clear Hrun.
      cbn [trace priv]. rewrite Hio7, Hcalls.
      split; [reflexivity|]. eexists. reflexivity. }
  (* nothing after the registration can fail *)
  exfalso. revert Eb.
  apply (never_goto_bind _ _); [apply never_goto_call | intros].
  apply (never_goto_bind _ _); [apply never_goto_call | intros].
  apply never_goto_ret.
Qed.

End FurtherConfigProperties.

(** *** Configure on the simulated socket *)

(** X6 on a socket where every step succeeds. *)
Lemma config_sets_dev_node_on_success_only_witness :
  let s := boot (answering true true true true true) in
  let run := spectrum_cs_config 0 s in
  (fst run = 0 /\ dev_node (link (snd run)) = true /\
   node_dev_name (card_node (priv (snd run))) = ndev_name (priv (snd run)))
  \/
  (fst run = - ENODEV /\ dev_node (link (snd run)) = dev_node (link s)).
Proof.
  intros s run.
  apply (config_sets_dev_node_on_success_only 0 (fst run) s (snd run)).
  vm_compute; reflexivity.
Defined.


(** X8 on a socket where the window cannot be mapped. *)
Lemma config_map_failure_report_witness :
  let s := boot (answering true false true true true) in
  let s1 := snd (pcmcia_loop_config (spectrum_cs_config_check 0) s) in
  let run := spectrum_cs_config 0 s in
  fst run = - ENODEV /\
  trace (snd run) =
    trace s1 ++
    [EvRequestIRQ (irq (link s1)) 0;
     EvIoportMap (BasePort1 (io (link s1))) (NumPorts1 (io (link s1))) 0;
     EvCsError RequestIRQ 0] ++
    release_calls (iobase (hw (priv s1))) /\
  hw (priv (snd run)) = hw (priv s1).
Proof.
  intros s s1 run.
  apply (config_map_failure_report 0 (fst run) s s1 (snd run)
           (snd (fst (cs_request_irq (irq (link s1)) (outside s1))))
           (outside s1) (outside s1)).
  - vm_compute; reflexivity.
  - vm_compute; reflexivity.
  - vm_compute; reflexivity.
  - vm_compute; reflexivity.
Defined.

(** X9 on a socket where the registration of the interface fails: the
    window mapped at 0x10300 is unmapped. *)
Lemma config_failure_unmaps_window_witness :
  let run := spectrum_cs_config 0 (boot (answering true true true true false))
  in
  fst run = - ENODEV /\
  exists pre,
    trace (snd run) = pre ++ [EvSpinLock; EvSpinUnlock; EvDisableDevice;
                              EvIoportUnmap 0x10300].
Proof.
  intros run.
  pose (s := boot (answering true true true true false)).
  pose (s1 := snd (pcmcia_loop_config (spectrum_cs_config_check 0) s)).
  apply (config_failure_unmaps_window 0 (fst run) 0x10300 s s1 (snd run)
           (snd (fst (cs_request_irq (irq (link s1)) (outside s1))))
           (outside s1) (outside s1)).
  - intros h addr spacing. reflexivity.
  - intros p w r0 p' w' H. inversion H. reflexivity.
  - intros p b i w r0 p' w' H. inversion H. reflexivity.
  - vm_compute; reflexivity.
  - vm_compute; reflexivity.
  - vm_compute; reflexivity.
  - discriminate.
  - vm_compute; reflexivity.
  - vm_compute; discriminate.
Defined.

(** X10 on a socket that refuses the interrupt. *)
Lemma config_failure_runs_release_witness :
  let run := spectrum_cs_config 0 (boot (answering false true true true true))
  in
  fst run <> 0 /\
  fst run = - ENODEV /\
  exists s0, spectrum_cs_release s0 = (tt, snd run).
Proof.
  intros run.
  assert (Hr : fst run <> 0) by (vm_compute; discriminate).
  split; [exact Hr|].
  apply (config_failure_runs_release 0
           (boot (answering false true true true true)) (snd run) (fst run)).
  - vm_compute; reflexivity.
  - exact Hr.
Defined.

(** The same on a socket where every step succeeds. *)
Lemma config_success_inv_witness :
  let s := boot (answering true true true true true) in
  exists mem,
    mem <> 0 /\
    In (EvIoportMap 0x300 16 mem) (trace (snd (spectrum_cs_config 0 s))) /\
    dev_node (link (snd (spectrum_cs_config 0 s))) = true.
Proof.
  intros s.
  destruct (config_success_inv 0 s (snd (spectrum_cs_config 0 s)))
    as (s1 & irq' & w2 & mem & w3 & w4 & s4 & s5 & p6 & w6 & p7 & w7 &
        _ & _ & _ & Hmem & _ & _ & _ & _ & _ & _ & Hdev).
  - discriminate.
  - vm_compute; reflexivity.
  - exists 0x10300. split; [discriminate|].
    split; [vm_compute; auto 10 | exact Hdev].
Defined.

(** ** The lifecycle entry points *)

Section LifecycleEntryPoints.

Context {world : Type} {hdr : headers} {env : environment world}
        {phdr : probe_headers} {core : orinoco_core world}.

Variable ignore_cis_vcc : Z.

Ltac grow_step H :=
  match type of H with
  | context [cs_access_configuration_register ?q ?w] =>
      let rc := fresh "rc" in
      let resp := fresh "resp" in
      let w' := fresh "w" in
      destruct (cs_access_configuration_register q w) as [[rc resp] w'];
      cbn [fst snd negb outside link priv trace] in H;
      destruct (rc =? 0); cbn [fst snd negb outside link priv trace] in H;
      [| inversion H; subst; cbn [trace]; repeat rewrite <- app_assoc;
         eexists; reflexivity]
  end.

Lemma hard_reset_trace_grows (r : Z) (s s' : machine world) :
  spectrum_cs_hard_reset s = (r, s') -> exists new, trace s' = trace s ++ new.
Proof.
  unfold spectrum_cs_hard_reset, seq, done.
  destruct (spectrum_reset 0 s) as [r0 s1] eqn:E. intros H.
  inversion H; subst; clear H.
  unfold spectrum_reset in E.
  destruct (cs_dev_present (outside s)); cbn [negb] in E.
  2:{ inversion E; subst. exists []. now rewrite app_nil_r. }
  unfold labels, bind, CS_CHECK, pcmcia_access_configuration_register,
    call, udelay, cs_error, emit, ret, seq, done in E.
  cbn [outside link priv trace] in E.
  do 5 grow_step E.
  inversion E; subst; cbn [trace]; repeat rewrite <- app_assoc.
  eexists; reflexivity.
Qed.

(** After a successful configure the register window that was mapped is
    the one [hw.iobase] points to, when [hermes_struct_init] stores the
    address and the orinoco core leaves it alone. *)
Lemma config_success_window (s s' : machine world) :
  (forall h addr spacing, iobase (hermes_struct_init h addr spacing) = addr) ->
  (forall p w r0 p' w',
     core_orinoco_init p w = (r0, p', w') -> iobase (hw p') = iobase (hw p)) ->
  (forall p b i w r0 p' w',
     core_orinoco_if_add p b i w = (r0, p', w') ->
     iobase (hw p') = iobase (hw p)) ->
  ENODEV <> 0 ->
  spectrum_cs_config ignore_cis_vcc s = (0, s') ->
  exists port nr mem,
    mem <> 0 /\
    In (EvIoportMap port nr mem) (trace s') /\
    iobase (hw (priv s')) = mem /\
    dev_node (link s') = true.
Proof.
  intros Hhw Hinit Hadd HE H.
  unfold spectrum_cs_config, labels in H.
  match type of H with
  | (let (_, _) := ?b s in _) = _ =>
      destruct (b s) as [[a | l] s2] eqn:Eb
  end.
  2:{ destruct l as [fn rc |]; unfold seq, done in H.
      - destruct (cs_error fn rc s2) as [[] s3].
        destruct (spectrum_cs_release s3) as [[] s4].
        inversion H. lia.
      - destruct (spectrum_cs_release s2) as [[] s3].
        inversion H. lia. }
  inversion H; subst a s2; clear H.
  apply bind_normal in Eb. destruct Eb as (r0 & s1 & Escan & Eb).
  apply call_normal in Escan.
  apply bind_normal in Eb. destruct Eb as ([] & s1' & Ecase & Eb).
  destruct (Z.eqb_spec r0 0) as [-> | Hr0]; cbn [negb] in Ecase.
  2:{ apply bind_normal in Ecase. destruct Ecase as (? & ? & _ & Ecase).
      apply bind_normal in Ecase. destruct Ecase as (? & ? & _ & Ecase).
      now apply goto_normal in Ecase. }
  apply ret_normal in Ecase. destruct Ecase as [_ <-].
  apply bind_normal in Eb. destruct Eb as ([[fn1 rc1] []] & s2 & Eirq & Eb).
  apply CS_CHECK_normal in Eirq. destruct Eirq as (-> & -> & Eirq).
  unfold pcmcia_request_irq in Eirq.
  destruct (cs_request_irq (irq (link s1)) (outside s1)) as [[rq irq'] w2]
    eqn:Ecall_irq.
  inversion Eirq; subst rq s2; clear Eirq.
  apply bind_normal in Eb. destruct Eb as (mem & s3 & Emap & Eb).
  apply call_normal in Emap. unfold ioport_map in Emap.
  cbn [outside link priv trace set_irq io] in Emap.
  destruct (cs_ioport_map _ _ w2) as [mem' w3] eqn:Ecall_map.
  inversion Emap; subst mem' s3; clear Emap.
  apply bind_normal in Eb. destruct Eb as ([] & s3 & Ecase & Eb).
  destruct (Z.eqb_spec mem 0) as [-> | Hmem].
  { now apply goto_normal in Ecase. }
  apply ret_normal in Ecase. destruct Ecase as [_ <-].
  apply bind_normal in Eb. destruct Eb as ([] & s3 & Ehw & Eb).
  apply call_normal in Ehw. unfold modify_priv in Ehw.
  inversion Ehw; subst s3; clear Ehw.
  apply bind_normal in Eb. destruct Eb as ([[fn2 rc2] []] & s3 & Econf & Eb).
  apply CS_CHECK_normal in Econf. destruct Econf as (-> & -> & Econf).
  unfold pcmcia_request_configuration in Econf.
  cbn [outside link priv trace set_priv set_irq conf] in Econf.
  destruct (cs_request_configuration (conf (link s1)) w3) as [rq w4]
    eqn:Ecall_conf.
  inversion Econf; subst rq s3; clear Econf.
  apply bind_normal in Eb. destruct Eb as ([] & s4 & Enode & Eb).
  apply call_normal in Enode. unfold modify_priv in Enode.
  inversion Enode; clear Enode.
  apply bind_normal in Eb. destruct Eb as (r & s5 & Ereset & Eb).
  apply call_normal in Ereset.
  apply bind_normal in Eb. destruct Eb as ([] & s5' & Ecase & Eb).
  destruct (Z.eqb_spec r 0) as [-> | Hr]; cbn [negb] in Ecase.
  2:{ now apply goto_normal in Ecase. }
  apply ret_normal in Ecase. destruct Ecase as [_ <-].
  apply bind_normal in Eb. destruct Eb as (r6 & s6 & Einit & Eb).
  apply call_normal in Einit. unfold orinoco_init in Einit.
  destruct (core_orinoco_init (priv s5) (outside s5)) as [[r6' p6] w6]
    eqn:Ecall_init.
  inversion Einit; subst r6' s6; clear Einit.
  apply bind_normal in Eb. destruct Eb as ([] & s6 & Ecase & Eb).
  destruct (Z.eqb_spec r6 0) as [-> | Hr6]; cbn [negb] in Ecase.
  2:{ apply bind_normal in Ecase. destruct Ecase as (? & ? & _ & Ecase).
      now apply goto_normal in Ecase. }
  apply ret_normal in Ecase. destruct Ecase as [_ <-].
  apply bind_normal in Eb. destruct Eb as (r7 & s7 & Eadd & Eb).
  apply call_normal in Eadd. unfold orinoco_if_add in Eadd.
  cbn [outside link priv trace] in Eadd.
  destruct (core_orinoco_if_add p6 _ _ w6) as [[r7' p7] w7] eqn:Ecall_add.
  inversion Eadd; subst r7' s7; clear Eadd.
  apply bind_normal in Eb. destruct Eb as ([] & s7 & Ecase & Eb).
  destruct (Z.eqb_spec r7 0) as [-> | Hr7]; cbn [negb] in Ecase.
  2:{ apply bind_normal in Ecase. destruct Ecase as (? & ? & _ & Ecase).
      now apply goto_normal in Ecase. }
  apply ret_normal in Ecase. destruct Ecase as [_ <-].
  apply bind_normal in Eb. destruct Eb as ([] & s7 & Ename & Eb).
  apply call_normal in Ename. unfold modify_priv in Ename.
  inversion Ename; subst s7; clear Ename.
  apply bind_normal in Eb. destruct Eb as ([] & s8 & Enode & Eb).
  apply call_normal in Enode. unfold modify_link in Enode.
  inversion Enode; subst s8; clear Enode.
  apply ret_normal in Eb. destruct Eb as [_ <-].
  subst s4.
  destruct (hard_reset_frame _ _ _ Ereset) as [_ Hp5].
  destruct (hard_reset_trace_grows _ _ _ Ereset) as [new5 Ht5].
  cbn [priv set_priv trace] in Hp5, Ht5.
  exists (BasePort1 (io (link s1))), (NumPorts1 (io (link s1))), mem.
  cbn [trace priv link set_priv set_link set_card_node hw dev_node].
  split; [exact Hmem|]. split; [|split; [|reflexivity]].
  - rewrite Ht5. repeat rewrite <- app_assoc. cbn [app].
    apply in_or_app. right. cbn. auto.
  - rewrite (Hadd _ _ _ _ _ _ _ Ecall_add), (Hinit _ _ _ _ _ Ecall_init), Hp5.
    cbn [set_card_node hw set_hw]. apply Hhw.
Qed.


Lemma no_free_among_driver_calls (evs : list event) :
  existsb is_free (map EvDriver evs) = false.
Proof. induction evs as [|e evs IH]; [reflexivity | exact IH]. Qed.

Lemma config_failure_ends_in_release (s s' : machine world) (r : Z) :
  spectrum_cs_config ignore_cis_vcc s = (r, s') ->
  r <> 0 ->
  r = - ENODEV /\
  exists pre iob, trace s' = pre ++ release_calls iob.
Proof.
  unfold spectrum_cs_config, labels.
  match goal with
  | |- (match ?b s with _ => _ end) = _ -> _ =>
      assert (Hz : ends_with_zero b)
        by (repeat first [ apply ends_with_zero_ret
                         | apply ends_with_zero_bind; intros
                         | match goal with
                           | |- ends_with_zero (let '(_, _) := ?x in _) =>
                               destruct x
                           end ]);
      destruct (b s) as [[a | l] s1] eqn:Eb
  end.
  - intros H Hr. inversion H; subst. now rewrite (Hz _ _ _ Eb) in Hr.
  - intros H _. destruct l as [fn rc |]; unfold seq, done in H.
    + destruct (cs_error fn rc s1) as [[] s2].
      rewrite release_eq in H. inversion H; subst; clear H.
      split; [reflexivity|]. cbn [trace]. eauto.
    + rewrite release_eq in H. inversion H; subst; clear H.
      split; [reflexivity|]. cbn [trace]. eauto.
Qed.

(** X12. A probe that fails gives nothing back.  When the allocation of
    the context fails it returns [-ENOMEM] and has done nothing else.
    When the context was allocated and configure fails, it returns
    [-ENODEV]; the last calls it has made are those of
    [spectrum_cs_release], the structures stay linked, and the context is
    not freed: every call after the allocation is a call of configure. *)
Theorem failed_probe_keeps_context (r : Z) (a a' : attachment world) :
  spectrum_cs_probe ignore_cis_vcc a = (r, a') ->
  r <> 0 ->
  exists new,
    history a' = history a ++ new /\
    existsb is_free new = false /\
    ((r = - ENOMEM /\
      fst (core_alloc_orinocodev (at_outside a)) = None /\
      new = [EvAllocOrinocodev false] /\
      at_link a' = at_link a /\ at_priv a' = at_priv a /\
      at_linked a' = at_linked a)
     \/
     (r = - ENODEV /\
      fst (core_alloc_orinocodev (at_outside a)) <> None /\
      at_linked a' = true /\
      exists pre iob,
        new = EvAllocOrinocodev true ::
              map EvDriver (pre ++ release_calls iob))).
Proof.
  intros H Hr. unfold spectrum_cs_probe in H.
  destruct (core_alloc_orinocodev (at_outside a)) as [[p|] w] eqn:Ealloc.
  - unfold driver in H. cbn [at_outside at_link at_priv history at_linked
                             at_irq_Handler at_irq_Instance] in H.
    match type of H with
    | (let '(_, _) := ?c in _) = _ => destruct c as [x m] eqn:Ecfg
    end.
    inversion H; subst x a'; clear H.
    destruct (config_failure_ends_in_release _ _ _ Ecfg Hr)
      as (-> & pre & iob & Ht).
    cbn [trace app] in Ht.
    cbn [history at_linked at_irq_Handler at_irq_Instance at_link at_priv].
    exists (EvAllocOrinocodev true :: map EvDriver (trace m)).
    split; [rewrite <- app_assoc; reflexivity|].
    split; [cbn [existsb is_free orb]; apply no_free_among_driver_calls|].
    right. split; [reflexivity|]. split; [discriminate|].
    split; [reflexivity|].
    exists pre, iob. rewrite Ht. reflexivity.
  - inversion H; subst; clear H.
    cbn [history at_linked at_link at_priv].
    exists [EvAllocOrinocodev false].
    split; [reflexivity|]. split; [reflexivity|].
    left. repeat split.
Qed.

Lemma driver_release (a : attachment world) :
  driver spectrum_cs_release a =
  (tt,
   {| at_outside :=
        (if iobase (hw (at_priv a)) =? 0 then fun w => w
         else cs_ioport_unmap (iobase (hw (at_priv a))))
          (cs_disable_device (at_outside a));
      at_link := at_link a;
      at_priv := set_hw_unavailable (s32 (hw_unavailable (at_priv a) + 1))
                   (at_priv a);
      at_linked := at_linked a; at_irq_Handler := at_irq_Handler a;
      at_irq_Instance := at_irq_Instance a;
      history := history a ++
                 map EvDriver (release_calls (iobase (hw (at_priv a)))) |}).
Proof. unfold driver. rewrite release_eq. reflexivity. Qed.

(** X13. Detach unregisters the network interface only when
    [link->dev_node] is set, then releases the socket once, and frees the
    context as its last call; it leaves the device structure as it is, and
    the [int] counter [hw_unavailable] is incremented once, with
    wrap-around. *)
Theorem detach_sequence (a a' : attachment world) :
  spectrum_cs_detach a = (tt, a') ->
  exists p w,
    (p, w) = (if dev_node (at_link a)
              then core_orinoco_if_del (at_priv a) (at_outside a)
              else (at_priv a, at_outside a)) /\
    history a' =
      history a ++
      (if dev_node (at_link a) then [EvOrinocoIfDel] else []) ++
      map EvDriver (release_calls (iobase (hw p))) ++
      [EvFreeOrinocodev] /\
    at_link a' = at_link a /\
    hw_unavailable (at_priv a') = s32 (hw_unavailable p + 1).
Proof.
  intros H. unfold spectrum_cs_detach in H.
  destruct (dev_node (at_link a)).
  - destruct (core_orinoco_if_del (at_priv a) (at_outside a)) as [p w].
    rewrite driver_release in H. inversion H; subst; clear H.
    exists p, w. cbn [history at_link at_priv hw_unavailable
                      set_hw_unavailable].
    repeat rewrite <- app_assoc. repeat split.
  - rewrite driver_release in H. inversion H; subst; clear H.
    exists (at_priv a), (at_outside a).
    cbn [history at_link at_priv hw_unavailable set_hw_unavailable].
    repeat rewrite <- app_assoc. repeat split.
Qed.

(** X14. What a successful probe takes, detach gives back.  With a
    [hermes_struct_init] that stores the address in [hw.iobase] and an
    orinoco core that leaves that field alone: after a probe that returned
    0, detach unregisters the interface, disables the device, unmaps the
    very window probe mapped, and frees the context. *)
Theorem probe_then_detach (a a1 a2 : attachment world) :
  (forall h addr spacing, iobase (hermes_struct_init h addr spacing) = addr) ->
  (forall p w r0 p' w',
     core_orinoco_init p w = (r0, p', w') -> iobase (hw p') = iobase (hw p)) ->
  (forall p b i w r0 p' w',
     core_orinoco_if_add p b i w = (r0, p', w') ->
     iobase (hw p') = iobase (hw p)) ->
  (forall p w p' w',
     core_orinoco_if_del p w = (p', w') -> iobase (hw p') = iobase (hw p)) ->
  ENODEV <> 0 ->
  ENOMEM <> 0 ->
  spectrum_cs_probe ignore_cis_vcc a = (0, a1) ->
  spectrum_cs_detach a1 = (tt, a2) ->
  exists evs port nr mem,
    mem <> 0 /\
    history a1 = history a ++ EvAllocOrinocodev true :: map EvDriver evs /\
    In (EvIoportMap port nr mem) evs /\
    history a2 =
      history a1 ++
      [EvOrinocoIfDel; EvDriver EvSpinLock; EvDriver EvSpinUnlock;
       EvDriver EvDisableDevice; EvDriver (EvIoportUnmap mem);
       EvFreeOrinocodev].
Proof.
  intros Hhw Hinit Hadd Hdel HE HM Hprobe Hdetach.
  unfold spectrum_cs_probe in Hprobe.
  destruct (core_alloc_orinocodev (at_outside a)) as [[p|] w] eqn:Ealloc.
  2:{ inversion Hprobe. lia. }
  unfold driver in Hprobe.
  cbn [at_outside at_link at_priv history at_linked at_irq_Handler
       at_irq_Instance] in Hprobe.
  match type of Hprobe with
  | (let '(_, _) := ?c in _) = _ => destruct c as [x m] eqn:Ecfg
  end.
  inversion Hprobe; subst x a1; clear Hprobe.
  destruct (config_success_window _ _ Hhw Hinit Hadd HE Ecfg)
    as (port & nr & mem & Hmem & Hin & Hio & Hdev).
  exists (trace m), port, nr, mem.
  split; [exact Hmem|].
  split; [cbn [history]; rewrite <- app_assoc; reflexivity|].
  split; [exact Hin|].
  unfold spectrum_cs_detach in Hdetach.
  cbn [at_link at_priv at_outside] in Hdetach. rewrite Hdev in Hdetach.
  destruct (core_orinoco_if_del (priv m) (outside m)) as [p' w'] eqn:Edel.
  rewrite driver_release in Hdetach.
  inversion Hdetach; subst a2; clear Hdetach.
  cbn [history at_priv].
  rewrite (Hdel _ _ _ _ Edel), Hio.
  unfold release_calls. rewrite (proj2 (Z.eqb_neq _ _) Hmem).
  cbn [app map]. repeat rewrite <- app_assoc. reflexivity.
Qed.

End LifecycleEntryPoints.

(** *** The lifecycle entry points on the simulated socket *)

(** X12 on a socket that refuses the interrupt: the context has been
    allocated, configure fails and releases, and nothing is freed. *)
Lemma failed_probe_keeps_context_witness :
  let a := unbound (answering false true true true true) in
  let run := spectrum_cs_probe (core := roomy_core) 0 a in
  fst run = - ENODEV /\
  exists new,
    history (snd run) = history a ++ new /\
    existsb is_free new = false /\
    ((fst run = - ENOMEM /\
      fst (core_alloc_orinocodev (orinoco_core := roomy_core)
             (at_outside a)) = None /\
      new = [EvAllocOrinocodev false] /\
      at_link (snd run) = at_link a /\ at_priv (snd run) = at_priv a /\
      at_linked (snd run) = at_linked a)
     \/
     (fst run = - ENODEV /\
      fst (core_alloc_orinocodev (orinoco_core := roomy_core)
             (at_outside a)) <> None /\
      at_linked (snd run) = true /\
      exists pre iob,
        new = EvAllocOrinocodev true ::
              map EvDriver (pre ++ release_calls iob))).
Proof.
  intros a run. split; [vm_compute; reflexivity|].
  apply (failed_probe_keeps_context (core := roomy_core) 0 (fst run) a
           (snd run)).
  - vm_compute; reflexivity.
  - vm_compute; discriminate.
Defined.

(** X13 on an attachment that a successful probe has configured: the
    interface is unregistered and the mapped window is unmapped. *)
Lemma detach_sequence_witness :
  let a := snd (spectrum_cs_probe (core := roomy_core) 0
                  (unbound (answering true true true true true))) in
  let a' := snd (spectrum_cs_detach (core := roomy_core) a) in
  (dev_node (at_link a) = true /\ iobase (hw (at_priv a)) <> 0) /\
  exists p w,
    (p, w) = (if dev_node (at_link a)
              then core_orinoco_if_del (orinoco_core := roomy_core)
                     (at_priv a) (at_outside a)
              else (at_priv a, at_outside a)) /\
    history a' =
      history a ++
      (if dev_node (at_link a) then [EvOrinocoIfDel] else []) ++
      map EvDriver (release_calls (iobase (hw p))) ++
      [EvFreeOrinocodev] /\
    at_link a' = at_link a /\
    hw_unavailable (at_priv a') = s32 (hw_unavailable p + 1).
Proof.
  intros a a'. split.
  { split; [vm_compute; reflexivity | vm_compute; discriminate]. }
  apply (detach_sequence (core := roomy_core) a a').
  vm_compute; reflexivity.
Defined.

(** X14 on a socket where every step succeeds. *)
Lemma probe_then_detach_witness :
  let a := unbound (answering true true true true true) in
  let a1 := snd (spectrum_cs_probe (core := roomy_core) 0 a) in
  let a2 := snd (spectrum_cs_detach (core := roomy_core) a1) in
  exists evs port nr mem,
    mem <> 0 /\
    history a1 = history a ++ EvAllocOrinocodev true :: map EvDriver evs /\
    In (EvIoportMap port nr mem) evs /\
    history a2 =
      history a1 ++
      [EvOrinocoIfDel; EvDriver EvSpinLock; EvDriver EvSpinUnlock;
       EvDriver EvDisableDevice; EvDriver (EvIoportUnmap mem);
       EvFreeOrinocodev].
Proof.
  intros a a1 a2.
  apply (probe_then_detach (core := roomy_core) 0 a a1 a2).
  - intros h addr spacing. reflexivity.
  - intros p w r0 p' w' H. inversion H. reflexivity.
  - intros p b i w r0 p' w' H. inversion H. reflexivity.
  - intros p w p' w' H. inversion H. reflexivity.
  - discriminate.
  - discriminate.
  - vm_compute; reflexivity.
  - vm_compute; reflexivity.
Defined.

(** ** When configure succeeds *)

Section ConfigureCriterion.

Context {world : Type} {hdr : headers} {env : environment world}.

Variable ignore_cis_vcc : Z.

Lemma bind_run {L A B} (m : body world L A) (k : A -> body world L B)
  (s s1 : machine world) (a : A) :
  m s = (Normal L a, s1) -> bind m k s = k a s1.
Proof. unfold bind. intros ->. reflexivity. Qed.

Lemma call_run {L A} (f : ST world A) (s s1 : machine world) (a : A) :
  f s = (a, s1) -> call (L := L) f s = (Normal L a, s1).
Proof. unfold call. intros ->. reflexivity. Qed.

Lemma CS_CHECK_run {L A} (cs_failed : service -> Z -> L) (fn : service)
  (f : ST world (Z * A)) (s s1 : machine world) (a : A) :
  f s = (0, a, s1) ->
  CS_CHECK cs_failed fn f s = (Normal L (fn, 0, a), s1).
Proof. unfold CS_CHECK. intros ->. reflexivity. Qed.

Lemma hard_reset_state (s : machine world) :
  spectrum_cs_hard_reset s = (0, snd (spectrum_reset 0 s)).
Proof.
  unfold spectrum_cs_hard_reset, seq, done.
  destruct (spectrum_reset 0 s) as [r s']. reflexivity.
Qed.

(** X11. Configure returns 0 exactly when the scan of the configuration
    table, [pcmcia_request_irq], [ioport_map] (a window that is not NULL),
    [pcmcia_request_configuration], [orinoco_init] and [orinoco_if_add]
    succeed, each on the state the step before it left.  The value
    [spectrum_reset] returns is not among the conditions: only the state
    the reset leaves is handed on.  The end state then has [dev_node] set
    and the device node named after the network device. *)
Theorem config_success_criterion (s s' : machine world) :
  ENODEV <> 0 ->
  spectrum_cs_config ignore_cis_vcc s = (0, s') <->
  exists s1 irq' w2 mem w3 w4 p6 w6 p7 w7,
    pcmcia_loop_config (spectrum_cs_config_check ignore_cis_vcc) s = (0, s1) /\
    cs_request_irq (irq (link s1)) (outside s1) = (0, irq', w2) /\
    cs_ioport_map (BasePort1 (io (link s1))) (NumPorts1 (io (link s1))) w2
    = (mem, w3) /\
    mem <> 0 /\
    cs_request_configuration (conf (link s1)) w3 = (0, w4) /\
    let s5 := snd (spectrum_reset 0 (socket_configured s1 irq' mem w4)) in
    core_orinoco_init (priv s5) (outside s5) = (0, p6, w6) /\
    core_orinoco_if_add p6 (BasePort1 (io (link s5)))
      (AssignedIRQ (irq (link s5))) w6 = (0, p7, w7) /\
    s' = interface_registered s5 p7 w7.
Proof.
  intros HE. split.
  - intros H.
    unfold spectrum_cs_config, labels in H.
    match type of H with
    | (let (_, _) := ?b s in _) = _ =>
        destruct (b s) as [[a | l] s2] eqn:Eb
    end.
    2:{ destruct l as [fn rc |]; unfold seq, done in H.
        - destruct (cs_error fn rc s2) as [[] s3].
          destruct (spectrum_cs_release s3) as [[] s4].
          inversion H. lia.
        - destruct (spectrum_cs_release s2) as [[] s3].
          inversion H. lia. }
    inversion H; subst a s2; clear H.
    apply bind_normal in Eb. destruct Eb as (r0 & s1 & Escan & Eb).
    apply call_normal in Escan.
    apply bind_normal in Eb. destruct Eb as ([] & s1' & Ecase & Eb).
    destruct (Z.eqb_spec r0 0) as [-> | Hr0]; cbn [negb] in Ecase.
    2:{ apply bind_normal in Ecase. destruct Ecase as (? & ? & _ & Ecase).
        apply bind_normal in Ecase. destruct Ecase as (? & ? & _ & Ecase).
        now apply goto_normal in Ecase. }
    apply ret_normal in Ecase. destruct Ecase as [_ <-].
    apply bind_normal in Eb. destruct Eb as ([[fn1 rc1] []] & s2 & Eirq & Eb).
    apply CS_CHECK_normal in Eirq. destruct Eirq as (-> & -> & Eirq).
    unfold pcmcia_request_irq in Eirq.
    destruct (cs_request_irq (irq (link s1)) (outside s1)) as [[rq irq'] w2]
      eqn:Ecall_irq.
    inversion Eirq; subst rq s2; clear Eirq.
    apply bind_normal in Eb. destruct Eb as (mem & s3 & Emap & Eb).
    apply call_normal in Emap. unfold ioport_map in Emap.
    cbn [outside link priv trace set_irq io] in Emap.
    destruct (cs_ioport_map _ _ w2) as [mem' w3] eqn:Ecall_map.
    inversion Emap; subst mem' s3; clear Emap.
    apply bind_normal in Eb. destruct Eb as ([] & s3 & Ecase & Eb).
    destruct (Z.eqb_spec mem 0) as [-> | Hmem].
    { now apply goto_normal in Ecase. }
    apply ret_normal in Ecase. destruct Ecase as [_ <-].
    apply bind_normal in Eb. destruct Eb as ([] & s3 & Ehw & Eb).
    apply call_normal in Ehw. unfold modify_priv in Ehw.
    inversion Ehw; subst s3; clear Ehw.
    apply bind_normal in Eb.
    destruct Eb as ([[fn2 rc2] []] & s3 & Econf & Eb).
    apply CS_CHECK_normal in Econf. destruct Econf as (-> & -> & Econf).
    unfold pcmcia_request_configuration in Econf.
    cbn [outside link priv trace set_priv set_irq conf] in Econf.
    destruct (cs_request_configuration (conf (link s1)) w3) as [rq w4]
      eqn:Ecall_conf.
    inversion Econf; subst rq s3; clear Econf.
    apply bind_normal in Eb. destruct Eb as ([] & s4 & Enode & Eb).
    apply call_normal in Enode. unfold modify_priv in Enode.
    inversion Enode; clear Enode.
    apply bind_normal in Eb. destruct Eb as (r & s5 & Ereset & Eb).
    apply call_normal in Ereset.
    apply bind_normal in Eb. destruct Eb as ([] & s5' & Ecase & Eb).
    destruct (Z.eqb_spec r 0) as [-> | Hr]; cbn [negb] in Ecase.
    2:{ now apply goto_normal in Ecase. }
    apply ret_normal in Ecase. destruct Ecase as [_ <-].
    apply bind_normal in Eb. destruct Eb as (r6 & s6 & Einit & Eb).
    apply call_normal in Einit. unfold orinoco_init in Einit.
    destruct (core_orinoco_init (priv s5) (outside s5)) as [[r6' p6] w6]
      eqn:Ecall_init.
    inversion Einit; subst r6' s6; clear Einit.
    apply bind_normal in Eb. destruct Eb as ([] & s6 & Ecase & Eb).
    destruct (Z.eqb_spec r6 0) as [-> | Hr6]; cbn [negb] in Ecase.
    2:{ apply bind_normal in Ecase. destruct Ecase as (? & ? & _ & Ecase).
        now apply goto_normal in Ecase. }
    apply ret_normal in Ecase. destruct Ecase as [_ <-].
    apply bind_normal in Eb. destruct Eb as (r7 & s7 & Eadd & Eb).
    apply call_normal in Eadd. unfold orinoco_if_add in Eadd.
    cbn [outside link priv trace] in Eadd.
    destruct (core_orinoco_if_add p6 _ _ w6) as [[r7' p7] w7] eqn:Ecall_add.
    inversion Eadd; subst r7' s7; clear Eadd.
    apply bind_normal in Eb. destruct Eb as ([] & s7 & Ecase & Eb).
    destruct (Z.eqb_spec r7 0) as [-> | Hr7]; cbn [negb] in Ecase.
    2:{ apply bind_normal in Ecase. destruct Ecase as (? & ? & _ & Ecase).
        now apply goto_normal in Ecase. }
    apply ret_normal in Ecase. destruct Ecase as [_ <-].
    apply bind_normal in Eb. destruct Eb as ([] & s7 & Ename & Eb).
    apply call_normal in Ename. unfold modify_priv in Ename.
    inversion Ename; subst s7; clear Ename.
    apply bind_normal in Eb. destruct Eb as ([] & s8 & Enode & Eb).
    apply call_normal in Enode. unfold modify_link in Enode.
    inversion Enode; subst s8; clear Enode.
    apply ret_normal in Eb. destruct Eb as [_ <-].
    exists s1, irq', w2, mem, w3, w4, p6, w6, p7, w7.
    subst s4.
    rewrite hard_reset_state in Ereset.
    repeat rewrite <- app_assoc in Ereset. cbn [app] in Ereset.
    assert (E5 : s5 = snd (spectrum_reset 0 (socket_configured s1 irq' mem w4))).
    { inversion Ereset as [E]. reflexivity. }
    cbv zeta. rewrite <- E5.
    repeat split; try assumption.
    unfold interface_registered, set_link, set_priv.
    cbn [outside link priv trace].
    repeat rewrite <- app_assoc. reflexivity.
  - intros (s1 & irq' & w2 & mem & w3 & w4 & p6 & w6 & p7 & w7 &
            Hloop & Hirq & Hmap & Hmem & Hconf & H).
    cbv zeta in H. destruct H as (Hinit & Hadd & ->).
    unfold spectrum_cs_config, labels.
    match goal with
    | |- (let (_, _) := ?b s in _) = _ =>
        assert (Hb : b s =
                     (Normal _ 0,
                      interface_registered
                        (snd (spectrum_reset 0
                                (socket_configured s1 irq' mem w4)))
                        p7 w7));
        [|rewrite Hb; reflexivity]
    end.
    rewrite (bind_run _ _ _ _ _ (call_run _ _ _ _ Hloop)).
    cbn [Z.eqb negb].
    cbv beta iota. erewrite bind_run by reflexivity.
    cbv beta iota. erewrite bind_run
      by (apply CS_CHECK_run; unfold pcmcia_request_irq; rewrite Hirq;
          reflexivity).
    cbv beta iota. erewrite bind_run
      by (apply call_run; unfold ioport_map;
          cbn [outside link priv trace set_irq io]; rewrite Hmap;
          reflexivity).
    cbv beta iota. rewrite (proj2 (Z.eqb_neq _ _) Hmem).
    cbv beta iota. erewrite bind_run by reflexivity.
    cbv beta iota. erewrite bind_run by (apply call_run; reflexivity).
    cbv beta iota. erewrite bind_run
      by (apply CS_CHECK_run; unfold pcmcia_request_configuration;
          cbn [outside link priv trace set_priv set_irq conf modify_priv];
          rewrite Hconf; reflexivity).
    cbv beta iota. erewrite bind_run by (apply call_run; reflexivity).
    cbv beta iota. erewrite bind_run by (apply call_run; apply hard_reset_state).
    cbn [Z.eqb negb].
    cbv beta iota. erewrite bind_run by reflexivity.
    cbv beta iota.
    match goal with
    | |- context [spectrum_reset 0 ?x] =>
        replace x with (socket_configured s1 irq' mem w4)
          by (unfold socket_configured, set_priv;
              cbn [outside link priv trace];
              repeat rewrite <- app_assoc; reflexivity)
    end.
    remember (snd (spectrum_reset 0 (socket_configured s1 irq' mem w4)))
      as s5 eqn:E5 in *.
    clear E5.
    erewrite bind_run
      by (apply call_run; unfold orinoco_init; rewrite Hinit; reflexivity).
    cbv beta iota. cbn [Z.eqb negb].
    erewrite bind_run by reflexivity.
    cbv beta iota.
    erewrite bind_run
      by (apply call_run; unfold orinoco_if_add;
          cbn [outside link priv trace]; rewrite Hadd; reflexivity).
    cbv beta iota. cbn [Z.eqb negb].
    erewrite bind_run by reflexivity.
    cbv beta iota. erewrite bind_run by (apply call_run; reflexivity).
    cbv beta iota. erewrite bind_run by (apply call_run; reflexivity).
    unfold ret, interface_registered, modify_link, modify_priv, set_link,
      set_priv.
    cbn [outside link priv trace].
    repeat rewrite <- app_assoc. reflexivity.
Qed.

End ConfigureCriterion.

(** X11 on a socket where every step succeeds. *)
Lemma config_success_criterion_witness :
  let s := boot (answering true true true true true) in
  let s' := snd (spectrum_cs_config 0 s) in
  spectrum_cs_config 0 s = (0, s') /\
  dev_node (link s') = true /\
  exists s1 irq' w2 mem w3 w4 p6 w6 p7 w7,
    pcmcia_loop_config (spectrum_cs_config_check 0) s = (0, s1) /\
    cs_request_irq (irq (link s1)) (outside s1) = (0, irq', w2) /\
    cs_ioport_map (BasePort1 (io (link s1))) (NumPorts1 (io (link s1))) w2
    = (mem, w3) /\
    mem <> 0 /\
    cs_request_configuration (conf (link s1)) w3 = (0, w4) /\
    let s5 := snd (spectrum_reset 0 (socket_configured s1 irq' mem w4)) in
    core_orinoco_init (priv s5) (outside s5) = (0, p6, w6) /\
    core_orinoco_if_add p6 (BasePort1 (io (link s5)))
      (AssignedIRQ (irq (link s5))) w6 = (0, p7, w7) /\
    s' = interface_registered s5 p7 w7.
Proof.
  intros s s'.
  assert (Hrun : spectrum_cs_config 0 s = (0, s'))
    by (vm_compute; reflexivity).
  assert (HE : ENODEV <> 0) by discriminate.
  split; [exact Hrun|]. split; [vm_compute; reflexivity|].
  exact (proj1 (config_success_criterion 0 s s' HE) Hrun).
Defined.
